(** * Trade Guardian: the risk engine and the trading context

    A shallow embedding of [src/lib/riskEngine.ts], [src/types/trading.ts]
    and the portfolio and trade transitions of
    [src/context/TradingContext.tsx].

    TypeScript's [number] is an IEEE-754 binary64 value.  It is embedded as
    Rocq's primitive [float], which is the same format with the same
    round-to-nearest-even arithmetic, so every arithmetic expression of the
    source is evaluated here exactly as a JavaScript engine evaluates it,
    NaN, the infinities and the two zeros included. *)

From Stdlib Require Import ZArith List Bool Lia String.
From Stdlib Require Import Floats.
From Stdlib Require Uint63.
Import ListNotations.

#[local] Set Warnings "-inexact-float".

(** ** JavaScript numbers *)

Module JS.

Local Open Scope float_scope.

Definition number := float.

(** [a > b] and [a >= b] are [b < a] and [b <= a]; every comparison with
    NaN is false. *)
Definition gt (a b : number) : bool := b <? a.
Definition ge (a b : number) : bool := b <=? a.

(** [a === b] on numbers: false on NaN, true on [+0 === -0]. *)
Definition strict_eq (a b : number) : bool := a =? b.

(** ToBoolean on a number: [+0], [-0] and NaN are falsy. *)
Definition truthy (x : number) : bool := negb (is_nan x || (x =? 0)).

(** An integer-valued count (an array length, a loop counter) as a number. *)
Definition of_nat (n : nat) : number := of_uint63 (Uint63.of_Z (Z.of_nat n)).

Definition Math_abs (x : number) : number := abs x.

(** [Math.max] and [Math.min] of two arguments: NaN if either is NaN, and
    [+0] is larger than [-0]. *)
Definition Math_max (a b : number) : number :=
  if is_nan a || is_nan b then nan
  else if a <? b then b
  else if b <? a then a
  else if get_sign a then b else a.

Definition Math_min (a b : number) : number :=
  if is_nan a || is_nan b then nan
  else if a <? b then a
  else if b <? a then b
  else if get_sign a then a else b.

(** [Math.floor], on the sign, mantissa and exponent of the argument
    ([x = (-1)^s * m * 2^e]).  With [e >= 0] the value is an integer.
    Otherwise the [-e] low bits of [m] are the fraction: they are cleared
    when rounding towards zero is rounding down, and the integer part is
    bumped by one for a negative argument with a non-zero fraction.  NaN,
    the infinities and the zeros are returned unchanged. *)
Definition SFfloor (x : spec_float) : spec_float :=
  match x with
  | S754_finite s m e =>
      if (0 <=? e)%Z then x
      else
        let k := (- e)%Z in
        let q := Z.shiftr (Zpos m) k in
        if (Z.shiftl q k =? Zpos m)%Z then x
        else if s then
          match q with
          | Z0 => S754_finite true 4503599627370496 (-52)
          | _ =>
              let m' := Z.shiftl (q + 1) k in
              if (m' =? 9007199254740992)%Z
              then S754_finite true 4503599627370496 (e + 1)
              else S754_finite true (Z.to_pos m') e
          end
        else
          match q with
          | Z0 => S754_zero false
          | _ => S754_finite false (Z.to_pos (Z.shiftl q k)) e
          end
  | _ => x
  end.

Definition Math_floor (x : number) : number := SF2Prim (SFfloor (Prim2SF x)).

End JS.

Import JS.

(** ** [src/types/trading.ts] *)

Inductive Side := LONG | SHORT.
Inductive Status := OPEN | CLOSED | CANCELLED.
Inductive StreakType := WIN | LOSS | NONE.

(** An optional property [p?: T] is [option T]; [None] is [undefined]. *)
Module Trade.
Record t := mk {
  id : string;
  date : string;
  instrument : string;
  side : Side;
  entryPrice : number;
  stopLoss : number;
  target : number;
  quantity : number;
  exitPrice : option number;
  pnl : option number;
  riskReward : number;
  status : Status;
  notes : option string
}.
End Trade.

Module RiskLimits.
Record t := mk {
  riskPerTrade : number;
  dailyLossLimit : number;
  weeklyLossLimit : number;
  monthlyLossLimit : number
}.
End RiskLimits.

Module PortfolioState.
Record t := mk {
  capital : number;
  leverage : number;
  effectiveCapital : number;
  currentEquity : number;
  peakEquity : number;
  dailyPnL : number;
  weeklyPnL : number;
  monthlyPnL : number;
  drawdown : number;
  maxDrawdown : number;
  isTradingLocked : bool;
  lockReason : option string
}.
End PortfolioState.

(** [Partial<PortfolioState>]: a field is [Some v] when the object literal
    carries the key. *)
Module PortfolioUpdates.
Record t := mk {
  capital : option number;
  leverage : option number;
  effectiveCapital : option number;
  currentEquity : option number;
  peakEquity : option number;
  dailyPnL : option number;
  weeklyPnL : option number;
  monthlyPnL : option number;
  drawdown : option number;
  maxDrawdown : option number;
  isTradingLocked : option bool;
  lockReason : option (option string)
}.
Definition empty : t :=
  mk None None None None None None None None None None None None.
End PortfolioUpdates.

Module PositionSizeResult.
Record t := mk {
  quantity : number;
  positionSize : number;
  marginRequired : number;
  maxLoss : number;
  maxProfit : number;
  riskAmount : number
}.
End PositionSizeResult.

(** Counts and streak lengths are array lengths and counters that only
    ever go up by one: integer-valued numbers, kept as [nat]. *)
Module PerformanceMetrics.
Record t := mk {
  totalTrades : nat;
  winningTrades : nat;
  losingTrades : nat;
  winRate : number;
  avgWin : number;
  avgLoss : number;
  expectancy : number;
  profitFactor : number;
  maxWinStreak : nat;
  maxLossStreak : nat;
  currentStreak : nat;
  streakType : StreakType
}.
End PerformanceMetrics.

Module CompoundingProjection.
Record t := mk {
  month : nat;
  capital : number;
  profit : number;
  cumulativeProfit : number
}.
End CompoundingProjection.

Module MarginResult.
Record t := mk {
  futuresMargin : number;
  optionsPremium : number;
  optionsSellingMargin : number;
  totalExposure : number
}.
End MarginResult.

Inductive InstrumentType := FUTURES | OPTIONS_BUY | OPTIONS_SELL.

(** The messages of [validateTrade] are template strings.  A message is
    kept as its template together with the values interpolated into it;
    the rendering of a number as text ([toFixed], [toString]) is not part
    of the model. *)
Inductive Message :=
| RiskRewardBelowMinimum (riskReward : number)
    (* `Risk-Reward ratio ${riskReward.toFixed(2)} is below minimum 1:2` *)
| RiskExceedsLimit (riskPercent riskPerTrade : number)
    (* `Risk ${riskPercent}% exceeds limit of ${limits.riskPerTrade}%` *)
| DailyLossLimitBreached (dailyLossLimit : number)
| WeeklyLossLimitBreached (weeklyLossLimit : number)
| MonthlyLossLimitBreached (monthlyLossLimit : number)
| DrawdownElevated (drawdown : number)
    (* `Current drawdown ${portfolio.drawdown.toFixed(2)}% is elevated` *)
| DrawdownExceedsMaximum (drawdown : number)
    (* `Drawdown ${portfolio.drawdown.toFixed(2)}% exceeds maximum threshold` *)
| TradingIsLocked (lockReason : option string).
    (* `Trading is locked: ${portfolio.lockReason}` *)

Module ValidationResult.
Record t := mk {
  isValid : bool;
  errors : list Message;
  warnings : list Message
}.
End ValidationResult.

Module SessionState.
Record t := mk {
  startTime : Z;
  isActive : bool;
  tradesCount : nat;
  cooldownEndTime : option Z;
  consecutiveLosses : nat
}.
End SessionState.

(** ** [src/lib/riskEngine.ts] *)

Module RiskEngine.

Local Open Scope float_scope.

Definition DEFAULT_RISK_LIMITS : RiskLimits.t :=
  RiskLimits.mk 1 3 6 12.

Definition calculatePositionSize
    (capital riskPercent stopLossPercent entryPrice leverage : number)
    : PositionSizeResult.t :=
  let effectiveCapital := capital * leverage in
  let riskAmount := (capital * riskPercent) / 100 in
  let stopLossAmount := (entryPrice * stopLossPercent) / 100 in
  let quantity :=
    if gt stopLossAmount 0 then Math_floor (riskAmount / stopLossAmount) else 0 in
  let positionSize := quantity * entryPrice in
  let marginRequired := positionSize / leverage in
  let maxLoss := riskAmount in
  let maxProfit := riskAmount * 2 in
  PositionSizeResult.mk quantity positionSize marginRequired maxLoss maxProfit riskAmount.

Definition calculateDrawdown (currentEquity peakEquity : number) : number :=
  if peakEquity <=? 0 then 0
  else ((peakEquity - currentEquity) / peakEquity) * 100.

(** [errors.push] and [warnings.push] append at the end. *)
Definition push {A} (l : list A) (x : A) : list A := l ++ [x].

Definition validateTrade
    (riskReward riskPercent : number)
    (limits : RiskLimits.t) (portfolio : PortfolioState.t)
    : ValidationResult.t :=
  let errors : list Message := [] in
  let warnings : list Message := [] in
  let errors :=
    if riskReward <? 2 then push errors (RiskRewardBelowMinimum riskReward)
    else errors in
  let errors :=
    if gt riskPercent (RiskLimits.riskPerTrade limits)
    then push errors (RiskExceedsLimit riskPercent (RiskLimits.riskPerTrade limits))
    else errors in
  let dailyLossPercent :=
    (Math_abs (PortfolioState.dailyPnL portfolio) / PortfolioState.capital portfolio) * 100 in
  let errors :=
    if (PortfolioState.dailyPnL portfolio <? 0)
       && ge dailyLossPercent (RiskLimits.dailyLossLimit limits)
    then push errors (DailyLossLimitBreached (RiskLimits.dailyLossLimit limits))
    else errors in
  let weeklyLossPercent :=
    (Math_abs (PortfolioState.weeklyPnL portfolio) / PortfolioState.capital portfolio) * 100 in
  let errors :=
    if (PortfolioState.weeklyPnL portfolio <? 0)
       && ge weeklyLossPercent (RiskLimits.weeklyLossLimit limits)
    then push errors (WeeklyLossLimitBreached (RiskLimits.weeklyLossLimit limits))
    else errors in
  let monthlyLossPercent :=
    (Math_abs (PortfolioState.monthlyPnL portfolio) / PortfolioState.capital portfolio) * 100 in
  let errors :=
    if (PortfolioState.monthlyPnL portfolio <? 0)
       && ge monthlyLossPercent (RiskLimits.monthlyLossLimit limits)
    then push errors (MonthlyLossLimitBreached (RiskLimits.monthlyLossLimit limits))
    else errors in
  let warnings :=
    if gt (PortfolioState.drawdown portfolio) 10
    then push warnings (DrawdownElevated (PortfolioState.drawdown portfolio))
    else warnings in
  let errors :=
    if gt (PortfolioState.drawdown portfolio) 20
    then push errors (DrawdownExceedsMaximum (PortfolioState.drawdown portfolio))
    else errors in
  let errors :=
    if PortfolioState.isTradingLocked portfolio
    then push errors (TradingIsLocked (PortfolioState.lockReason portfolio))
    else errors in
  ValidationResult.mk (Nat.eqb (List.length errors) 0) errors warnings.

Definition calculateKellyCriterion (winRate avgWin avgLoss : number) : number :=
  if strict_eq avgLoss 0 || strict_eq winRate 0 || strict_eq winRate 1 then 0
  else
    let winProbability := winRate / 100 in
    let lossRatio := avgWin / avgLoss in
    let kelly := winProbability - ((1 - winProbability) / lossRatio) in
    Math_max 0 (Math_min (kelly * 50) 25).

(** [t.pnl ?? 0] *)
Definition pnl_or_0 (t : Trade.t) : number :=
  match Trade.pnl t with Some p => p | None => 0 end.

Definition is_closed (t : Trade.t) : bool :=
  match Trade.status t, Trade.pnl t with
  | CLOSED, Some _ => true
  | _, _ => false
  end.

(** The four counters of the streak loop. *)
Record Streaks := mkStreaks {
  maxWinStreak : nat;
  maxLossStreak : nat;
  currentWinStreak : nat;
  currentLossStreak : nat
}.

(** The body of [closedTrades.forEach(trade => ...)]. *)
Definition streak_step (s : Streaks) (trade : Trade.t) : Streaks :=
  if gt (pnl_or_0 trade) 0 then
    let currentWinStreak := S (currentWinStreak s) in
    mkStreaks (Nat.max (maxWinStreak s) currentWinStreak) (maxLossStreak s)
              currentWinStreak 0
  else
    let currentLossStreak := S (currentLossStreak s) in
    mkStreaks (maxWinStreak s) (Nat.max (maxLossStreak s) currentLossStreak)
              0 currentLossStreak.

Definition sum_pnl (l : list Trade.t) : number :=
  fold_left (fun sum t => sum + pnl_or_0 t) l 0.

Definition calculatePerformanceMetrics (trades : list Trade.t) : PerformanceMetrics.t :=
  let closedTrades := filter is_closed trades in
  if Nat.eqb (List.length closedTrades) 0 then
    PerformanceMetrics.mk 0 0 0 0 0 0 0 0 0 0 0 NONE
  else
    let winningTrades := filter (fun t => gt (pnl_or_0 t) 0) closedTrades in
    let losingTrades := filter (fun t => pnl_or_0 t <? 0) closedTrades in
    let totalWins := sum_pnl winningTrades in
    let totalLosses := Math_abs (sum_pnl losingTrades) in
    let avgWin :=
      if Nat.ltb 0 (List.length winningTrades)
      then totalWins / of_nat (List.length winningTrades) else 0 in
    let avgLoss :=
      if Nat.ltb 0 (List.length losingTrades)
      then totalLosses / of_nat (List.length losingTrades) else 0 in
    let winRate :=
      (of_nat (List.length winningTrades) / of_nat (List.length closedTrades)) * 100 in
    let expectancy := avgWin * (winRate / 100) - avgLoss * (1 - winRate / 100) in
    let profitFactor :=
      if gt totalLosses 0 then totalWins / totalLosses
      else if gt totalWins 0 then infinity else 0 in
    let s := fold_left streak_step closedTrades (mkStreaks 0 0 0 0) in
    let lastTrade := last (map Some closedTrades) None in
    let streakType :=
      match lastTrade with
      | Some t =>
          if gt (pnl_or_0 t) 0 then WIN
          else if pnl_or_0 t <? 0 then LOSS
          else NONE
      | None => NONE
      end in
    let currentStreak :=
      match streakType with
      | WIN => currentWinStreak s
      | LOSS => currentLossStreak s
      | NONE => 0%nat
      end in
    PerformanceMetrics.mk
      (List.length closedTrades) (List.length winningTrades) (List.length losingTrades)
      winRate avgWin avgLoss expectancy profitFactor
      (maxWinStreak s) (maxLossStreak s) currentStreak streakType.

(** [for (let month = 1; month <= months; month++)] with [months] an
    integer: [remaining] is the number of iterations still to run. *)
Fixpoint compounding_loop (monthlyReturnPercent : number)
    (remaining month : nat) (capital cumulativeProfit : number)
    (projections : list CompoundingProjection.t)
    : list CompoundingProjection.t :=
  match remaining with
  | O => projections
  | S remaining' =>
      let profit := capital * (monthlyReturnPercent / 100) in
      let capital := capital + profit in
      let cumulativeProfit := cumulativeProfit + profit in
      compounding_loop monthlyReturnPercent remaining' (S month)
        capital cumulativeProfit
        (push projections
           (CompoundingProjection.mk month capital profit cumulativeProfit))
  end.

Definition calculateCompounding
    (startCapital monthlyReturnPercent : number) (months : nat)
    : list CompoundingProjection.t :=
  compounding_loop monthlyReturnPercent months 1 startCapital 0 [].

Definition getAdjustedRiskForDrawdown (baseRisk drawdownPercent : number) : number :=
  if drawdownPercent <? 5 then baseRisk
  else if drawdownPercent <? 10 then baseRisk * 0.75
  else if drawdownPercent <? 15 then baseRisk * 0.5
  else if drawdownPercent <? 20 then baseRisk * 0.25
  else 0.

(** [optionPremium ?? 0] *)
Definition premium_or_0 (optionPremium : option number) : number :=
  match optionPremium with Some p => p | None => 0 end.

(** [lotSize] has the default 1 at the call sites that omit it. *)
Definition calculateMarginRequirements
    (instrumentPrice quantity : number) (instrumentType : InstrumentType)
    (optionPremium : option number) (lotSize : number) : MarginResult.t :=
  let contractValue := instrumentPrice * quantity * lotSize in
  match instrumentType with
  | FUTURES =>
      MarginResult.mk (contractValue * 0.12) 0 0 contractValue
  | OPTIONS_BUY =>
      MarginResult.mk 0 (premium_or_0 optionPremium * quantity * lotSize) 0
        contractValue
  | OPTIONS_SELL =>
      MarginResult.mk 0 0
        (contractValue * 0.15 + premium_or_0 optionPremium * quantity * lotSize)
        contractValue
  end.

End RiskEngine.

(** ** [src/context/TradingContext.tsx] *)

Module TradingContext.

Local Open Scope float_scope.

Definition DEFAULT_PORTFOLIO : PortfolioState.t :=
  PortfolioState.mk 100000 1 100000 100000 100000 0 0 0 0 0 false None.

(** The four [useState] cells of [TradingProvider] that the transitions
    below read and write. *)
Record State := mkState {
  portfolio : PortfolioState.t;
  trades : list Trade.t;
  riskLimits : RiskLimits.t;
  session : SessionState.t
}.

Definition or_else {A} (o : option A) (d : A) : A :=
  match o with Some v => v | None => d end.

(** [{ ...prev, ...updates }] *)
Definition spread (prev : PortfolioState.t) (updates : PortfolioUpdates.t)
    : PortfolioState.t :=
  PortfolioState.mk
    (or_else (PortfolioUpdates.capital updates) (PortfolioState.capital prev))
    (or_else (PortfolioUpdates.leverage updates) (PortfolioState.leverage prev))
    (or_else (PortfolioUpdates.effectiveCapital updates) (PortfolioState.effectiveCapital prev))
    (or_else (PortfolioUpdates.currentEquity updates) (PortfolioState.currentEquity prev))
    (or_else (PortfolioUpdates.peakEquity updates) (PortfolioState.peakEquity prev))
    (or_else (PortfolioUpdates.dailyPnL updates) (PortfolioState.dailyPnL prev))
    (or_else (PortfolioUpdates.weeklyPnL updates) (PortfolioState.weeklyPnL prev))
    (or_else (PortfolioUpdates.monthlyPnL updates) (PortfolioState.monthlyPnL prev))
    (or_else (PortfolioUpdates.drawdown updates) (PortfolioState.drawdown prev))
    (or_else (PortfolioUpdates.maxDrawdown updates) (PortfolioState.maxDrawdown prev))
    (or_else (PortfolioUpdates.isTradingLocked updates) (PortfolioState.isTradingLocked prev))
    (or_else (PortfolioUpdates.lockReason updates) (PortfolioState.lockReason prev)).

(** The updater that [updatePortfolio(updates)] hands to [setPortfolio]:
    the assignments to [updated] in source order. *)
Definition updatePortfolio (updates : PortfolioUpdates.t) (prev : PortfolioState.t)
    : PortfolioState.t :=
  let updated := spread prev updates in
  let effectiveCapital :=
    PortfolioState.capital updated * PortfolioState.leverage updated in
  let drawdown :=
    RiskEngine.calculateDrawdown
      (PortfolioState.currentEquity updated) (PortfolioState.peakEquity updated) in
  let maxDrawdown := Math_max (PortfolioState.maxDrawdown updated) drawdown in
  let peakEquity :=
    if gt (PortfolioState.currentEquity updated) (PortfolioState.peakEquity updated)
    then PortfolioState.currentEquity updated
    else PortfolioState.peakEquity updated in
  PortfolioState.mk
    (PortfolioState.capital updated)
    (PortfolioState.leverage updated)
    effectiveCapital
    (PortfolioState.currentEquity updated)
    peakEquity
    (PortfolioState.dailyPnL updated)
    (PortfolioState.weeklyPnL updated)
    (PortfolioState.monthlyPnL updated)
    drawdown
    maxDrawdown
    (PortfolioState.isTradingLocked updated)
    (PortfolioState.lockReason updated).

Definition lockTrading (reason : string) (prev : PortfolioState.t) : PortfolioState.t :=
  spread prev
    (PortfolioUpdates.mk None None None None None None None None None None
       (Some true) (Some (Some reason))).

Definition resetDailyPnL (prev : PortfolioState.t) : PortfolioState.t :=
  updatePortfolio
    (PortfolioUpdates.mk None None None None None (Some 0) None None None None
       None None)
    prev.

(** The first updater of [closeTrade]: the trade whose id matches gets
    its exit price, its pnl and the status CLOSED. *)
Definition close_one (id : string) (exitPrice : number) (t : Trade.t) : Trade.t :=
  if negb (String.eqb (Trade.id t) id) then t
  else
    let pnl :=
      match Trade.side t with
      | LONG => (exitPrice - Trade.entryPrice t) * Trade.quantity t
      | SHORT => (Trade.entryPrice t - exitPrice) * Trade.quantity t
      end in
    Trade.mk (Trade.id t) (Trade.date t) (Trade.instrument t) (Trade.side t)
      (Trade.entryPrice t) (Trade.stopLoss t) (Trade.target t) (Trade.quantity t)
      (Some exitPrice) (Some pnl) (Trade.riskReward t) CLOSED (Trade.notes t).

(** [trade?.pnl] as a condition. *)
Definition pnl_truthy (trade : option Trade.t) : option number :=
  match trade with
  | Some t =>
      match Trade.pnl t with
      | Some p => if truthy p then Some p else None
      | None => None
      end
  | None => None
  end.

Definition set_consecutiveLosses (s : SessionState.t) (n : nat) : SessionState.t :=
  SessionState.mk (SessionState.startTime s) (SessionState.isActive s)
    (SessionState.tradesCount s) (SessionState.cooldownEndTime s) n.

(** [closeTrade(id, exitPrice)].  [rendered] is the [portfolio] captured
    by the callback (its dependency list is [portfolio, updatePortfolio]);
    the two [setTrades] updaters run in order, so the second one finds the
    trade as the first one left it, and the [setPortfolio] and
    [setSession] updaters it queues run on the state cells. *)
Definition closeTrade (rendered : PortfolioState.t)
    (id : string) (exitPrice : number) (st : State) : State :=
  let trades1 := map (close_one id exitPrice) (trades st) in
  let trade := find (fun t => String.eqb (Trade.id t) id) trades1 in
  match pnl_truthy trade with
  | Some pnl =>
      let portfolio1 :=
        updatePortfolio
          (PortfolioUpdates.mk None None None
             (Some (PortfolioState.currentEquity rendered + pnl)) None
             (Some (PortfolioState.dailyPnL rendered + pnl))
             (Some (PortfolioState.weeklyPnL rendered + pnl))
             (Some (PortfolioState.monthlyPnL rendered + pnl))
             None None None None)
          (portfolio st) in
      if pnl <? 0 then
        let newLosses := S (SessionState.consecutiveLosses (session st)) in
        let portfolio2 :=
          if Nat.leb 3 newLosses
          then lockTrading "3 consecutive losses - mandatory cooldown" portfolio1
          else portfolio1 in
        mkState portfolio2 trades1 (riskLimits st)
          (set_consecutiveLosses (session st) newLosses)
      else
        mkState portfolio1 trades1 (riskLimits st)
          (set_consecutiveLosses (session st) 0)
  | None => mkState (portfolio st) trades1 (riskLimits st) (session st)
  end.

(** [addTrade(trade)]: [trade] comes without an id ([Omit<Trade, 'id'>],
    here a trade whose id is not read); [newId] is what [generateTradeId()]
    returns, built from the clock and a random number. *)
Definition addTrade (newId : string) (trade : Trade.t) (st : State) : State :=
  let newTrade :=
    Trade.mk newId (Trade.date trade) (Trade.instrument trade) (Trade.side trade)
      (Trade.entryPrice trade) (Trade.stopLoss trade) (Trade.target trade)
      (Trade.quantity trade) (Trade.exitPrice trade) (Trade.pnl trade)
      (Trade.riskReward trade) (Trade.status trade) (Trade.notes trade) in
  mkState (portfolio st) (trades st ++ [newTrade]) (riskLimits st)
    (SessionState.mk (SessionState.startTime (session st))
       (SessionState.isActive (session st))
       (S (SessionState.tradesCount (session st)))
       (SessionState.cooldownEndTime (session st))
       (SessionState.consecutiveLosses (session st))).

(** [deleteTrade(id)] *)
Definition deleteTrade (id : string) (st : State) : State :=
  mkState (portfolio st)
    (filter (fun t => negb (String.eqb (Trade.id t) id)) (trades st))
    (riskLimits st) (session st).

(** [lockTrading(reason)] and [unlockTrading()] on the state cells. *)
Definition lockTradingState (reason : string) (st : State) : State :=
  mkState (lockTrading reason (portfolio st)) (trades st) (riskLimits st) (session st).

Definition unlockTrading (st : State) : State :=
  mkState
    (spread (portfolio st)
       (PortfolioUpdates.mk None None None None None None None None None None
          (Some false) (Some None)))
    (trades st) (riskLimits st)
    (set_consecutiveLosses (session st) 0).

End TradingContext.

(** ** The callers in [src/components/trading/modules]

    A handler reads [portfolio] and [riskLimits] as its render captured
    them; they are taken from the state the handler runs on.  The text of
    an input field enters as the number [parseFloat] or [parseInt] made of
    it (NaN when the text is not a number). *)

(** [KellyCriterion.tsx] *)
Module KellyCriterion.

Definition kellyPercent (metrics : PerformanceMetrics.t) : number :=
  RiskEngine.calculateKellyCriterion
    (PerformanceMetrics.winRate metrics)
    (PerformanceMetrics.avgWin metrics)
    (PerformanceMetrics.avgLoss metrics).

End KellyCriterion.

(** [TradeJournal.tsx] *)
Module TradeJournal.

Local Open Scope float_scope.

(** The parsed fields of the new-trade form. *)
Record NewTrade := mkNewTrade {
  date : string;
  instrument : string;
  side : Side;
  entryPrice : number;
  stopLoss : number;
  target : number;
  quantity : number;
  notes : string
}.

Definition slPercent (entry sl : number) : number :=
  Math_abs ((entry - sl) / entry) * 100.

Definition targetPercent (entry target : number) : number :=
  Math_abs ((target - entry) / entry) * 100.

(** The local constants [riskReward] and [validation] of
    [handleAddTrade]. *)
Definition riskReward (newTrade : NewTrade) : number :=
  targetPercent (entryPrice newTrade) (target newTrade)
  / slPercent (entryPrice newTrade) (stopLoss newTrade).

Definition validation (newTrade : NewTrade) (st : TradingContext.State)
    : ValidationResult.t :=
  RiskEngine.validateTrade (riskReward newTrade)
    (slPercent (entryPrice newTrade) (stopLoss newTrade))
    (TradingContext.riskLimits st) (TradingContext.portfolio st).

(** [handleAddTrade].  [toUpperCase] is [String.prototype.toUpperCase];
    [proceed] is the answer to the [confirm] dialog that is shown when
    there are warnings; [newId] is the id [addTrade] generates. *)
Definition handleAddTrade (toUpperCase : string -> string)
    (newTrade : NewTrade) (proceed : bool) (newId : string)
    (st : TradingContext.State) : TradingContext.State :=
  let entry := entryPrice newTrade in
  let sl := stopLoss newTrade in
  let target := target newTrade in
  let qty := quantity newTrade in
  if negb (truthy entry) || negb (truthy sl) || negb (truthy target)
     || negb (truthy qty)
  then st
  else
    let slPercent := slPercent entry sl in
    let targetPercent := targetPercent entry target in
    let riskReward := targetPercent / slPercent in
    let validation :=
      RiskEngine.validateTrade riskReward slPercent
        (TradingContext.riskLimits st) (TradingContext.portfolio st) in
    if negb (ValidationResult.isValid validation) then st
    else if Nat.ltb 0 (List.length (ValidationResult.warnings validation))
            && negb proceed
    then st
    else
      TradingContext.addTrade newId
        (Trade.mk EmptyString (date newTrade) (toUpperCase (instrument newTrade))
           (side newTrade) entry sl target qty None None riskReward OPEN
           (Some (notes newTrade)))
        st.

End TradeJournal.

(** [StrategyValidator.tsx] *)
Module StrategyValidator.

Local Open Scope float_scope.

Record Validation := mkValidation {
  result : ValidationResult.t;
  riskReward : number;
  riskPercent : number;
  riskAmount : number;
  potentialProfit : number;
  slPercent : number;
  targetPercent : number
}.

(** The [validation] memo; [None] is [null].  The four arguments are the
    parsed fields before [|| 0], which turns NaN into 0. *)
Definition validation (entryPrice stopLoss target quantity : number)
    (riskLimits : RiskLimits.t) (portfolio : PortfolioState.t)
    : option Validation :=
  let or_0 (x : number) := if truthy x then x else 0 in
  let entry := or_0 entryPrice in
  let sl := or_0 stopLoss in
  let tgt := or_0 target in
  let qty := or_0 quantity in
  if negb (truthy entry) || negb (truthy sl) || negb (truthy tgt)
     || negb (truthy qty)
  then None
  else
    let slPercent := Math_abs ((entry - sl) / entry) * 100 in
    let targetPercent := Math_abs ((tgt - entry) / entry) * 100 in
    let riskReward := if gt slPercent 0 then targetPercent / slPercent else 0 in
    let riskAmount := Math_abs (entry - sl) * qty in
    let riskPercent := (riskAmount / PortfolioState.capital portfolio) * 100 in
    let result := RiskEngine.validateTrade riskReward riskPercent riskLimits portfolio in
    Some (mkValidation result riskReward riskPercent riskAmount
            (Math_abs (tgt - entry) * qty) slPercent targetPercent).

End StrategyValidator.

(** [MarginCalculator.tsx] *)
Module MarginCalculator.

Local Open Scope float_scope.

(** The [result] memo; [None] is [null].  The first four arguments are
    the fields as [parseFloat] returns them, before [|| 0] and [|| 1]. *)
Definition result (spotPrice quantity lotSize optionPremium : number)
    (instrumentType : InstrumentType) : option MarginResult.t :=
  let price := if truthy spotPrice then spotPrice else 0 in
  let qty := if truthy quantity then quantity else 0 in
  let lot := if truthy lotSize then lotSize else 1 in
  let premium := if truthy optionPremium then optionPremium else 0 in
  if (price <=? 0) || (qty <=? 0) then None
  else
    Some (RiskEngine.calculateMarginRequirements price qty instrumentType
            (Some premium) lot).

End MarginCalculator.

(** [RiskManager.tsx] *)
Module RiskManager.

Local Open Scope float_scope.

(** [dailyLossPercent], [weeklyLossPercent] and [monthlyLossPercent] are
    this expression on the pnl of the period. *)
Definition lossPercent (capital pnl : number) : number :=
  if gt capital 0 then (Math_abs (Math_min 0 pnl) / capital) * 100 else 0.

Definition isBreached (current limit : number) : bool := ge current limit.

(** The lock button: [portfolio.isTradingLocked ? unlockTrading() :
    lockTrading('Manual lock')]. *)
Definition toggleLock (st : TradingContext.State) : TradingContext.State :=
  if PortfolioState.isTradingLocked (TradingContext.portfolio st)
  then TradingContext.unlockTrading st
  else TradingContext.lockTradingState "Manual lock" st.

End RiskManager.

(** [DrawdownControl.tsx] *)
Module DrawdownControl.

Local Open Scope float_scope.

Record DrawdownLevel := mkLevel {
  level : string;
  color : string;
  bg : string
}.

Definition getDrawdownLevel (dd : number) : DrawdownLevel :=
  if dd <? 5 then mkLevel "Safe" "text-success" "bg-success/10"
  else if dd <? 10 then mkLevel "Caution" "text-warning" "bg-warning/10"
  else if dd <? 15 then mkLevel "Warning" "text-orange-500" "bg-orange-500/10"
  else if dd <? 20 then mkLevel "Critical" "text-destructive" "bg-destructive/10"
  else mkLevel "STOP" "text-destructive" "bg-destructive/20".

Definition adjustedRisk (riskLimits : RiskLimits.t) (portfolio : PortfolioState.t)
    : number :=
  RiskEngine.getAdjustedRiskForDrawdown
    (RiskLimits.riskPerTrade riskLimits) (PortfolioState.drawdown portfolio).

(** A point of the drawdown chart. *)
Record HistoryPoint := mkPoint {
  trade : nat;
  drawdown : number;
  equity : number
}.

(** [t.status === 'CLOSED' && t.pnl]: a pnl of 0 or NaN is falsy. *)
Definition closed_with_pnl (t : Trade.t) : bool :=
  match Trade.status t, Trade.pnl t with
  | CLOSED, Some p => truthy p
  | _, _ => false
  end.

(** The [forEach] of [drawdownHistory] from index [i] on, with the
    running [peak] and [equity]. *)
Fixpoint history_loop (l : list Trade.t) (i : nat) (peak equity : number)
    : list HistoryPoint :=
  match l with
  | [] => []
  | t :: l' =>
      let equity := equity + RiskEngine.pnl_or_0 t in
      let peak := if gt equity peak then equity else peak in
      let drawdown := ((peak - equity) / peak) * 100 in
      mkPoint (i + 1) drawdown equity :: history_loop l' (i + 1) peak equity
  end.

Definition drawdownHistory (trades : list Trade.t) (portfolio : PortfolioState.t)
    : list HistoryPoint :=
  mkPoint 0 0 (PortfolioState.capital portfolio)
  :: history_loop (filter closed_with_pnl trades) 0
       (PortfolioState.capital portfolio) (PortfolioState.capital portfolio).

End DrawdownControl.

(** The analytics screen. *)
Module Analytics.

Local Open Scope float_scope.

Record DrawdownDatum := mkDatum {
  trade : nat;
  drawdown : number
}.

(** The [forEach] of [drawdownData]. *)
Fixpoint drawdown_loop (l : list Trade.t) (i : nat) (peak equity : number)
    : list DrawdownDatum :=
  match l with
  | [] => []
  | t :: l' =>
      let equity := equity + RiskEngine.pnl_or_0 t in
      let peak := if gt equity peak then equity else peak in
      let drawdown := ((peak - equity) / peak) * 100 in
      mkDatum (i + 1) drawdown :: drawdown_loop l' (i + 1) peak equity
  end.

Definition drawdownData (trades : list Trade.t) (portfolio : PortfolioState.t)
    : list DrawdownDatum :=
  mkDatum 0 0
  :: drawdown_loop (filter DrawdownControl.closed_with_pnl trades) 0
       (PortfolioState.capital portfolio) (PortfolioState.capital portfolio).

End Analytics.

(** The settings screen. *)
Module Settings.

Local Open Scope float_scope.

(** The handlers below, once the [confirm] dialog is accepted. *)
Definition handleResetWeeklyPnL (prev : PortfolioState.t) : PortfolioState.t :=
  TradingContext.updatePortfolio
    (PortfolioUpdates.mk None None None None None None (Some 0) None None None
       None None)
    prev.

Definition handleResetMonthlyPnL (prev : PortfolioState.t) : PortfolioState.t :=
  TradingContext.updatePortfolio
    (PortfolioUpdates.mk None None None None None None None (Some 0) None None
       None None)
    prev.

(** [rendered] is the [portfolio] the handler captured. *)
Definition handleResetDrawdown (rendered prev : PortfolioState.t) : PortfolioState.t :=
  TradingContext.updatePortfolio
    (PortfolioUpdates.mk None None None None
       (Some (PortfolioState.currentEquity rendered)) None None None None
       (Some 0) None None)
    prev.

End Settings.

(** [CapitalLeverage.tsx] *)
Module CapitalLeverage.

Local Open Scope float_scope.

Definition handleCapitalUpdate (newCapital : number) (prev : PortfolioState.t)
    : PortfolioState.t :=
  if negb (is_nan newCapital) && gt newCapital 0 then
    TradingContext.updatePortfolio
      (PortfolioUpdates.mk (Some newCapital) None None (Some newCapital)
         (Some newCapital) None None None None None None None)
      prev
  else prev.

Definition handleLeverageChange (leverage : number) (prev : PortfolioState.t)
    : PortfolioState.t :=
  TradingContext.updatePortfolio
    (PortfolioUpdates.mk None (Some leverage) None None None None None None None
       None None None)
    prev.

Definition handleCustomLeverage (leverage : number) (prev : PortfolioState.t)
    : PortfolioState.t :=
  if negb (is_nan leverage) && gt leverage 0 && (leverage <=? 100) then
    TradingContext.updatePortfolio
      (PortfolioUpdates.mk None (Some leverage) None None None None None None None
         None None None)
      prev
  else prev.

End CapitalLeverage.

(** ** Vocabulary of the statements *)

(** A number in the everyday sense: any value but NaN. *)
Definition is_number (x : number) : Prop := is_nan x = false.

(** An order-preserving key for the values that are not NaN: the class
    (negative infinity, negative, zero, positive, positive infinity), then
    exponent and mantissa, both negated for a negative value.  The two
    zeros share a key, as they compare equal. *)
Definition sf_key (x : spec_float) : Z * Z * Z :=
  match x with
  | S754_nan => (0, 0, 0)
  | S754_zero _ => (0, 0, 0)
  | S754_infinity true => (-2, 0, 0)
  | S754_infinity false => (2, 0, 0)
  | S754_finite true m e => (-1, - e, Zneg m)
  | S754_finite false m e => (1, e, Zpos m)
  end%Z.

Definition key (x : number) : Z * Z * Z := sf_key (Prim2SF x).

Definition lex3 (a b : Z * Z * Z) : comparison :=
  let '(a1, a2, a3) := a in
  let '(b1, b2, b3) := b in
  match (a1 ?= b1)%Z with
  | Eq => match (a2 ?= b2)%Z with Eq => (a3 ?= b3)%Z | c => c end
  | c => c
  end.

(** What [SFfloor] returns on a finite value [(-1)^s * m * 2^e] in
    canonical form. *)
Variant floor_case (s : bool) (m : positive) (e : Z) : spec_float -> Prop :=
| floor_same : floor_case s m e (S754_finite s m e)
| floor_pos_zero :
    s = false -> floor_case s m e (S754_zero false)
| floor_pos_trunc m' :
    s = false -> digits2_pos m' = digits2_pos m -> (m' <= m)%positive ->
    floor_case s m e (S754_finite false m' e)
| floor_neg_one :
    s = true -> (e < -52)%Z ->
    floor_case s m e (S754_finite true 4503599627370496 (-52))
| floor_neg_carry :
    s = true -> (-1074 <= e < 0)%Z ->
    floor_case s m e (S754_finite true 4503599627370496 (e + 1))
| floor_neg_bump m' :
    s = true -> digits2_pos m' = digits2_pos m -> (m < m')%positive ->
    floor_case s m e (S754_finite true m' e).

(** The length of the run of elements satisfying [p] at the head of a
    list, and at its end. *)
Fixpoint leading_run {A} (p : A -> bool) (l : list A) : nat :=
  match l with
  | [] => 0
  | x :: l' => if p x then S (leading_run p l') else 0
  end.

Definition trailing_run {A} (p : A -> bool) (l : list A) : nat :=
  leading_run p (rev l).

(** A win step and a loss step of the streak loop. *)
Definition win_step (t : Trade.t) : bool := gt (RiskEngine.pnl_or_0 t) 0%float.
Definition loss_step (t : Trade.t) : bool := negb (win_step t).

(** The compounding rule as the specification words it: month by month,
    starting from month [month] with [capital] and [cumulativeProfit],
    the profit is the prior capital times rate/100 and is added to both. *)
Fixpoint compounds (rate : number) (month : nat) (capital cumulativeProfit : number)
    (l : list CompoundingProjection.t) : Prop :=
  match l with
  | [] => True
  | p :: l' =>
      CompoundingProjection.month p = month /\
      CompoundingProjection.profit p = (capital * (rate / 100))%float /\
      CompoundingProjection.capital p = (capital + CompoundingProjection.profit p)%float /\
      CompoundingProjection.cumulativeProfit p =
        (cumulativeProfit + CompoundingProjection.profit p)%float /\
      compounds rate (S month)
        (CompoundingProjection.capital p) (CompoundingProjection.cumulativeProfit p) l'
  end.

(** The pnl that [closeTrade] computes for a trade. *)
Definition close_pnl (exitPrice : number) (t : Trade.t) : number :=
  match Trade.side t with
  | LONG => ((exitPrice - Trade.entryPrice t) * Trade.quantity t)%float
  | SHORT => ((Trade.entryPrice t - exitPrice) * Trade.quantity t)%float
  end.

(** A loss limit is breached when the pnl of the period is negative and
    the loss, as a percentage of capital, reaches the limit. *)
Definition loss_limit_breached (pnl capital limit : number) : bool :=
  ((pnl <? 0) && ge ((Math_abs pnl / capital) * 100) limit)%float.

(** A run of portfolio updates, oldest first. *)
Definition run_updates (updates : list PortfolioUpdates.t) (p : PortfolioState.t)
    : PortfolioState.t :=
  fold_left (fun p u => TradingContext.updatePortfolio u p) updates p.

(** A field of an update that is left out or holds a finite number. *)
Definition absent_or_finite (o : option number) : Prop :=
  match o with
  | Some x => is_finite x = true
  | None => True
  end.

(** An update that does not override [maxDrawdown] and sets no equity to
    an infinity or NaN. *)
Definition tame_update (u : PortfolioUpdates.t) : Prop :=
  PortfolioUpdates.maxDrawdown u = None /\
  absent_or_finite (PortfolioUpdates.currentEquity u) /\
  absent_or_finite (PortfolioUpdates.peakEquity u).

(** [id] names the trade [t]. *)
Definition has_id (id : string) (t : Trade.t) : bool := String.eqb (Trade.id t) id.

(** The messages of the blocking conditions of [validateTrade] that
    hold, in the order the source tests them. *)
Definition blocking_errors (riskReward riskPercent : number)
    (limits : RiskLimits.t) (portfolio : PortfolioState.t) : list Message :=
  (if (riskReward <? 2)%float then [RiskRewardBelowMinimum riskReward] else [])
  ++ (if gt riskPercent (RiskLimits.riskPerTrade limits)
      then [RiskExceedsLimit riskPercent (RiskLimits.riskPerTrade limits)] else [])
  ++ (if loss_limit_breached (PortfolioState.dailyPnL portfolio)
           (PortfolioState.capital portfolio) (RiskLimits.dailyLossLimit limits)
      then [DailyLossLimitBreached (RiskLimits.dailyLossLimit limits)] else [])
  ++ (if loss_limit_breached (PortfolioState.weeklyPnL portfolio)
           (PortfolioState.capital portfolio) (RiskLimits.weeklyLossLimit limits)
      then [WeeklyLossLimitBreached (RiskLimits.weeklyLossLimit limits)] else [])
  ++ (if loss_limit_breached (PortfolioState.monthlyPnL portfolio)
           (PortfolioState.capital portfolio) (RiskLimits.monthlyLossLimit limits)
      then [MonthlyLossLimitBreached (RiskLimits.monthlyLossLimit limits)] else [])
  ++ (if gt (PortfolioState.drawdown portfolio) 20%float
      then [DrawdownExceedsMaximum (PortfolioState.drawdown portfolio)] else [])
  ++ (if PortfolioState.isTradingLocked portfolio
      then [TradingIsLocked (PortfolioState.lockReason portfolio)] else []).

(** What the portfolio and the limits alone block, whatever the trade. *)
Definition portfolio_blocked (limits : RiskLimits.t) (portfolio : PortfolioState.t)
    : bool :=
  loss_limit_breached (PortfolioState.dailyPnL portfolio)
    (PortfolioState.capital portfolio) (RiskLimits.dailyLossLimit limits)
  || loss_limit_breached (PortfolioState.weeklyPnL portfolio)
       (PortfolioState.capital portfolio) (RiskLimits.weeklyLossLimit limits)
  || loss_limit_breached (PortfolioState.monthlyPnL portfolio)
       (PortfolioState.capital portfolio) (RiskLimits.monthlyLossLimit limits)
  || gt (PortfolioState.drawdown portfolio) 20%float
  || PortfolioState.isTradingLocked portfolio.

(** The longest run of elements satisfying [p]: the longest of the runs
    that start at each position. *)
Fixpoint longest_run {A} (p : A -> bool) (l : list A) : nat :=
  match l with
  | [] => 0
  | _ :: l' => Nat.max (leading_run p l) (longest_run p l')
  end.

(** A zero of either sign, or NaN. *)
Definition zero_or_nan (x : spec_float) : Prop :=
  match x with
  | S754_zero _ | S754_nan => True
  | _ => False
  end.

(** NaN, a zero, or a value with the sign bit clear. *)
Definition nonneg_or_nan (x : spec_float) : Prop :=
  match x with
  | S754_nan | S754_zero _ => True
  | S754_infinity s | S754_finite s _ _ => s = false
  end.

(** ** Facts about binary64 comparison and [Math.floor] *)

Module FloatFacts.
Local Open Scope float_scope.

Lemma SFcompare_key x y :
  x <> S754_nan -> y <> S754_nan ->
  SFcompare x y = Some (lex3 (sf_key x) (sf_key y)).
Proof.
  intros Hx Hy.
  destruct x as [sx|sx| |sx mx ex], y as [sy|sy| |sy my ey];
    try congruence; try destruct sx; try destruct sy; try reflexivity.
  cbn [SFcompare sf_key lex3]. change (-1 ?= -1)%Z with Eq.
  rewrite Z.compare_opp, (Z.compare_antisym ex ey).
  change (Z.neg mx ?= Z.neg my)%Z with (CompOpp (Pos.compare_cont Eq mx my)).
  destruct (ex ?= ey)%Z; reflexivity.
Qed.

Lemma lex3_refl a : lex3 a a = Eq.
Proof.
  destruct a as [[a1 a2] a3]. unfold lex3. now rewrite !Z.compare_refl.
Qed.

Ltac lex3_solve :=
  repeat match goal with
  | a : (Z * Z * Z)%type |- _ => destruct a as [[? ?] ?]
  end;
  unfold lex3 in *;
  repeat match goal with
  | H : context [(?x ?= ?y)%Z] |- _ => destruct (Z.compare_spec x y); try subst
  | |- context [(?x ?= ?y)%Z] => destruct (Z.compare_spec x y); try subst
  end; try congruence; try lia.

Lemma is_nan_iff x : is_nan x = true <-> Prim2SF x = S754_nan.
Proof.
  unfold is_nan. rewrite FloatAxioms.eqb_spec. unfold SFeqb.
  destruct (Prim2SF x) eqn:E; try (rewrite SFcompare_key, lex3_refl by congruence);
    cbn; split; congruence.
Qed.

Lemma is_number_iff x : is_number x <-> Prim2SF x <> S754_nan.
Proof.
  unfold is_number. rewrite <- is_nan_iff. destruct (is_nan x); split; congruence.
Qed.

Lemma compare_number a b :
  is_number a -> is_number b ->
  SFcompare (Prim2SF a) (Prim2SF b) = Some (lex3 (key a) (key b)).
Proof.
  intros Ha Hb. apply SFcompare_key; now apply is_number_iff.
Qed.

Lemma ltb_number a b :
  is_number a -> is_number b ->
  (a <? b) = match lex3 (key a) (key b) with Lt => true | _ => false end.
Proof.
  intros Ha Hb. rewrite FloatAxioms.ltb_spec. unfold SFltb. now rewrite compare_number.
Qed.

Lemma leb_number a b :
  is_number a -> is_number b ->
  (a <=? b) = match lex3 (key a) (key b) with Gt => false | _ => true end.
Proof.
  intros Ha Hb. rewrite FloatAxioms.leb_spec. unfold SFleb. rewrite compare_number by assumption.
  now destruct (lex3 (key a) (key b)).
Qed.

Lemma eqb_number a b :
  is_number a -> is_number b ->
  (a =? b) = match lex3 (key a) (key b) with Eq => true | _ => false end.
Proof.
  intros Ha Hb. rewrite FloatAxioms.eqb_spec. unfold SFeqb. now rewrite compare_number.
Qed.

Lemma compare_nan_l a b : is_nan a = true -> SFcompare (Prim2SF a) (Prim2SF b) = None.
Proof. intros H. apply is_nan_iff in H. now rewrite H. Qed.

Lemma compare_nan_r a b : is_nan b = true -> SFcompare (Prim2SF a) (Prim2SF b) = None.
Proof. intros H. apply is_nan_iff in H. rewrite H. now destruct (Prim2SF a). Qed.

Lemma ltb_true_number a b : (a <? b) = true -> is_number a /\ is_number b.
Proof.
  rewrite FloatAxioms.ltb_spec. unfold SFltb, is_number. intros H.
  destruct (is_nan a) eqn:Ea; [rewrite compare_nan_l in H by assumption; discriminate|].
  destruct (is_nan b) eqn:Eb; [rewrite compare_nan_r in H by assumption; discriminate|].
  auto.
Qed.

Lemma leb_true_number a b : (a <=? b) = true -> is_number a /\ is_number b.
Proof.
  rewrite FloatAxioms.leb_spec. unfold SFleb, is_number. intros H.
  destruct (is_nan a) eqn:Ea; [rewrite compare_nan_l in H by assumption; discriminate|].
  destruct (is_nan b) eqn:Eb; [rewrite compare_nan_r in H by assumption; discriminate|].
  auto.
Qed.

Lemma eqb_true_number a b : (a =? b) = true -> is_number a /\ is_number b.
Proof.
  rewrite FloatAxioms.eqb_spec. unfold SFeqb, is_number. intros H.
  destruct (is_nan a) eqn:Ea; [rewrite compare_nan_l in H by assumption; discriminate|].
  destruct (is_nan b) eqn:Eb; [rewrite compare_nan_r in H by assumption; discriminate|].
  auto.
Qed.

(** Order reasoning on numbers: every comparison between numbers known
    not to be NaN is turned into a comparison of keys, and the keys are
    compared as integers. *)
Ltac number_facts :=
  repeat match goal with
  | H : (?a <? ?b) = true |- _ =>
      lazymatch goal with
      | _ : is_number a, _ : is_number b |- _ => fail
      | _ => let H1 := fresh in let H2 := fresh in
             destruct (ltb_true_number a b H) as [H1 H2]
      end
  | H : (?a <=? ?b) = true |- _ =>
      lazymatch goal with
      | _ : is_number a, _ : is_number b |- _ => fail
      | _ => let H1 := fresh in let H2 := fresh in
             destruct (leb_true_number a b H) as [H1 H2]
      end
  | H : (?a =? ?b) = true |- _ =>
      lazymatch goal with
      | _ : is_number a, _ : is_number b |- _ => fail
      | _ => let H1 := fresh in let H2 := fresh in
             destruct (eqb_true_number a b H) as [H1 H2]
      end
  end.

Ltac to_keys :=
  number_facts;
  repeat match goal with
  | H : context [?a <? ?b] |- _ => rewrite (ltb_number a b) in H by (assumption || reflexivity)
  | H : context [?a <=? ?b] |- _ => rewrite (leb_number a b) in H by (assumption || reflexivity)
  | H : context [?a =? ?b] |- _ => rewrite (eqb_number a b) in H by (assumption || reflexivity)
  | |- context [?a <? ?b] => rewrite (ltb_number a b) by (assumption || reflexivity)
  | |- context [?a <=? ?b] => rewrite (leb_number a b) by (assumption || reflexivity)
  | |- context [?a =? ?b] => rewrite (eqb_number a b) by (assumption || reflexivity)
  end.

Ltac float_order :=
  to_keys;
  repeat match goal with
  | H : context [key ?c] |- _ =>
      tryif is_var c then fail else
      (let v := eval vm_compute in (key c) in change (key c) with v in * )
  | |- context [key ?c] =>
      tryif is_var c then fail else
      (let v := eval vm_compute in (key c) in change (key c) with v in * )
  end;
  repeat match goal with
  | H : context [key ?x] |- _ =>
      let k := fresh "k" in remember (key x) as k eqn:Hk; clear Hk
  | |- context [key ?x] =>
      let k := fresh "k" in remember (key x) as k eqn:Hk; clear Hk
  end;
  lex3_solve.

Lemma leb_refl a : is_number a -> (a <=? a) = true.
Proof. intros. float_order. Qed.

Lemma ltb_false_leb a b : is_number a -> is_number b -> (a <? b) = false -> (b <=? a) = true.
Proof. intros. float_order. Qed.

Lemma leb_ltb_false a b : (a <=? b) = true -> (b <? a) = false.
Proof. intros. float_order. Qed.

Lemma ltb_leb a b : (a <? b) = true -> (a <=? b) = true.
Proof. intros. float_order. Qed.

Lemma leb_ltb_ltb_false a b c : (a <=? b) = true -> (b <? c) = true -> (c <? a) = false.
Proof. intros. float_order. Qed.

Lemma ltb_asym a b : (a <? b) = true -> (b <? a) = false.
Proof. intros. float_order. Qed.

Lemma leb_trans a b c : (a <=? b) = true -> (b <=? c) = true -> (a <=? c) = true.
Proof. intros. float_order. Qed.

Lemma eqb_ltb_false a b : (a =? b) = true -> (a <? b) = false /\ (b <? a) = false.
Proof. intros. split; float_order. Qed.

(** The mantissa arithmetic behind [SFfloor]. *)

Local Open Scope Z_scope.

Lemma digits2_bounds m :
  2 ^ (Zpos (digits2_pos m) - 1) <= Zpos m < 2 ^ Zpos (digits2_pos m).
Proof.
  induction m as [p IH|p IH|]; cbn [digits2_pos].
  1, 2:
    rewrite Pos2Z.inj_succ;
    replace (Z.succ (Zpos (digits2_pos p)) - 1)
      with (Z.succ (Zpos (digits2_pos p) - 1)) by lia;
    rewrite !Z.pow_succ_r by lia; lia.
  cbn. lia.
Qed.

Lemma digits2_unique m d :
  2 ^ (d - 1) <= Zpos m < 2 ^ d -> Zpos (digits2_pos m) = d.
Proof.
  intros [Hlo Hhi]. pose proof (digits2_bounds m) as [Blo Bhi].
  set (d0 := Zpos (digits2_pos m)) in *.
  assert (0 < d).
  { destruct (Z.lt_trichotomy d 0) as [Hn|[->|Hp]]; try lia.
    rewrite Z.pow_neg_r in Hhi by lia. lia. }
  destruct (Z.lt_trichotomy d0 d) as [Hlt|[Heq|Hgt]]; [|assumption|].
  - assert (2 ^ d0 <= 2 ^ (d - 1)) by (apply Z.pow_le_mono_r; lia). lia.
  - assert (2 ^ d <= 2 ^ (d0 - 1)) by (apply Z.pow_le_mono_r; lia). lia.
Qed.

Lemma floor_mantissa m k d :
  0 < k -> 2 ^ (d - 1) <= m < 2 ^ d -> 0 < d -> 0 < m / 2 ^ k ->
  k < d /\ 2 ^ (d - 1) <= m / 2 ^ k * 2 ^ k <= m /\
  m < (m / 2 ^ k + 1) * 2 ^ k <= 2 ^ d.
Proof.
  intros Hk [Hlo Hhi] Hd Hq.
  assert (P : 0 < 2 ^ k) by (apply Z.pow_pos_nonneg; lia).
  assert (Hkd : k < d).
  { destruct (Z.lt_ge_cases k d) as [|Hge]; [assumption|].
    assert (2 ^ d <= 2 ^ k) by (apply Z.pow_le_mono_r; lia).
    rewrite Z.div_small in Hq by lia. lia. }
  split; [assumption|].
  pose proof (Z.mul_div_le m (2 ^ k) P) as Hle.
  pose proof (Z.mul_succ_div_gt m (2 ^ k) P) as Hgt.
  assert (E1 : 2 ^ (d - 1) = 2 ^ (d - 1 - k) * 2 ^ k).
  { rewrite <- Z.pow_add_r by lia. f_equal. lia. }
  assert (E2 : 2 ^ d = 2 ^ (d - k) * 2 ^ k).
  { rewrite <- Z.pow_add_r by lia. f_equal. lia. }
  assert (L : 2 ^ (d - 1 - k) <= m / 2 ^ k).
  { apply Z.div_le_lower_bound; [assumption|]. rewrite Z.mul_comm, <- E1. assumption. }
  assert (U : m / 2 ^ k < 2 ^ (d - k)).
  { apply Z.div_lt_upper_bound; [assumption|]. rewrite Z.mul_comm, <- E2. assumption. }
  repeat split.
  - rewrite E1. apply Z.mul_le_mono_nonneg_r; lia.
  - lia.
  - lia.
  - rewrite E2. apply Z.mul_le_mono_nonneg_r; lia.
Qed.

Lemma valid_finite_iff s m e :
  valid_binary (S754_finite s m e) = true <->
  Z.max (Zpos (digits2_pos m) + e - 53) (-1074) = e /\ e <= 971.
Proof.
  unfold valid_binary, bounded, canonical_mantissa, fexp, SpecFloat.emin, prec, emax.
  rewrite andb_true_iff, Z.eqb_eq, Z.leb_le.
  change (3 - 1024 - 53) with (-1074). change (1024 - 53) with 971. reflexivity.
Qed.

Lemma SFfloor_cases s m e :
  valid_binary (S754_finite s m e) = true ->
  floor_case s m e (SFfloor (S754_finite s m e)).
Proof.
  intros V. apply valid_finite_iff in V. destruct V as [Hc He].
  pose proof (digits2_bounds m) as B.
  remember (Zpos (digits2_pos m)) as d eqn:Ed.
  assert (Hd : 0 < d) by (subst d; lia).
  cbn [SFfloor].
  destruct (Z.leb_spec 0 e) as [|Hneg]; [constructor|].
  rewrite Z.shiftr_div_pow2 by lia.
  rewrite !Z.shiftl_mul_pow2 by lia.
  remember (- e) as k eqn:Hk.
  assert (P : 0 < 2 ^ k) by (apply Z.pow_pos_nonneg; lia).
  destruct (Z.eqb_spec (Z.pos m / 2 ^ k * 2 ^ k) (Z.pos m)) as [|Hinexact];
    [constructor|].
  assert (Hq0 : 0 <= Z.pos m / 2 ^ k) by (apply Z.div_pos; lia).
  destruct s.
  - destruct (Z.pos m / 2 ^ k) as [|q|q] eqn:Eq; [| |lia].
    + apply floor_neg_one; [reflexivity|].
      assert (Z.pos m < 2 ^ k).
      { destruct (Z.lt_ge_cases (Z.pos m) (2 ^ k)) as [|Hge]; [assumption|].
        assert (1 <= Z.pos m / 2 ^ k) by (apply Z.div_le_lower_bound; lia). lia. }
      assert (d - 1 < k).
      { destruct (Z.lt_ge_cases (d - 1) k) as [|Hge]; [assumption|].
        assert (2 ^ k <= 2 ^ (d - 1)) by (apply Z.pow_le_mono_r; lia). lia. }
      lia.
    + rewrite <- Eq.
      destruct (floor_mantissa (Z.pos m) k d) as (Hkd & [T1 T2] & [T3 T4]);
        try lia.
      assert (d = 53) by lia. 
      assert (E53 : 2 ^ 53 = 9007199254740992) by reflexivity.
      assert (E52 : 2 ^ 52 = 4503599627370496) by reflexivity.
      replace (d - 1) with 52 in * by lia. replace d with 53 in * by lia.
      destruct (Z.eqb_spec ((Z.pos m / 2 ^ k + 1) * 2 ^ k) 9007199254740992) as [|Hne].
      * apply floor_neg_carry; [reflexivity|lia].
      * apply floor_neg_bump; [reflexivity| |].
        -- apply Pos2Z.inj. rewrite <- Ed.
           apply digits2_unique. rewrite Z2Pos.id by lia. change (53 - 1) with 52. lia.
        -- enough (G : Z.pos m < Z.pos (Z.to_pos ((Z.pos m / 2 ^ k + 1) * 2 ^ k))) by exact G.
           rewrite Z2Pos.id by lia. lia.
  - destruct (Z.pos m / 2 ^ k) as [|q|q] eqn:Eq; [| |lia].
    + now apply floor_pos_zero.
    + rewrite <- Eq.
      destruct (floor_mantissa (Z.pos m) k d) as (Hkd & [T1 T2] & [T3 T4]);
        try lia.
      apply floor_pos_trunc; [reflexivity| |].
      * apply Pos2Z.inj. rewrite <- Ed. apply digits2_unique.
        rewrite Z2Pos.id by lia. lia.
      * enough (G : Z.pos (Z.to_pos (Z.pos m / 2 ^ k * 2 ^ k)) <= Z.pos m) by exact G.
        rewrite Z2Pos.id by lia. lia.
Qed.

Lemma SFfloor_valid x : valid_binary x = true -> valid_binary (SFfloor x) = true.
Proof.
  destruct x as [s|s| |s m e]; try (intros; assumption).
  intros V. pose proof (SFfloor_cases s m e V) as C.
  pose proof V as V'. apply valid_finite_iff in V'.
  destruct C as [ |_| m' _ Hd _ |_ _ |_ Hr | m' _ Hd _ ];
    try assumption; try reflexivity.
  - apply valid_finite_iff. now rewrite Hd.
  - apply valid_finite_iff. cbn [digits2_pos Pos.succ]. lia.
  - apply valid_finite_iff. now rewrite Hd.
Qed.

Lemma SFfloor_leb x :
  valid_binary x = true -> x <> S754_nan -> SFleb (SFfloor x) x = true.
Proof.
  intros V N. unfold SFleb.
  destruct x as [s|s| |s m e]; try congruence.
  - reflexivity.
  - now destruct s.
  - pose proof (SFfloor_cases s m e V) as C.
    destruct C as [ |Hs| m' Hs _ Hm |Hs He |Hs He | m' Hs _ Hm ]; try subst s;
      cbn [SFcompare].
    + destruct s; rewrite Z.compare_refl, Pos.compare_cont_refl; reflexivity.
    + reflexivity.
    + rewrite Z.compare_refl. change (Pos.compare_cont Eq m' m) with (m' ?= m)%positive.
      apply Pos.compare_le_iff in Hm. now destruct (m' ?= m)%positive.
    + apply Z.compare_gt_iff in He. now rewrite He.
    + assert (G : e < e + 1) by lia. apply Z.compare_gt_iff in G. now rewrite G.
    + rewrite Z.compare_refl. change (Pos.compare_cont Eq m' m) with (m' ?= m)%positive.
      apply Pos.compare_gt_iff in Hm. now rewrite Hm.
Qed.

Local Close Scope Z_scope.

End FloatFacts.

Module NumberFacts.
Import FloatFacts.
Local Open Scope float_scope.

Lemma Math_floor_le x : is_number x -> (Math_floor x <=? x) = true.
Proof.
  intros N. unfold Math_floor.
  rewrite FloatAxioms.leb_spec, Prim2SF_SF2Prim
    by (apply SFfloor_valid, Prim2SF_valid).
  apply SFfloor_leb; [apply Prim2SF_valid | now apply is_number_iff].
Qed.

(** [Math.floor] on a few values: fractions of either sign, integers,
    values next to an integer, a subnormal, and the values it leaves
    alone. *)
Example Math_floor_examples :
  Math_floor 300.7 = 300 /\ Math_floor 2.9999999999999996 = 2 /\
  Math_floor 0.3 = 0 /\ Math_floor 40 = 40 /\
  Math_floor (-0.5) = -1 /\ Math_floor (-2.5) = -3 /\ Math_floor (-3) = -3 /\
  Math_floor (-7.999999999999999) = -8 /\
  Math_floor 4503599627370495.5 = 4503599627370495 /\
  Math_floor (-4503599627370495.5) = -4503599627370496 /\
  Math_floor 1e300 = 1e300 /\ Math_floor (-1e-320) = -1 /\
  Math_floor infinity = infinity /\ Math_floor (-0) = -0 /\
  is_nan (Math_floor nan) = true.
Proof. repeat split. Qed.

Lemma is_number_Math_min a b : is_number a -> is_number b -> is_number (Math_min a b).
Proof.
  unfold is_number, Math_min. intros Ha Hb. rewrite Ha, Hb. cbn [orb].
  destruct (a <? b), (b <? a), (get_sign a); assumption.
Qed.

Lemma is_number_Math_max a b : is_number a -> is_number b -> is_number (Math_max a b).
Proof.
  unfold is_number, Math_max. intros Ha Hb. rewrite Ha, Hb. cbn [orb].
  destruct (a <? b), (b <? a), (get_sign a); assumption.
Qed.

Lemma Math_max_nan a b : is_nan a = true \/ is_nan b = true -> is_nan (Math_max a b) = true.
Proof.
  unfold Math_max. intros [H|H]; rewrite H, ?orb_true_r; reflexivity.
Qed.

Lemma Math_max_number a b : is_number (Math_max a b) -> is_number a /\ is_number b.
Proof.
  unfold is_number. intros H.
  destruct (is_nan a) eqn:Ea; [rewrite Math_max_nan in H by auto; discriminate|].
  destruct (is_nan b) eqn:Eb; [rewrite Math_max_nan in H by auto; discriminate|].
  auto.
Qed.

(** On numbers [Math.max] is one of its arguments and is above both. *)
Lemma Math_max_spec a b :
  is_number a -> is_number b ->
  (Math_max a b = a \/ Math_max a b = b) /\
  (a <=? Math_max a b) = true /\ (b <=? Math_max a b) = true.
Proof.
  intros Ha Hb. unfold Math_max. unfold is_number in Ha, Hb. rewrite Ha, Hb. cbn [orb].
  destruct (a <? b) eqn:E1; [|destruct (b <? a) eqn:E2; [|destruct (get_sign a)]];
    (split; [auto|split]); float_order.
Qed.

Lemma Math_min_spec a b :
  is_number a -> is_number b ->
  (Math_min a b = a \/ Math_min a b = b) /\
  (Math_min a b <=? a) = true /\ (Math_min a b <=? b) = true.
Proof.
  intros Ha Hb. unfold Math_min. unfold is_number in Ha, Hb. rewrite Ha, Hb. cbn [orb].
  destruct (a <? b) eqn:E1; [|destruct (b <? a) eqn:E2; [|destruct (get_sign a)]];
    (split; [auto|split]); float_order.
Qed.

(** The clamp of [calculateKellyCriterion]. *)
Lemma clamp_0_25 x :
  is_number x ->
  (0 <=? Math_max 0 (Math_min x 25)) = true /\
  (Math_max 0 (Math_min x 25) <=? 25) = true.
Proof.
  intros Hx.
  assert (H25 : is_number 25) by reflexivity.
  assert (H0 : is_number 0) by reflexivity.
  pose proof (is_number_Math_min x 25 Hx H25) as Hm.
  destruct (Math_min_spec x 25 Hx H25) as (_ & _ & Hle).
  destruct (Math_max_spec 0 (Math_min x 25) H0 Hm) as ([E|E] & Hge & _).
  - rewrite E. split; reflexivity.
  - split; [assumption|]. rewrite E. assumption.
Qed.

End NumberFacts.

(** ** The Kelly sizer *)

Module KellyFacts.
Import FloatFacts NumberFacts RiskEngine.
Local Open Scope float_scope.

(** The guard as written: it fires on [avgLoss === 0], [winRate === 0] and
    [winRate === 1]. *)
Lemma kelly_guard winRate avgWin avgLoss :
  strict_eq avgLoss 0 = true \/ strict_eq winRate 0 = true \/ strict_eq winRate 1 = true ->
  calculateKellyCriterion winRate avgWin avgLoss = 0.
Proof.
  unfold calculateKellyCriterion. intros [H|[H|H]]; rewrite H, ?orb_true_r; reflexivity.
Qed.

(** C1, at the failing input: a win rate of 100 with an average win of 200
    and an average loss of 100 is not caught by the guard, which tests the
    win rate against 1; the function returns 25, not 0. *)
Theorem kelly_win_rate_100_returns_25 :
  calculateKellyCriterion 100 200 100 = 25 /\
  strict_eq (calculateKellyCriterion 100 200 100) 0 = false /\
  (forall avgWin avgLoss, calculateKellyCriterion 1 avgWin avgLoss = 0).
Proof.
  split; [reflexivity|split; [reflexivity|]].
  intros. apply kelly_guard. right. right. reflexivity.
Qed.

(** C8, as stated, fails: at a win rate of 100 with an average win of 0
    and an average loss of 1 the raw Kelly value is [1 - 0/0], and the
    function returns NaN, which is neither at least 0 nor at most 25.  It
    also returns NaN at a win rate of 50 when the average win and the
    average loss are both infinite. *)
Lemma kelly_range_counterexample :
  let r := calculateKellyCriterion 100 0 1 in
  let r' := calculateKellyCriterion 50 infinity infinity in
  (is_nan r = true /\ (0 <=? r) = false /\ (r <=? 25) = false) /\
  (is_nan r' = true /\ (0 <=? r') = false /\ (r' <=? 25) = false).
Proof. repeat split; reflexivity. Qed.

(** C8, amended: the value is 0 when the guard fires ([avgLoss === 0],
    [winRate === 0] or [winRate === 1]) and [rawKelly * 50] clamped below
    at 0 and above at 25 when it does not; whenever [rawKelly * 50] is a
    number (not NaN) the value lies within [0, 25]; and when no guard
    fires and [rawKelly * 50] is NaN, so is the value. *)
Theorem kelly_range winRate avgWin avgLoss :
  let winProbability := winRate / 100 in
  let lossRatio := avgWin / avgLoss in
  let rawKelly := winProbability - ((1 - winProbability) / lossRatio) in
  let r := calculateKellyCriterion winRate avgWin avgLoss in
  (strict_eq avgLoss 0 = true \/ strict_eq winRate 0 = true \/
   strict_eq winRate 1 = true -> r = 0) /\
  (strict_eq avgLoss 0 = false -> strict_eq winRate 0 = false ->
   strict_eq winRate 1 = false ->
   r = Math_max 0 (Math_min (rawKelly * 50) 25)) /\
  (is_number (rawKelly * 50) -> (0 <=? r) = true /\ (r <=? 25) = true) /\
  (strict_eq avgLoss 0 = false -> strict_eq winRate 0 = false ->
   strict_eq winRate 1 = false ->
   is_nan (rawKelly * 50) = true -> is_nan r = true).
Proof.
  cbv zeta. repeat apply conj.
  - apply kelly_guard.
  - intros H1 H2 H3. unfold calculateKellyCriterion. now rewrite H1, H2, H3.
  - unfold calculateKellyCriterion.
    destruct (strict_eq avgLoss 0 || strict_eq winRate 0 || strict_eq winRate 1).
    + intros _. split; reflexivity.
    + apply clamp_0_25.
  - intros H1 H2 H3 Hn. unfold calculateKellyCriterion. rewrite H1, H2, H3.
    cbn [orb]. apply Math_max_nan. right.
    unfold Math_min. now rewrite Hn.
Qed.

(** A win rate of 60 with an average win of 200 and an average loss of
    100: no guard fires, the value is the clamp and lies in the range. *)
Lemma kelly_range_witness :
  calculateKellyCriterion 60 200 100 =
    Math_max 0 (Math_min ((60 / 100 - (1 - 60 / 100) / (200 / 100)) * 50) 25) /\
  (0 <=? calculateKellyCriterion 60 200 100) = true /\
  (calculateKellyCriterion 60 200 100 <=? 25) = true.
Proof.
  split.
  - exact (proj1 (proj2 (kelly_range 60 200 100)) eq_refl eq_refl eq_refl).
  - exact (proj1 (proj2 (proj2 (kelly_range 60 200 100))) eq_refl).
Defined.

End KellyFacts.

(** ** The drawdown policy *)

Module DrawdownPolicyFacts.
Import FloatFacts NumberFacts RiskEngine.
Local Open Scope float_scope.

(** C5: the adjusted risk is the base risk below a drawdown of 5, three
    quarters of it from 5 up to (not including) 10, half of it from 10 up
    to 15, a quarter of it from 15 up to 20, and 0 from 20 on; so a
    drawdown at a boundary takes the tier above it: a base risk of 1 gives
    0.5 at a drawdown of 10, 0 at 20 and 1 at 4.99. *)
Theorem adjusted_risk_tiers baseRisk drawdownPercent :
  let r := getAdjustedRiskForDrawdown baseRisk drawdownPercent in
  ((drawdownPercent <? 5) = true -> r = baseRisk) /\
  ((5 <=? drawdownPercent) = true -> (drawdownPercent <? 10) = true ->
     r = baseRisk * 0.75) /\
  ((10 <=? drawdownPercent) = true -> (drawdownPercent <? 15) = true ->
     r = baseRisk * 0.5) /\
  ((15 <=? drawdownPercent) = true -> (drawdownPercent <? 20) = true ->
     r = baseRisk * 0.25) /\
  ((20 <=? drawdownPercent) = true -> r = 0) /\
  getAdjustedRiskForDrawdown 1 10 = 0.5 /\
  getAdjustedRiskForDrawdown 1 20 = 0 /\
  getAdjustedRiskForDrawdown 1 4.99 = 1.
Proof.
  cbv zeta. unfold getAdjustedRiskForDrawdown.
  repeat split; try reflexivity.
  - intros ->. reflexivity.
  - intros H5 H10. rewrite H10.
    replace (drawdownPercent <? 5) with false by (symmetry; float_order). reflexivity.
  - intros H10 H15. rewrite H15.
    replace (drawdownPercent <? 5) with false by (symmetry; float_order).
    replace (drawdownPercent <? 10) with false by (symmetry; float_order). reflexivity.
  - intros H15 H20. rewrite H20.
    replace (drawdownPercent <? 5) with false by (symmetry; float_order).
    replace (drawdownPercent <? 10) with false by (symmetry; float_order).
    replace (drawdownPercent <? 15) with false by (symmetry; float_order). reflexivity.
  - intros H20.
    replace (drawdownPercent <? 5) with false by (symmetry; float_order).
    replace (drawdownPercent <? 10) with false by (symmetry; float_order).
    replace (drawdownPercent <? 15) with false by (symmetry; float_order).
    replace (drawdownPercent <? 20) with false by (symmetry; float_order). reflexivity.
Qed.

(** The middle tier at a base risk of 2 and a drawdown of 12.5. *)
Lemma adjusted_risk_tiers_witness : getAdjustedRiskForDrawdown 2 12.5 = 2 * 0.5.
Proof.
  apply (adjusted_risk_tiers 2 12.5); reflexivity.
Defined.

End DrawdownPolicyFacts.

(** ** The trade validator *)

Module ValidatorFacts.
Import FloatFacts NumberFacts RiskEngine.
Local Open Scope float_scope.

(** C6: the verdict is valid exactly when the error list is empty, so it
    depends on the errors alone (a run with a warning can be valid); and a
    risk-reward ratio of 1.5 with the risk within its limit, no loss limit
    breached, a drawdown of at most 10 and trading not locked gives an
    invalid verdict with the risk-reward message as its only error and no
    warning. *)
Theorem validate_trade_verdict riskReward riskPercent limits portfolio :
  let r := validateTrade riskReward riskPercent limits portfolio in
  (ValidationResult.isValid r = true <-> ValidationResult.errors r = []) /\
  (let warned :=
     validateTrade 2 1 DEFAULT_RISK_LIMITS
       (PortfolioState.mk 100000 1 100000 85000 100000 0 0 0 15 15 false None) in
   ValidationResult.warnings warned = [DrawdownElevated 15] /\
   ValidationResult.isValid warned = true) /\
  (riskReward = 1.5 ->
   (riskPercent <=? RiskLimits.riskPerTrade limits) = true ->
   loss_limit_breached (PortfolioState.dailyPnL portfolio)
     (PortfolioState.capital portfolio) (RiskLimits.dailyLossLimit limits) = false ->
   loss_limit_breached (PortfolioState.weeklyPnL portfolio)
     (PortfolioState.capital portfolio) (RiskLimits.weeklyLossLimit limits) = false ->
   loss_limit_breached (PortfolioState.monthlyPnL portfolio)
     (PortfolioState.capital portfolio) (RiskLimits.monthlyLossLimit limits) = false ->
   (PortfolioState.drawdown portfolio <=? 10) = true ->
   PortfolioState.isTradingLocked portfolio = false ->
   ValidationResult.isValid r = false /\
   ValidationResult.errors r = [RiskRewardBelowMinimum 1.5] /\
   ValidationResult.warnings r = []).
Proof.
  cbv zeta. split; [|split].
  - unfold validateTrade. cbn [ValidationResult.isValid ValidationResult.errors].
    match goal with |- (Nat.eqb (List.length ?l) 0 = true) <-> _ => destruct l end;
      cbn; split; congruence.
  - split; reflexivity.
  - intros -> Hrisk Hd Hw Hm Hdd Hlock.
    unfold loss_limit_breached in Hd, Hw, Hm.
    unfold validateTrade.
    rewrite Hd, Hw, Hm, Hlock.
    unfold gt.
    rewrite (leb_ltb_false _ _ Hrisk), (leb_ltb_false _ _ Hdd).
    rewrite (leb_ltb_ltb_false _ 10 20 Hdd) by reflexivity.
    repeat split.
Qed.

(** The particular case on the default limits and the default portfolio. *)
Lemma validate_trade_verdict_witness :
  let r := validateTrade 1.5 1 DEFAULT_RISK_LIMITS TradingContext.DEFAULT_PORTFOLIO in
  ValidationResult.isValid r = false /\
  ValidationResult.errors r = [RiskRewardBelowMinimum 1.5] /\
  ValidationResult.warnings r = [].
Proof.
  apply (validate_trade_verdict 1.5 1 DEFAULT_RISK_LIMITS TradingContext.DEFAULT_PORTFOLIO);
    reflexivity.
Defined.

End ValidatorFacts.

(** ** The compounding projector *)

Module CompoundingFacts.
Import RiskEngine.
Local Open Scope float_scope.

(** The loop only ever appends to the projections it is given. *)
Lemma compounding_loop_app rate remaining :
  forall month capital cumulativeProfit projections,
    compounding_loop rate remaining month capital cumulativeProfit projections =
    projections ++ compounding_loop rate remaining month capital cumulativeProfit [].
Proof.
  induction remaining as [|k IH]; intros month capital cumulativeProfit projections;
    cbn [compounding_loop].
  - now rewrite app_nil_r.
  - rewrite IH. rewrite (IH _ _ _ (push [] _)). unfold push.
    now rewrite app_assoc.
Qed.

(** One iteration, seen from the front of the result. *)
Lemma compounding_loop_step rate k month capital cumulativeProfit :
  compounding_loop rate (S k) month capital cumulativeProfit [] =
  let profit := capital * (rate / 100) in
  CompoundingProjection.mk month (capital + profit) profit (cumulativeProfit + profit)
  :: compounding_loop rate k (S month) (capital + profit) (cumulativeProfit + profit) [].
Proof.
  cbn [compounding_loop]. rewrite compounding_loop_app. reflexivity.
Qed.

Lemma compounding_loop_length rate remaining :
  forall month capital cumulativeProfit,
    List.length (compounding_loop rate remaining month capital cumulativeProfit []) = remaining.
Proof.
  induction remaining as [|k IH]; intros; [reflexivity|].
  rewrite compounding_loop_step. cbn. now rewrite IH.
Qed.

Lemma compounding_loop_months rate remaining :
  forall month capital cumulativeProfit,
    map CompoundingProjection.month
      (compounding_loop rate remaining month capital cumulativeProfit []) =
    seq month remaining.
Proof.
  induction remaining as [|k IH]; intros; [reflexivity|].
  rewrite compounding_loop_step. cbn. now rewrite IH.
Qed.

Lemma compounding_loop_compounds rate remaining :
  forall month capital cumulativeProfit,
    compounds rate month capital cumulativeProfit
      (compounding_loop rate remaining month capital cumulativeProfit []).
Proof.
  induction remaining as [|k IH]; intros; [exact I|].
  rewrite compounding_loop_step. cbn. repeat split. apply IH.
Qed.

(** C7: the projection has one snapshot per month, numbered 1 to
    [months] in order; each month's profit is the prior capital times
    rate/100, and capital and cumulative profit accumulate it; and 100000
    at 5 per cent over 3 months gives exactly the capitals 105000, 110250
    and 115762.5. *)
Theorem compounding_projection startCapital monthlyReturnPercent months :
  let projections := calculateCompounding startCapital monthlyReturnPercent months in
  List.length projections = months /\
  map CompoundingProjection.month projections = seq 1 months /\
  compounds monthlyReturnPercent 1 startCapital 0 projections /\
  List.length (calculateCompounding 100000 5 3) = 3%nat /\
  map CompoundingProjection.capital (calculateCompounding 100000 5 3) =
    [105000; 110250; 115762.5].
Proof.
  cbv zeta. unfold calculateCompounding. repeat split.
  - apply compounding_loop_length.
  - apply compounding_loop_months.
  - apply compounding_loop_compounds.
Qed.

End CompoundingFacts.

(** ** The performance analyzer: streaks *)

Module StreakFacts.
Import FloatFacts RiskEngine.
Local Open Scope float_scope.

Lemma trailing_run_snoc {A} (p : A -> bool) l x :
  trailing_run p (l ++ [x]) = if p x then S (trailing_run p l) else 0%nat.
Proof.
  unfold trailing_run. rewrite rev_app_distr. reflexivity.
Qed.

(** After the streak loop the two running counters are the lengths of
    the trailing run of win steps and of the trailing run of loss steps. *)
Lemma streak_loop_current l :
  let s := fold_left streak_step l (mkStreaks 0 0 0 0) in
  currentWinStreak s = trailing_run win_step l /\
  currentLossStreak s = trailing_run loss_step l.
Proof.
  induction l as [|x l IH] using rev_ind; [split; reflexivity|].
  cbv zeta in *. destruct IH as [IHw IHl].
  rewrite fold_left_app. cbn [fold_left].
  remember (fold_left streak_step l (mkStreaks 0 0 0 0)) as s eqn:Es in *. clear Es.
  rewrite !trailing_run_snoc. unfold streak_step.
  change (gt (pnl_or_0 x) 0) with (win_step x).
  change (loss_step x) with (negb (win_step x)).
  destruct (win_step x); cbn [currentWinStreak currentLossStreak negb];
    split; congruence.
Qed.

Lemma last_snoc {A} (l : list A) (x : A) :
  last (map Some (l ++ [x])) None = Some x.
Proof.
  rewrite map_app. cbn [map]. apply last_last.
Qed.

(** The two streak fields of the result, in terms of the last closed
    trade. *)
Lemma metrics_streak trades init t :
  filter is_closed trades = init ++ [t] ->
  let m := calculatePerformanceMetrics trades in
  let type :=
    if gt (pnl_or_0 t) 0 then WIN else if pnl_or_0 t <? 0 then LOSS else NONE in
  PerformanceMetrics.streakType m = type /\
  PerformanceMetrics.currentStreak m =
    match type with
    | WIN => trailing_run win_step (filter is_closed trades)
    | LOSS => trailing_run loss_step (filter is_closed trades)
    | NONE => 0%nat
    end.
Proof.
  intros Hclosed. cbv zeta.
  pose proof (streak_loop_current (filter is_closed trades)) as [Hw Hl].
  cbv zeta in Hw, Hl.
  assert (Hlast : last (map Some (filter is_closed trades)) None = Some t)
    by (rewrite Hclosed; apply last_snoc).
  assert (Hlen : Nat.eqb (List.length (filter is_closed trades)) 0 = false)
    by (rewrite Hclosed, length_app; cbn; apply Nat.eqb_neq; lia).
  unfold calculatePerformanceMetrics.
  rewrite Hlen, Hlast, Hw, Hl.
  cbn [PerformanceMetrics.streakType PerformanceMetrics.currentStreak].
  split; reflexivity.
Qed.

(** C3, as stated, fails: when the only closed trade has a pnl of exactly
    0, the streak type is NONE and the current streak is 0, although the
    trailing run of loss steps has length 1. *)
Lemma streak_zero_pnl_counterexample :
  let flat :=
    Trade.mk "T1" "2024-01-02" "NIFTY" LONG 100 95 110 10 (Some 100) (Some 0) 2
      CLOSED None in
  let m := calculatePerformanceMetrics [flat] in
  PerformanceMetrics.streakType m = NONE /\
  PerformanceMetrics.streakType m <> LOSS /\
  PerformanceMetrics.currentStreak m = 0%nat /\
  trailing_run loss_step (filter is_closed [flat]) = 1%nat.
Proof. repeat split. discriminate. Qed.

(** C3, amended: with [t] the last closed trade, a pnl above 0 gives WIN
    with the length of the trailing run of win steps; a pnl below 0 gives
    LOSS with the length of the trailing run of loss steps (the steps
    whose pnl is not above 0, a pnl of exactly 0 among them); any other
    pnl, exactly 0 in particular, gives NONE with a current streak of 0. *)
Theorem current_streak trades init t :
  filter is_closed trades = init ++ [t] ->
  let closedTrades := filter is_closed trades in
  let m := calculatePerformanceMetrics trades in
  let pnl := pnl_or_0 t in
  (gt pnl 0 = true ->
     PerformanceMetrics.streakType m = WIN /\
     PerformanceMetrics.currentStreak m = trailing_run win_step closedTrades) /\
  ((pnl <? 0) = true ->
     PerformanceMetrics.streakType m = LOSS /\
     PerformanceMetrics.currentStreak m = trailing_run loss_step closedTrades) /\
  (gt pnl 0 = false -> (pnl <? 0) = false ->
     PerformanceMetrics.streakType m = NONE /\
     PerformanceMetrics.currentStreak m = 0%nat) /\
  (strict_eq pnl 0 = true ->
     PerformanceMetrics.streakType m = NONE /\
     PerformanceMetrics.currentStreak m = 0%nat).
Proof.
  intros Hclosed. cbv zeta.
  destruct (metrics_streak trades init t Hclosed) as [-> ->].
  repeat apply conj.
  - intros ->. split; reflexivity.
  - intros Hneg. unfold gt. rewrite (ltb_asym _ _ Hneg), Hneg. split; reflexivity.
  - intros -> ->. split; reflexivity.
  - unfold strict_eq, gt. intros Hz.
    destruct (eqb_ltb_false _ _ Hz) as [-> ->]. split; reflexivity.
Qed.

(** A closed winner after a closed loser and an open trade: WIN, with a
    current streak of 1. *)
Lemma current_streak_witness :
  let loser :=
    Trade.mk "T1" "2024-01-02" "NIFTY" LONG 100 95 110 10 (Some 95) (Some (-50)) 2
      CLOSED None in
  let pending :=
    Trade.mk "T2" "2024-01-03" "NIFTY" LONG 100 95 110 10 None None 2 OPEN None in
  let winner :=
    Trade.mk "T3" "2024-01-04" "NIFTY" SHORT 100 105 90 10 (Some 90) (Some 100) 2
      CLOSED None in
  let m := calculatePerformanceMetrics [loser; pending; winner] in
  PerformanceMetrics.streakType m = WIN /\
  PerformanceMetrics.currentStreak m =
    trailing_run win_step (filter is_closed [loser; pending; winner]).
Proof.
  cbv zeta.
  match goal with
  | |- context [calculatePerformanceMetrics [?a; ?b; ?c]] =>
      exact (proj1 (current_streak [a; b; c] [a] c eq_refl) eq_refl)
  end.
Defined.

End StreakFacts.

(** ** The position sizer *)

Module PositionSizeFacts.
Import FloatFacts NumberFacts RiskEngine.
Local Open Scope float_scope.

Lemma eqb_zero x : (x =? 0) = true -> exists s, Prim2SF x = S754_zero s.
Proof.
  rewrite FloatAxioms.eqb_spec. unfold SFeqb.
  destruct (Prim2SF x) as [s|s| |s m e]; cbn.
  - eauto.
  - destruct s; discriminate.
  - discriminate.
  - destruct s; discriminate.
Qed.

(** With a stop-loss percentage of zero the stop-loss amount is a zero or
    NaN, never above zero, whatever the entry price. *)
Lemma zero_stop_loss_amount entryPrice stopLossPercent :
  strict_eq stopLossPercent 0 = true ->
  gt ((entryPrice * stopLossPercent) / 100) 0 = false.
Proof.
  unfold strict_eq, gt. intros H. apply eqb_zero in H. destruct H as [s Hs].
  rewrite FloatAxioms.ltb_spec, div_spec, mul_spec, Hs.
  destruct (Prim2SF entryPrice) as [s'|s'| |s' m e]; reflexivity.
Qed.

(** C4, as stated, fails: with a capital of 1000, a risk of 2.55 per
    cent, a stop loss of 0.85 per cent and an entry price of 10, the risk
    amount is 25.5, the stop-loss amount is the double nearest to 0.085
    and the quantity is 300; quantity times stop-loss amount is above the
    risk amount, both as the product of doubles and as the exact product
    of the two values (mantissas compared at the exponent -56). *)
Lemma position_size_counterexample :
  let r := calculatePositionSize 1000 2.55 0.85 10 1 in
  let stopLossAmount := (10 * 0.85) / 100 in
  PositionSizeResult.riskAmount r = 25.5 /\
  PositionSizeResult.quantity r = 300 /\
  (PositionSizeResult.quantity r * stopLossAmount <=? PositionSizeResult.riskAmount r) = false /\
  Prim2SF stopLossAmount = S754_finite false 6124895493223875 (-56) /\
  Prim2SF (PositionSizeResult.riskAmount r) = S754_finite false 7177611906121728 (-48) /\
  (300 * 6124895493223875 > 7177611906121728 * 2 ^ 8)%Z.
Proof. repeat split. Qed.

(** C4, amended: with a stop-loss percentage of zero the quantity is 0;
    and whenever the stop-loss amount is above zero the quantity is the
    floor of the double quotient riskAmount / stopLossAmount and does not
    exceed that quotient.  At a capital of 100000, a risk of 1 per cent, an
    entry price of 2500 and a stop loss of 1 per cent the risk amount is
    1000, the stop-loss amount 25 and the quantity 40. *)
Theorem position_size capital riskPercent stopLossPercent entryPrice leverage :
  let r := calculatePositionSize capital riskPercent stopLossPercent entryPrice leverage in
  let riskAmount := (capital * riskPercent) / 100 in
  let stopLossAmount := (entryPrice * stopLossPercent) / 100 in
  (strict_eq stopLossPercent 0 = true -> PositionSizeResult.quantity r = 0) /\
  (gt stopLossAmount 0 = true -> is_number (riskAmount / stopLossAmount) ->
     PositionSizeResult.quantity r = Math_floor (riskAmount / stopLossAmount) /\
     (PositionSizeResult.quantity r <=? riskAmount / stopLossAmount) = true) /\
  PositionSizeResult.riskAmount r = riskAmount /\
  (let e := calculatePositionSize 100000 1 1 2500 1 in
   PositionSizeResult.riskAmount e = 1000 /\ (2500 * 1) / 100 = 25 /\
   PositionSizeResult.quantity e = 40).
Proof.
  cbv zeta. unfold calculatePositionSize. cbn [PositionSizeResult.quantity PositionSizeResult.riskAmount].
  repeat apply conj; try reflexivity.
  - intros H. now rewrite (zero_stop_loss_amount entryPrice stopLossPercent H).
  - intros H N. rewrite H. split; [reflexivity|]. now apply Math_floor_le.
Qed.

(** The amended bound at the inputs of the counterexample: the quantity
    300 does not exceed the double quotient, which is 300. *)
Lemma position_size_witness :
  let r := calculatePositionSize 1000 2.55 0.85 10 1 in
  PositionSizeResult.quantity r = Math_floor (((1000 * 2.55) / 100) / ((10 * 0.85) / 100)) /\
  (PositionSizeResult.quantity r <=? ((1000 * 2.55) / 100) / ((10 * 0.85) / 100)) = true.
Proof.
  apply (position_size 1000 2.55 0.85 10 1); reflexivity.
Defined.

End PositionSizeFacts.

(** ** Rounding never produces NaN *)

Module RoundingFacts.
Import FloatFacts NumberFacts RiskEngine.
Local Open Scope float_scope.

(** Shifting right and rounding keep a mantissa that is not negative so. *)
Lemma shr_1_nonneg mrs : (0 <= shr_m mrs -> 0 <= shr_m (shr_1 mrs))%Z.
Proof.
  destruct mrs as [m r s]. cbn [shr_m]. intros H.
  destruct m as [|p|p]; [cbn; lia|destruct p; cbn; lia|lia].
Qed.

Lemma iter_shr_1_nonneg p :
  forall mrs, (0 <= shr_m mrs -> 0 <= shr_m (iter_pos shr_1 p mrs))%Z.
Proof.
  induction p as [p IH|p IH|]; intros mrs H; cbn [iter_pos].
  - apply IH, IH, shr_1_nonneg, H.
  - apply IH, IH, H.
  - apply shr_1_nonneg, H.
Qed.

Lemma shr_fexp_nonneg m e l :
  (0 <= m -> 0 <= shr_m (fst (shr_fexp prec emax m e l)))%Z.
Proof.
  intros H. unfold shr_fexp, shr.
  assert (H0 : (0 <= shr_m (shr_record_of_loc m l))%Z)
    by (destruct l as [|[]]; exact H).
  destruct (fexp prec emax (Zdigits2 m + e) - e)%Z; cbn [fst]; try exact H0.
  apply iter_shr_1_nonneg, H0.
Qed.

Lemma round_nearest_even_nonneg m l : (0 <= m -> 0 <= round_nearest_even m l)%Z.
Proof.
  intros H. unfold round_nearest_even.
  destruct l as [|[]]; try lia. destruct (Z.even m); lia.
Qed.

(** Rounding a mantissa that is not negative gives a zero, a finite
    value or an infinity. *)
Lemma binary_round_aux_number sx mx ex lx :
  (0 <= mx)%Z -> binary_round_aux prec emax sx mx ex lx <> S754_nan.
Proof.
  intros H. unfold binary_round_aux.
  pose proof (shr_fexp_nonneg mx ex lx H) as H1.
  destruct (shr_fexp prec emax mx ex lx) as [mrs' e']. cbn [fst] in H1.
  pose proof (shr_fexp_nonneg _ e' loc_Exact
                (round_nearest_even_nonneg _ (loc_of_shr_record mrs') H1)) as H2.
  destruct (shr_fexp prec emax _ e' loc_Exact) as [mrs'' e'']. cbn [fst] in H2.
  destruct (shr_m mrs''); [discriminate| |lia].
  destruct (Z.leb e'' (emax - prec)); discriminate.
Qed.

Lemma binary_normalize_number m e szero :
  binary_normalize prec emax m e szero <> S754_nan.
Proof.
  destruct m as [|p|p]; cbn [binary_normalize]; [discriminate| |];
    unfold binary_round; destruct (shl_align p e _) as [mz ez];
    apply binary_round_aux_number; lia.
Qed.

Lemma finite_classes x :
  is_finite x = true ->
  (exists s, Prim2SF x = S754_zero s) \/ (exists s m e, Prim2SF x = S754_finite s m e).
Proof.
  unfold is_finite, is_infinity. rewrite negb_true_iff, orb_false_iff.
  intros [Hn Hi]. apply is_number_iff in Hn.
  rewrite FloatAxioms.eqb_spec, abs_spec in Hi.
  destruct (Prim2SF x) as [s|s| |s m e]; [eauto|discriminate|congruence|eauto 6].
Qed.

(** A finite value minus a number is a number. *)
Lemma sub_number x y : is_finite x = true -> is_number y -> is_number (x - y).
Proof.
  intros Hx Hy. apply is_number_iff. apply is_number_iff in Hy. rewrite sub_spec.
  destruct (finite_classes x Hx) as [[sx Ex]|(sx & mx & ex & Ex)]; rewrite Ex;
    destruct (Prim2SF y) as [sy|sy| |sy my ey]; try congruence;
    try (destruct sx, sy; discriminate); try discriminate.
  unfold SF64sub, SFsub. cbv zeta. apply binary_normalize_number.
Qed.

(** A number over a finite value above 0 is a number. *)
Lemma div_number x y :
  is_number x -> is_finite y = true -> (0 <? y) = true -> is_number (x / y).
Proof.
  intros Hx Hf Hy. apply is_number_iff. apply is_number_iff in Hx.
  rewrite FloatAxioms.ltb_spec in Hy. change (Prim2SF 0) with (S754_zero false) in Hy.
  rewrite div_spec.
  destruct (finite_classes y Hf) as [[sy Ey]|(sy & my & ey & Ey)]; rewrite Ey in *;
    [discriminate|].
  destruct (Prim2SF x) as [sx|sx| |sx mx ex]; try congruence; try discriminate.
  unfold SF64div, SFdiv.
  destruct (SFdiv_core_binary prec emax (Z.pos mx) ex (Z.pos my) ey)
    as [[mz ez] lz] eqn:Ec.
  apply binary_round_aux_number.
  unfold SFdiv_core_binary in Ec. cbv zeta in Ec.
  match type of Ec with
  | (let '(q, r) := Z.div_eucl ?a ?b in _) = _ =>
      pose proof (Z.div_pos a b) as Hq; unfold Z.div in Hq;
      assert (Ha : (0 <= a)%Z);
      [|destruct (Z.div_eucl a b) as [q r]; inversion Ec; subst; apply Hq; lia]
  end.
  destruct (ex - ey - _)%Z; try lia. apply Z.shiftl_nonneg. lia.
Qed.

(** A number times 100 is a number. *)
Lemma percent_number x : is_number x -> is_number (x * 100).
Proof.
  intros Hx. apply is_number_iff. apply is_number_iff in Hx. rewrite mul_spec.
  change (Prim2SF 100) with (S754_finite false 7036874417766400 (-46)).
  destruct (Prim2SF x) as [sx|sx| |sx mx ex]; try congruence; try discriminate.
  unfold SF64mul, SFmul. apply binary_round_aux_number. lia.
Qed.

Lemma finite_number x : is_finite x = true -> is_number x.
Proof. unfold is_finite, is_number. now destruct (is_nan x). Qed.

(** The drawdown of a current equity that is a number against a finite
    peak is a number. *)
Lemma calculateDrawdown_number currentEquity peakEquity :
  is_number currentEquity -> is_finite peakEquity = true ->
  is_number (calculateDrawdown currentEquity peakEquity).
Proof.
  intros Hc Hp. unfold calculateDrawdown.
  destruct (peakEquity <=? 0) eqn:E; [reflexivity|].
  apply percent_number, div_number; [now apply sub_number|exact Hp|].
  pose proof (finite_number _ Hp) as Hn.
  assert (H0 : is_number 0) by reflexivity.
  clear - E Hn H0. float_order.
Qed.

End RoundingFacts.

(** ** The portfolio update *)

Module PortfolioFacts.
Import FloatFacts NumberFacts RoundingFacts RiskEngine TradingContext.
Local Open Scope float_scope.

(** C2, at the failing input: on the default portfolio (equity and peak
    at 100000) an update of the current equity to 110000 stores a drawdown
    of -10, below zero and not the [max(0, ...)] of the claim, while the
    peak is raised to 110000 only after the drawdown was computed. *)
Theorem drawdown_negative_on_new_peak :
  let updates :=
    PortfolioUpdates.mk None None None (Some 110000) None None None None None None
      None None in
  let next := updatePortfolio updates DEFAULT_PORTFOLIO in
  PortfolioState.drawdown next = -10 /\
  (PortfolioState.drawdown next <? 0) = true /\
  Math_max 0 (((100000 - 110000) / 100000) * 100) = 0 /\
  PortfolioState.peakEquity next = 110000 /\
  calculateDrawdown 110000 (PortfolioState.peakEquity next) = 0.
Proof. repeat split. Qed.

Lemma run_updates_snoc us u p :
  run_updates (us ++ [u]) p = updatePortfolio u (run_updates us p).
Proof. unfold run_updates. now rewrite fold_left_app. Qed.

(** One update that leaves [maxDrawdown] alone takes the larger of the
    previous maximum and the new drawdown. *)
Lemma max_drawdown_step updates prev :
  PortfolioUpdates.maxDrawdown updates = None ->
  PortfolioState.maxDrawdown (updatePortfolio updates prev) =
  Math_max (PortfolioState.maxDrawdown prev)
    (PortfolioState.drawdown (updatePortfolio updates prev)).
Proof.
  intros H. unfold updatePortfolio, spread.
  cbn [PortfolioState.maxDrawdown PortfolioState.drawdown PortfolioState.currentEquity
       PortfolioState.peakEquity].
  rewrite H. reflexivity.
Qed.

Lemma max_drawdown_monotone us :
  forall p,
    Forall (fun u => PortfolioUpdates.maxDrawdown u = None) us ->
    is_number (PortfolioState.maxDrawdown (run_updates us p)) ->
    (PortfolioState.maxDrawdown p <=? PortfolioState.maxDrawdown (run_updates us p)) = true.
Proof.
  induction us as [|u us IH] using rev_ind; intros p Hall Hnum.
  - apply leb_refl. exact Hnum.
  - apply Forall_app in Hall. destruct Hall as [Hus Hu].
    apply Forall_inv in Hu.
    rewrite run_updates_snoc in *.
    rewrite (max_drawdown_step u _ Hu) in *.
    destruct (Math_max_number _ _ Hnum) as [N1 N2].
    destruct (Math_max_spec _ _ N1 N2) as (_ & Hge & _).
    eapply leb_trans; [apply IH; assumption|exact Hge].
Qed.

(** What an update stores in the two equities and in the drawdown. *)
Lemma update_equities updates prev :
  let merged := spread prev updates in
  let cur := PortfolioState.currentEquity merged in
  let peak := PortfolioState.peakEquity merged in
  let next := updatePortfolio updates prev in
  PortfolioState.currentEquity next = cur /\
  PortfolioState.peakEquity next = (if gt cur peak then cur else peak) /\
  PortfolioState.drawdown next = calculateDrawdown cur peak.
Proof. cbv zeta. unfold updatePortfolio. repeat split. Qed.

Lemma or_else_finite o x :
  absent_or_finite o -> is_finite x = true -> is_finite (or_else o x) = true.
Proof. destruct o; cbn; auto. Qed.

(** A tame update keeps the equities finite and the maximum drawdown a
    number. *)
Lemma tame_update_keeps u p :
  tame_update u ->
  is_finite (PortfolioState.currentEquity p) = true ->
  is_finite (PortfolioState.peakEquity p) = true ->
  is_number (PortfolioState.maxDrawdown p) ->
  is_finite (PortfolioState.currentEquity (updatePortfolio u p)) = true /\
  is_finite (PortfolioState.peakEquity (updatePortfolio u p)) = true /\
  is_number (PortfolioState.maxDrawdown (updatePortfolio u p)).
Proof.
  intros (Hm & Hc & Hp) Fc Fp Nm.
  rewrite (max_drawdown_step u p Hm).
  destruct (update_equities u p) as (Ec & Ep & Ed). cbv zeta in Ec, Ep, Ed.
  rewrite Ec, Ep, Ed.
  assert (Fc' : is_finite (PortfolioState.currentEquity (spread p u)) = true)
    by (unfold spread; cbn [PortfolioState.currentEquity]; now apply or_else_finite).
  assert (Fp' : is_finite (PortfolioState.peakEquity (spread p u)) = true)
    by (unfold spread; cbn [PortfolioState.peakEquity]; now apply or_else_finite).
  repeat apply conj.
  - exact Fc'.
  - now destruct (gt _ _).
  - apply is_number_Math_max; [exact Nm|].
    apply calculateDrawdown_number; [now apply finite_number|exact Fp'].
Qed.

Lemma tame_run_keeps us :
  forall p,
    Forall tame_update us ->
    is_finite (PortfolioState.currentEquity p) = true ->
    is_finite (PortfolioState.peakEquity p) = true ->
    is_number (PortfolioState.maxDrawdown p) ->
    is_number (PortfolioState.maxDrawdown (run_updates us p)).
Proof.
  induction us as [|u us IH]; intros p Hall Fc Fp Nm; [exact Nm|].
  inversion Hall as [|u' us' Hu Hus]; subst.
  destruct (tame_update_keeps u p Hu Fc Fp Nm) as (Fc' & Fp' & Nm').
  cbn [run_updates fold_left]. now apply IH.
Qed.

(** C9, as stated, fails.  An update of the current equity to NaN on the
    default portfolio leaves a state in which the peak is not at or above
    the current equity, and takes the maximum drawdown from 0 to NaN,
    which is not at or above 0.  Two updates that hold no NaN do the
    same to the maximum drawdown: the current equity set to +Infinity,
    which raises the peak to +Infinity, and then an empty update, whose
    drawdown is (Infinity - Infinity) / Infinity. *)
Lemma portfolio_update_counterexample :
  let to_nan :=
    PortfolioUpdates.mk None None None (Some nan) None None None None None None
      None None in
  let to_infinity :=
    PortfolioUpdates.mk None None None (Some infinity) None None None None None None
      None None in
  let empty :=
    PortfolioUpdates.mk None None None None None None None None None None None None in
  let next := updatePortfolio to_nan DEFAULT_PORTFOLIO in
  let first := updatePortfolio to_infinity DEFAULT_PORTFOLIO in
  let second := updatePortfolio empty first in
  ((PortfolioState.currentEquity next <=? PortfolioState.peakEquity next) = false /\
   (PortfolioState.peakEquity next <? PortfolioState.currentEquity next) = false /\
   PortfolioState.maxDrawdown DEFAULT_PORTFOLIO = 0 /\
   is_nan (PortfolioState.maxDrawdown next) = true /\
   (PortfolioState.maxDrawdown DEFAULT_PORTFOLIO <=?
      PortfolioState.maxDrawdown next) = false) /\
  (PortfolioState.maxDrawdown first = 0 /\
   is_nan (PortfolioState.maxDrawdown second) = true /\
   (PortfolioState.maxDrawdown first <=? PortfolioState.maxDrawdown second) = false).
Proof. repeat split. Qed.

(** C9, amended: an update keeps the merged current equity and stores as
    peak the merged current equity when that exceeds the merged peak and
    the merged peak otherwise; when these two are numbers (not NaN) the
    peak is afterwards at or above the current equity and is not below
    the merged peak, nor below the previous peak when the update does not
    set it.  An update that does not override [maxDrawdown] sets it to
    the larger of its previous value and the new drawdown, which is the
    drawdown of the merged current equity against the merged peak; across
    any run of such updates it does not decrease as long as its last
    value is a number, which it is when it was one before and every
    equity of the previous state and of the updates is finite. *)
Theorem portfolio_update_invariants updates prev :
  let merged := spread prev updates in
  let cur := PortfolioState.currentEquity merged in
  let peak := PortfolioState.peakEquity merged in
  let next := updatePortfolio updates prev in
  PortfolioState.currentEquity next = cur /\
  PortfolioState.peakEquity next = (if gt cur peak then cur else peak) /\
  PortfolioState.drawdown next = calculateDrawdown cur peak /\
  (is_number cur -> is_number peak ->
     (PortfolioState.currentEquity next <=? PortfolioState.peakEquity next) = true /\
     (peak <=? PortfolioState.peakEquity next) = true /\
     (PortfolioUpdates.peakEquity updates = None ->
        (PortfolioState.peakEquity prev <=? PortfolioState.peakEquity next) = true)) /\
  (PortfolioUpdates.maxDrawdown updates = None ->
     PortfolioState.maxDrawdown next =
       Math_max (PortfolioState.maxDrawdown prev) (PortfolioState.drawdown next)) /\
  (forall us,
     Forall (fun u => PortfolioUpdates.maxDrawdown u = None) us ->
     is_number (PortfolioState.maxDrawdown (run_updates us prev)) ->
     (PortfolioState.maxDrawdown prev <=?
        PortfolioState.maxDrawdown (run_updates us prev)) = true) /\
  (forall us,
     Forall tame_update us ->
     is_finite (PortfolioState.currentEquity prev) = true ->
     is_finite (PortfolioState.peakEquity prev) = true ->
     is_number (PortfolioState.maxDrawdown prev) ->
     is_number (PortfolioState.maxDrawdown (run_updates us prev)) /\
     (PortfolioState.maxDrawdown prev <=?
        PortfolioState.maxDrawdown (run_updates us prev)) = true).
Proof.
  cbv zeta.
  destruct (update_equities updates prev) as (Ec & Ep & Ed). cbv zeta in Ec, Ep, Ed.
  repeat apply conj.
  - exact Ec.
  - exact Ep.
  - exact Ed.
  - intros Hcur Hpeak. rewrite Ec, Ep.
    assert (Hprev : PortfolioUpdates.peakEquity updates = None ->
      PortfolioState.peakEquity prev = PortfolioState.peakEquity (spread prev updates)).
    { intros H. unfold spread. cbn [PortfolioState.peakEquity]. now rewrite H. }
    remember (PortfolioState.currentEquity (spread prev updates)) as cur eqn:Hc.
    remember (PortfolioState.peakEquity (spread prev updates)) as peak eqn:Hp.
    clear Hc Hp Ec Ep Ed. unfold gt.
    destruct (peak <? cur) eqn:E.
    + repeat apply conj; [now apply leb_refl|now apply ltb_leb|].
      intros H. rewrite (Hprev H). now apply ltb_leb.
    + repeat apply conj; [now apply ltb_false_leb|now apply leb_refl|].
      intros H. rewrite (Hprev H). now apply leb_refl.
  - apply max_drawdown_step.
  - intros us. apply max_drawdown_monotone.
  - intros us Hall Fc Fp Nm.
    pose proof (tame_run_keeps us prev Hall Fc Fp Nm) as Hnum.
    split; [exact Hnum|].
    apply max_drawdown_monotone; [|exact Hnum].
    eapply Forall_impl; [|exact Hall]. now intros u (H & _).
Qed.

(** The invariants on the default portfolio after a loss of 5000, an
    update that holds the new current equity only. *)
Lemma portfolio_update_invariants_witness :
  let updates :=
    PortfolioUpdates.mk None None None (Some 95000) None None None None None None
      None None in
  let next := updatePortfolio updates DEFAULT_PORTFOLIO in
  (PortfolioState.currentEquity next <=? PortfolioState.peakEquity next) = true /\
  PortfolioState.maxDrawdown next = Math_max 0 (PortfolioState.drawdown next) /\
  (0 <=? PortfolioState.maxDrawdown next) = true.
Proof.
  cbv zeta.
  match goal with
  | |- context [updatePortfolio ?u ?p] =>
      pose proof (portfolio_update_invariants u p) as H
  end.
  cbv zeta in H. destruct H as (_ & _ & _ & Ho & Hm & _ & Hrun).
  split; [exact (proj1 (Ho eq_refl eq_refl))|].
  split; [exact (Hm eq_refl)|].
  match goal with
  | |- context [updatePortfolio ?u ?p] =>
      assert (Ht : Forall tame_update [u])
        by (constructor; [unfold tame_update; cbn; repeat split|constructor]);
      exact (proj2 (Hrun [u] Ht eq_refl eq_refl eq_refl))
  end.
Defined.

End PortfolioFacts.

(** ** Closing a trade *)

Module CloseTradeFacts.
Import FloatFacts RiskEngine TradingContext.
Local Open Scope float_scope.

Lemma close_one_id id exitPrice t : Trade.id (close_one id exitPrice t) = Trade.id t.
Proof. unfold close_one. now destruct (negb (String.eqb (Trade.id t) id)). Qed.

(** The second updater finds the trade the first one closed. *)
Lemma find_close_one id exitPrice l :
  find (has_id id) (map (close_one id exitPrice) l) =
  option_map (close_one id exitPrice) (find (has_id id) l).
Proof.
  induction l as [|t l IH]; [reflexivity|].
  cbn [map find]. unfold has_id at 1 3. rewrite close_one_id.
  destruct (String.eqb (Trade.id t) id); [reflexivity|exact IH].
Qed.

Lemma close_one_matching id exitPrice t :
  has_id id t = true ->
  Trade.status (close_one id exitPrice t) = CLOSED /\
  Trade.exitPrice (close_one id exitPrice t) = Some exitPrice /\
  Trade.pnl (close_one id exitPrice t) = Some (close_pnl exitPrice t).
Proof.
  unfold has_id, close_one. intros ->. repeat split.
Qed.

Lemma zero_is_falsy x : strict_eq x 0 = true -> truthy x = false.
Proof. unfold strict_eq, truthy. intros ->. now rewrite orb_true_r. Qed.

(** A finite value is a zero or has a mantissa and an exponent. *)
Lemma is_finite_cases x :
  is_finite x = true ->
  (exists s, Prim2SF x = S754_zero s) \/ (exists s m e, Prim2SF x = S754_finite s m e).
Proof.
  unfold is_finite, is_infinity. rewrite negb_true_iff, orb_false_iff.
  intros [Hn Hi]. apply is_number_iff in Hn.
  rewrite FloatAxioms.eqb_spec, abs_spec in Hi.
  destruct (Prim2SF x) as [s|s| |s m e]; [eauto|discriminate|congruence|eauto 6].
Qed.

(** Closing at the entry price: the price difference is [+0], and [+0]
    times a finite quantity is a zero. *)
Lemma close_at_entry_price t :
  is_finite (Trade.entryPrice t) = true ->
  is_finite (Trade.quantity t) = true ->
  strict_eq (close_pnl (Trade.entryPrice t) t) 0 = true.
Proof.
  intros Hp Hq.
  assert (Hsub : Prim2SF (Trade.entryPrice t - Trade.entryPrice t) = S754_zero false).
  { rewrite sub_spec.
    destruct (is_finite_cases _ Hp) as [[s ->]|(s & m & e & ->)].
    - now destruct s.
    - unfold SF64sub, SFsub. now rewrite Z.sub_diag. }
  assert (Hmul :
    exists s, Prim2SF ((Trade.entryPrice t - Trade.entryPrice t) * Trade.quantity t)
              = S754_zero s).
  { rewrite mul_spec, Hsub.
    destruct (is_finite_cases _ Hq) as [[s ->]|(s & m & e & ->)]; cbn; eauto. }
  destruct Hmul as [s Hs].
  unfold strict_eq, close_pnl.
  destruct (Trade.side t); rewrite FloatAxioms.eqb_spec, Hs; reflexivity.
Qed.

(** C10: closing the trade [t] at an exit price for which the computed
    pnl is exactly zero marks it CLOSED, with the exit price and that pnl
    recorded, and leaves the portfolio (daily, weekly and monthly pnl and
    the current equity with it) and the session (its consecutive-loss
    counter with it) unchanged.  An exit price equal to a finite entry
    price, with a finite quantity, is such a close. *)
Theorem close_trade_zero_pnl rendered id exitPrice st t :
  find (has_id id) (trades st) = Some t ->
  strict_eq (close_pnl exitPrice t) 0 = true ->
  let st' := closeTrade rendered id exitPrice st in
  trades st' = map (close_one id exitPrice) (trades st) /\
  (exists t',
     find (has_id id) (trades st') = Some t' /\
     Trade.status t' = CLOSED /\
     Trade.exitPrice t' = Some exitPrice /\
     Trade.pnl t' = Some (close_pnl exitPrice t)) /\
  portfolio st' = portfolio st /\
  session st' = session st /\
  (exitPrice = Trade.entryPrice t -> is_finite (Trade.entryPrice t) = true ->
   is_finite (Trade.quantity t) = true ->
   strict_eq (close_pnl exitPrice t) 0 = true).
Proof.
  intros Hfind Hzero. cbv zeta.
  pose proof (find_some _ _ Hfind) as [_ Hid].
  destruct (close_one_matching id exitPrice t Hid) as (Hst & Hex & Hpnl).
  assert (Hfind' :
    find (fun t0 => String.eqb (Trade.id t0) id)
      (map (close_one id exitPrice) (trades st)) = Some (close_one id exitPrice t)).
  { change (fun t0 => String.eqb (Trade.id t0) id) with (has_id id).
    now rewrite find_close_one, Hfind. }
  unfold closeTrade. rewrite Hfind'. unfold pnl_truthy.
  rewrite Hpnl, (zero_is_falsy _ Hzero). cbn [trades portfolio session].
  repeat apply conj; try reflexivity.
  - exists (close_one id exitPrice t). repeat split; assumption.
  - intros -> Hp Hq. now apply close_at_entry_price.
Qed.

(** A long trade of 10 units entered at 100 and closed at 100, on the
    default portfolio, in a session with two consecutive losses. *)
Lemma close_trade_zero_pnl_witness :
  let t :=
    Trade.mk "T1" "2024-01-02" "NIFTY" LONG 100 95 110 10 None None 2 OPEN None in
  let st :=
    mkState DEFAULT_PORTFOLIO [t] DEFAULT_RISK_LIMITS
      (SessionState.mk 0 true 1 None 2) in
  let st' := closeTrade DEFAULT_PORTFOLIO "T1" 100 st in
  portfolio st' = portfolio st /\ session st' = session st.
Proof.
  cbv zeta.
  match goal with
  | |- context [closeTrade ?r ?id ?x (mkState ?p [?t] ?l ?s)] =>
      pose proof (close_trade_zero_pnl r id x (mkState p [t] l s) t eq_refl eq_refl) as H
  end.
  cbv zeta in H. destruct H as (_ & _ & Hp & Hs & _). split; assumption.
Defined.

End CloseTradeFacts.

(** ** The trade validator: every rule *)

Module ValidatorRules.
Import FloatFacts NumberFacts RiskEngine.
Local Open Scope float_scope.

(** The error list is the list of the messages whose condition holds, in
    the fixed order risk-reward, risk per trade, daily, weekly and monthly
    loss limit, drawdown, trading lock. *)
Lemma validate_errors riskReward riskPercent limits portfolio :
  ValidationResult.errors (validateTrade riskReward riskPercent limits portfolio) =
  blocking_errors riskReward riskPercent limits portfolio.
Proof.
  unfold validateTrade, blocking_errors, loss_limit_breached, push.
  cbn [ValidationResult.errors].
  destruct (riskReward <? 2);
  destruct (gt riskPercent (RiskLimits.riskPerTrade limits));
  destruct ((PortfolioState.dailyPnL portfolio <? 0) && _);
  destruct ((PortfolioState.weeklyPnL portfolio <? 0) && _);
  destruct ((PortfolioState.monthlyPnL portfolio <? 0) && _);
  destruct (gt (PortfolioState.drawdown portfolio) 20);
  destruct (PortfolioState.isTradingLocked portfolio); reflexivity.
Qed.

(** There is a warning exactly when the drawdown is above 10. *)
Lemma validate_warnings riskReward riskPercent limits portfolio :
  ValidationResult.warnings (validateTrade riskReward riskPercent limits portfolio) =
  (if gt (PortfolioState.drawdown portfolio) 10
   then [DrawdownElevated (PortfolioState.drawdown portfolio)] else []).
Proof.
  unfold validateTrade, push. cbn [ValidationResult.warnings].
  now destruct (gt (PortfolioState.drawdown portfolio) 10).
Qed.

(** The verdict as a boolean formula of the seven conditions. *)
Lemma validate_isValid riskReward riskPercent limits portfolio :
  ValidationResult.isValid (validateTrade riskReward riskPercent limits portfolio) =
  negb ((riskReward <? 2) || gt riskPercent (RiskLimits.riskPerTrade limits)
        || portfolio_blocked limits portfolio).
Proof.
  assert (Hvalid :
    ValidationResult.isValid (validateTrade riskReward riskPercent limits portfolio) =
    Nat.eqb (List.length (blocking_errors riskReward riskPercent limits portfolio)) 0).
  { rewrite <- validate_errors. reflexivity. }
  rewrite Hvalid. unfold blocking_errors, portfolio_blocked.
  repeat match goal with |- context [if ?c then _ else _] => destruct c end;
    reflexivity.
Qed.

(** A locked portfolio is never valid. *)
Lemma locked_not_valid riskReward riskPercent limits portfolio :
  PortfolioState.isTradingLocked portfolio = true ->
  ValidationResult.isValid (validateTrade riskReward riskPercent limits portfolio) = false.
Proof.
  intros Hl. rewrite validate_isValid. unfold portfolio_blocked.
  now rewrite Hl, !orb_true_r.
Qed.

(** X1: the errors of [validateTrade] are exactly the messages of the
    blocking conditions that hold, in source order (at most seven); there
    is a warning exactly when the drawdown is above 10; and the verdict
    is valid exactly when the risk-reward ratio is not below 2, the risk
    is not above its limit and the portfolio blocks nothing. *)
Theorem validate_trade_rules riskReward riskPercent limits portfolio :
  let r := validateTrade riskReward riskPercent limits portfolio in
  ValidationResult.errors r = blocking_errors riskReward riskPercent limits portfolio /\
  (List.length (ValidationResult.errors r) <= 7)%nat /\
  ValidationResult.warnings r =
    (if gt (PortfolioState.drawdown portfolio) 10
     then [DrawdownElevated (PortfolioState.drawdown portfolio)] else []) /\
  ValidationResult.isValid r =
    negb ((riskReward <? 2) || gt riskPercent (RiskLimits.riskPerTrade limits)
          || portfolio_blocked limits portfolio).
Proof.
  cbv zeta. split; [apply validate_errors|].
  split; [|split; [apply validate_warnings|apply validate_isValid]].
  rewrite validate_errors. unfold blocking_errors.
  repeat match goal with |- context [if ?c then _ else _] => destruct c end;
    cbn; lia.
Qed.

Lemma lt_20_lt_10 d : (20 <? d) = true -> (10 <? d) = true.
Proof. intros. float_order. Qed.

(** X2: a locked portfolio is rejected whatever the trade, with the lock
    message as the last error; and a drawdown above 20 raises both the
    elevated-drawdown warning and the maximum-drawdown error. *)
Theorem locked_or_deep_drawdown_rejects riskReward riskPercent limits portfolio :
  let r := validateTrade riskReward riskPercent limits portfolio in
  (PortfolioState.isTradingLocked portfolio = true ->
     ValidationResult.isValid r = false /\
     exists earlier,
       ValidationResult.errors r =
       earlier ++ [TradingIsLocked (PortfolioState.lockReason portfolio)]) /\
  (gt (PortfolioState.drawdown portfolio) 20 = true ->
     ValidationResult.isValid r = false /\
     ValidationResult.warnings r = [DrawdownElevated (PortfolioState.drawdown portfolio)] /\
     In (DrawdownExceedsMaximum (PortfolioState.drawdown portfolio))
        (ValidationResult.errors r)).
Proof.
  cbv zeta. rewrite validate_errors, validate_warnings, validate_isValid.
  unfold portfolio_blocked.
  split.
  - intros Hl. rewrite Hl, !orb_true_r. split; [reflexivity|].
    unfold blocking_errors. rewrite Hl.
    rewrite !app_assoc. eexists. reflexivity.
  - intros Hd. rewrite Hd, !orb_true_r.
    unfold gt in *. rewrite (lt_20_lt_10 _ Hd).
    split; [reflexivity|split; [reflexivity|]].
    unfold blocking_errors, gt. rewrite Hd.
    rewrite !in_app_iff. do 5 right. left. now left.
Qed.

(** A portfolio locked after three losses, and one 25 per cent under its
    peak. *)
Lemma locked_or_deep_drawdown_rejects_witness :
  ValidationResult.isValid
    (validateTrade 3 0.5 DEFAULT_RISK_LIMITS
       (PortfolioState.mk 100000 1 100000 100000 100000 0 0 0 0 0 true
          (Some "3 consecutive losses - mandatory cooldown"%string))) = false /\
  ValidationResult.isValid
    (validateTrade 3 0.5 DEFAULT_RISK_LIMITS
       (PortfolioState.mk 100000 1 100000 75000 100000 0 0 0 25 25 false None)) = false.
Proof.
  split.
  - exact (proj1 (proj1 (locked_or_deep_drawdown_rejects 3 0.5 DEFAULT_RISK_LIMITS
             (PortfolioState.mk 100000 1 100000 100000 100000 0 0 0 0 0 true
                (Some "3 consecutive losses - mandatory cooldown"%string))) eq_refl)).
  - exact (proj1 (proj2 (locked_or_deep_drawdown_rejects 3 0.5 DEFAULT_RISK_LIMITS
             (PortfolioState.mk 100000 1 100000 75000 100000 0 0 0 25 25 false None))
             eq_refl)).
Defined.

End ValidatorRules.

(** ** Zeros, NaN and signs through the arithmetic *)

Module ZeroFacts.
Import FloatFacts.
Local Open Scope float_scope.

Lemma zero_or_nan_abs x : zero_or_nan (Prim2SF x) -> zero_or_nan (Prim2SF (abs x)).
Proof. rewrite abs_spec. now destruct (Prim2SF x). Qed.

Lemma zero_or_nan_div x y : zero_or_nan (Prim2SF x) -> zero_or_nan (Prim2SF (x / y)).
Proof.
  rewrite div_spec. destruct (Prim2SF x); try contradiction;
    now destruct (Prim2SF y).
Qed.

Lemma zero_or_nan_mul x y : zero_or_nan (Prim2SF x) -> zero_or_nan (Prim2SF (x * y)).
Proof.
  rewrite mul_spec. destruct (Prim2SF x); try contradiction;
    now destruct (Prim2SF y).
Qed.

(** A zero or NaN is neither above nor below zero, and no positive limit
    is at or below it. *)
Lemma zero_or_nan_not_gt x : zero_or_nan (Prim2SF x) -> (0 <? x) = false /\ (x <? 0) = false.
Proof.
  rewrite !FloatAxioms.ltb_spec. now destruct (Prim2SF x).
Qed.

Lemma positive_cases l :
  (0 <? l) = true ->
  Prim2SF l = S754_infinity false \/ exists m e, Prim2SF l = S754_finite false m e.
Proof.
  rewrite FloatAxioms.ltb_spec.
  destruct (Prim2SF l) as [s|s| |s m e]; try discriminate.
  - destruct s; [discriminate|auto].
  - destruct s; [discriminate|eauto].
Qed.

Lemma zero_or_nan_below_positive x l :
  zero_or_nan (Prim2SF x) -> (0 <? l) = true -> (l <=? x) = false.
Proof.
  intros Hx Hl. rewrite FloatAxioms.leb_spec.
  destruct (positive_cases l Hl) as [->|(m & e & ->)];
    now destruct (Prim2SF x).
Qed.

Lemma finite_cases x :
  is_finite x = true ->
  (exists s, Prim2SF x = S754_zero s) \/ (exists s m e, Prim2SF x = S754_finite s m e).
Proof.
  unfold is_finite, is_infinity. rewrite negb_true_iff, orb_false_iff.
  intros [Hn Hi]. apply is_number_iff in Hn.
  rewrite FloatAxioms.eqb_spec, abs_spec in Hi.
  destruct (Prim2SF x) as [s|s| |s m e]; [eauto|discriminate|congruence|eauto 6].
Qed.

(** A finite value minus itself is [+0]. *)
Lemma sub_diag x : is_finite x = true -> x - x = 0.
Proof.
  intros H. apply Prim2SF_inj. rewrite sub_spec.
  destruct (finite_cases x H) as [[s ->]|(s & m & e & ->)].
  - now destruct s.
  - unfold SF64sub, SFsub. now rewrite Z.sub_diag.
Qed.

(** A finite value that is not a zero has a mantissa. *)
Lemma finite_nonzero_cases x :
  is_finite x = true -> (x =? 0) = false ->
  exists s m e, Prim2SF x = S754_finite s m e.
Proof.
  intros H Hz. destruct (finite_cases x H) as [[s Hs]|?]; [|assumption].
  rewrite FloatAxioms.eqb_spec, Hs in Hz. discriminate.
Qed.

(** [|(x - x) / x| * 100] is [+0] for a finite [x] other than zero. *)
Lemma percent_of_nothing x :
  is_finite x = true -> (x =? 0) = false -> abs ((x - x) / x) * 100 = 0.
Proof.
  intros H Hz. rewrite (sub_diag x H). apply Prim2SF_inj.
  rewrite mul_spec, abs_spec, div_spec.
  destruct (finite_nonzero_cases x H Hz) as (s & m & e & ->).
  now destruct s.
Qed.

(** The result of rounding carries the sign it was given. *)
Lemma binary_round_aux_sign sx mx ex lx :
  match binary_round_aux prec emax sx mx ex lx with
  | S754_nan => True
  | S754_zero s | S754_infinity s | S754_finite s _ _ => s = sx
  end.
Proof.
  unfold binary_round_aux.
  destruct (shr_fexp prec emax mx ex lx) as [mrs' e'].
  destruct (shr_fexp prec emax _ e' loc_Exact) as [mrs'' e''].
  destruct (shr_m mrs''); [reflexivity| |exact I].
  now destruct (Z.leb e'' (emax - prec)).
Qed.

(** An absolute value times 100 is NaN, a zero or positive. *)
Lemma abs_percent_nonneg y : nonneg_or_nan (Prim2SF (abs y * 100)).
Proof.
  rewrite mul_spec, abs_spec.
  destruct (Prim2SF y) as [s|s| |s m e]; cbn; try exact I; try reflexivity.
  match goal with
  | |- nonneg_or_nan (binary_round_aux ?p ?q ?sx ?mx ?ex ?lx) =>
      pose proof (binary_round_aux_sign sx mx ex lx) as Hs;
      destruct (binary_round_aux p q sx mx ex lx)
  end; cbn; try exact I; assumption.
Qed.

(** Such a value divided by [+0] is NaN or [+Infinity], never below 2. *)
Lemma nonneg_over_zero_not_below_2 x :
  nonneg_or_nan (Prim2SF x) -> (x / 0 <? 2) = false.
Proof.
  intros H. rewrite FloatAxioms.ltb_spec, div_spec.
  destruct (Prim2SF x) as [s|s| |s m e]; cbn in H; try subst s; reflexivity.
Qed.

End ZeroFacts.

(** ** The risk manager screen against the validator *)

Module RiskManagerFacts.
Import FloatFacts NumberFacts ZeroFacts RiskEngine.
Local Open Scope float_scope.

Lemma Math_min_0_negative pnl : (pnl <? 0) = true -> Math_min 0 pnl = pnl.
Proof.
  intros H. unfold Math_min.
  destruct (ltb_true_number _ _ H) as [Hn _]. unfold is_number in Hn.
  rewrite Hn, (ltb_asym _ _ H), H. reflexivity.
Qed.

Lemma Math_min_0_not_negative pnl :
  (pnl <? 0) = false -> zero_or_nan (Prim2SF (Math_min 0 pnl)).
Proof.
  intros H. unfold Math_min. cbn [is_nan orb].
  change (is_nan 0) with false. cbn [orb].
  destruct (is_nan pnl) eqn:En; [exact I|].
  destruct (0 <? pnl) eqn:E; [exact I|].
  rewrite H. change (get_sign 0) with false. cbn iota.
  assert (Heq : (pnl =? 0) = true) by float_order.
  rewrite FloatAxioms.eqb_spec in Heq.
  destruct (Prim2SF pnl) as [s|s| |s m e]; try exact I; cbn in Heq;
    destruct s; discriminate.
Qed.

(** X3: with a positive capital and a positive limit, the Risk Manager
    screen shows a loss limit as breached exactly when [validateTrade]
    reports that limit as breached. *)
Theorem risk_manager_agrees_with_validator capital pnl limit :
  gt capital 0 = true -> gt limit 0 = true ->
  RiskManager.isBreached (RiskManager.lossPercent capital pnl) limit =
  loss_limit_breached pnl capital limit.
Proof.
  unfold RiskManager.isBreached, RiskManager.lossPercent, loss_limit_breached, ge, gt.
  intros Hc Hl. rewrite Hc.
  destruct (pnl <? 0) eqn:E.
  - now rewrite (Math_min_0_negative _ E).
  - cbn [andb]. apply zero_or_nan_below_positive; [|assumption].
    apply zero_or_nan_mul, zero_or_nan_div, zero_or_nan_abs.
    now apply Math_min_0_not_negative.
Qed.

(** A daily loss of 3500 on a capital of 100000 against a limit of 3. *)
Lemma risk_manager_agrees_with_validator_witness :
  RiskManager.isBreached (RiskManager.lossPercent 100000 (-3500)) 3 =
  loss_limit_breached (-3500) 100000 3.
Proof.
  apply (risk_manager_agrees_with_validator 100000 (-3500) 3); reflexivity.
Defined.

End RiskManagerFacts.

(** ** The trade journal and the strategy validator *)

Module TradeJournalFacts.
Import FloatFacts NumberFacts ZeroFacts RiskEngine TradingContext ValidatorRules.
Local Open Scope float_scope.

Lemma truthy_nonzero x : truthy x = true -> is_nan x = false /\ (x =? 0) = false.
Proof.
  unfold truthy. rewrite negb_true_iff, orb_false_iff. auto.
Qed.

(** No risk-reward message among the errors when the ratio is not below 2. *)
Lemma no_risk_reward_error riskReward riskPercent limits portfolio x :
  (riskReward <? 2) = false ->
  ~ In (RiskRewardBelowMinimum x)
       (ValidationResult.errors (validateTrade riskReward riskPercent limits portfolio)).
Proof.
  intros H. rewrite validate_errors. unfold blocking_errors. rewrite H.
  rewrite !in_app_iff.
  repeat match goal with |- context [if ?c then _ else _] => destruct c end;
    cbn; intuition discriminate.
Qed.

(** [handleAddTrade] on a form whose four fields are truthy and whose
    verdict is valid: the trade is added when there is no warning or the
    warning is confirmed, and the state is left alone when a warning is
    declined. *)
Lemma handleAddTrade_valid toUpperCase form proceed newId st :
  truthy (TradeJournal.entryPrice form) = true ->
  truthy (TradeJournal.stopLoss form) = true ->
  truthy (TradeJournal.target form) = true ->
  truthy (TradeJournal.quantity form) = true ->
  ValidationResult.isValid (TradeJournal.validation form st) = true ->
  TradeJournal.handleAddTrade toUpperCase form proceed newId st =
  if gt (PortfolioState.drawdown (portfolio st)) 10 && negb proceed then st
  else
    addTrade newId
      (Trade.mk EmptyString (TradeJournal.date form)
         (toUpperCase (TradeJournal.instrument form)) (TradeJournal.side form)
         (TradeJournal.entryPrice form) (TradeJournal.stopLoss form)
         (TradeJournal.target form) (TradeJournal.quantity form) None None
         (TradeJournal.riskReward form) OPEN (Some (TradeJournal.notes form)))
      st.
Proof.
  intros E1 E2 E3 E4 Ev. unfold TradeJournal.handleAddTrade. cbv zeta.
  change (validateTrade
            (TradeJournal.targetPercent (TradeJournal.entryPrice form) (TradeJournal.target form)
             / TradeJournal.slPercent (TradeJournal.entryPrice form) (TradeJournal.stopLoss form))
            (TradeJournal.slPercent (TradeJournal.entryPrice form) (TradeJournal.stopLoss form))
            (riskLimits st) (portfolio st))
    with (TradeJournal.validation form st).
  rewrite E1, E2, E3, E4, Ev. cbn [negb orb].
  unfold TradeJournal.validation at 1. rewrite validate_warnings.
  destruct (gt (PortfolioState.drawdown (portfolio st)) 10); reflexivity.
Qed.

(** X4: when the stop loss of a new trade equals its (finite, non-zero)
    entry price, the journal computes a stop-loss percentage of 0 and a
    risk-reward ratio that is not below 2 (it is +Infinity or NaN), so
    [validateTrade] raises no risk-reward error and the verdict on the
    form is valid on every state on which a 1:2 trade with no risk is
    valid; with a truthy target and quantity [handleAddTrade] then
    appends the trade, stop loss at the entry price, unless the drawdown
    is above 10 and the warning is declined, in which case it leaves the
    state as it is.  The Strategy Validator, on the same prices, computes
    a ratio of 0 and reports the risk-reward error first. *)
Theorem stop_loss_at_entry
    toUpperCase date instrument side entry target quantity notes proceed newId st :
  is_finite entry = true -> truthy entry = true ->
  let form :=
    TradeJournal.mkNewTrade date instrument side entry entry target quantity notes in
  TradeJournal.slPercent entry entry = 0 /\
  (TradeJournal.riskReward form <? 2) = false /\
  (forall x,
     ~ In (RiskRewardBelowMinimum x)
          (ValidationResult.errors (TradeJournal.validation form st))) /\
  (ValidationResult.isValid
     (validateTrade 2 0 (riskLimits st) (portfolio st)) = true ->
   ValidationResult.isValid (TradeJournal.validation form st) = true) /\
  (truthy target = true -> truthy quantity = true ->
   ValidationResult.isValid
     (validateTrade 2 0 (riskLimits st) (portfolio st)) = true ->
   let st' := TradeJournal.handleAddTrade toUpperCase form proceed newId st in
   (gt (PortfolioState.drawdown (portfolio st)) 10 = false \/ proceed = true ->
      exists t,
        trades st' = trades st ++ [t] /\ Trade.id t = newId /\
        Trade.entryPrice t = entry /\ Trade.stopLoss t = entry /\
        Trade.status t = OPEN) /\
   (gt (PortfolioState.drawdown (portfolio st)) 10 = true -> proceed = false ->
      st' = st)) /\
  (truthy target = true -> truthy quantity = true ->
   exists v rest,
     StrategyValidator.validation entry entry target quantity
       (riskLimits st) (portfolio st) = Some v /\
     StrategyValidator.riskReward v = 0 /\
     ValidationResult.isValid (StrategyValidator.result v) = false /\
     ValidationResult.errors (StrategyValidator.result v) =
       RiskRewardBelowMinimum 0 :: rest).
Proof.
  intros Hfin Htruthy. cbv zeta.
  destruct (truthy_nonzero _ Htruthy) as [_ Hnz].
  assert (Hsl : TradeJournal.slPercent entry entry = 0)
    by (apply percent_of_nothing; assumption).
  assert (Hrr :
    (TradeJournal.riskReward
       (TradeJournal.mkNewTrade date instrument side entry entry target quantity notes)
     <? 2) = false).
  { unfold TradeJournal.riskReward. cbn [TradeJournal.entryPrice TradeJournal.target
      TradeJournal.stopLoss]. rewrite Hsl.
    apply nonneg_over_zero_not_below_2. apply abs_percent_nonneg. }
  assert (Hvalid :
    ValidationResult.isValid
      (validateTrade 2 0 (riskLimits st) (portfolio st)) = true ->
    ValidationResult.isValid
      (TradeJournal.validation
         (TradeJournal.mkNewTrade date instrument side entry entry target quantity notes)
         st) = true).
  { unfold TradeJournal.validation.
    rewrite !validate_isValid.
    cbn [TradeJournal.entryPrice TradeJournal.stopLoss].
    rewrite Hrr, Hsl. change (2 <? 2) with false. exact (fun H => H). }
  repeat apply conj.
  - exact Hsl.
  - exact Hrr.
  - intros x. apply no_risk_reward_error. exact Hrr.
  - exact Hvalid.
  - intros Ht Hq Hv.
    match goal with
    | |- context [TradeJournal.handleAddTrade _ ?f _ _ _] =>
        rewrite (handleAddTrade_valid toUpperCase f proceed newId st
                   Htruthy Htruthy Ht Hq (Hvalid Hv))
    end.
    cbn [TradeJournal.date TradeJournal.instrument TradeJournal.side
         TradeJournal.entryPrice TradeJournal.stopLoss TradeJournal.target
         TradeJournal.quantity TradeJournal.notes].
    split.
    + intros [Hd| ->].
      * rewrite Hd. cbn [andb]. eexists. cbn. repeat split.
      * cbn [negb]. rewrite andb_false_r. eexists. cbn. repeat split.
    + intros Hd ->. now rewrite Hd.
  - intros Ht Hq. unfold StrategyValidator.validation. cbv beta zeta.
    rewrite Htruthy, Ht, Hq. cbv iota. rewrite Htruthy, Ht, Hq. cbn [negb orb].
    change (Math_abs ((entry - entry) / entry) * 100)
      with (TradeJournal.slPercent entry entry).
    rewrite Hsl. change (gt 0 0) with false. cbn iota.
    eexists. eexists. split; [reflexivity|].
    cbn [StrategyValidator.riskReward StrategyValidator.result].
    split; [reflexivity|].
    rewrite validate_errors, validate_isValid. split; reflexivity.
Qed.

(** A long trade entered at 2500 with its stop at 2500 and its target at
    2600, on the default portfolio and limits: added to the journal. *)
Lemma stop_loss_at_entry_witness :
  let st :=
    mkState DEFAULT_PORTFOLIO [] DEFAULT_RISK_LIMITS (SessionState.mk 0 true 0 None 0) in
  let form := TradeJournal.mkNewTrade "2024-01-02" "NIFTY" LONG 2500 2500 2600 10 "" in
  exists t,
    trades (TradeJournal.handleAddTrade (fun s => s) form false "T1" st) =
      trades st ++ [t] /\
    Trade.id t = "T1"%string /\
    Trade.entryPrice t = 2500 /\ Trade.stopLoss t = 2500 /\
    Trade.status t = OPEN.
Proof.
  cbv zeta.
  exact (proj1 (proj1 (proj2 (proj2 (proj2 (proj2
    (stop_loss_at_entry (fun s => s) "2024-01-02" "NIFTY" LONG 2500 2600 10 ""
       false "T1"
       (mkState DEFAULT_PORTFOLIO [] DEFAULT_RISK_LIMITS
          (SessionState.mk 0 true 0 None 0)) eq_refl eq_refl)))))
    eq_refl eq_refl eq_refl) (or_introl eq_refl)).
Defined.

(** X5: [handleAddTrade] either leaves the state as it is or appends one
    trade; it appends only when every parsed field is truthy, the verdict
    of [validateTrade] on the form is valid and any warning was
    confirmed; the appended trade carries the generated id, is OPEN, has
    no exit price and no pnl and a risk-reward ratio that is not below 2;
    the portfolio is untouched and the session counts one more trade.  On
    a locked portfolio nothing is ever added. *)
Theorem handle_add_trade_sound toUpperCase form proceed newId st :
  let st' := TradeJournal.handleAddTrade toUpperCase form proceed newId st in
  (st' = st \/
   (truthy (TradeJournal.entryPrice form) = true /\
    truthy (TradeJournal.stopLoss form) = true /\
    truthy (TradeJournal.target form) = true /\
    truthy (TradeJournal.quantity form) = true /\
    ValidationResult.isValid (TradeJournal.validation form st) = true /\
    (ValidationResult.warnings (TradeJournal.validation form st) = [] \/ proceed = true) /\
    exists t,
      trades st' = trades st ++ [t] /\
      Trade.id t = newId /\ Trade.status t = OPEN /\
      Trade.exitPrice t = None /\ Trade.pnl t = None /\
      Trade.riskReward t = TradeJournal.riskReward form /\
      (Trade.riskReward t <? 2) = false /\
      portfolio st' = portfolio st /\
      SessionState.tradesCount (session st') = S (SessionState.tradesCount (session st)))) /\
  (PortfolioState.isTradingLocked (portfolio st) = true -> st' = st).
Proof.
  cbv zeta. unfold TradeJournal.handleAddTrade.
  change (validateTrade
            (TradeJournal.targetPercent (TradeJournal.entryPrice form) (TradeJournal.target form)
             / TradeJournal.slPercent (TradeJournal.entryPrice form) (TradeJournal.stopLoss form))
            (TradeJournal.slPercent (TradeJournal.entryPrice form) (TradeJournal.stopLoss form))
            (riskLimits st) (portfolio st))
    with (TradeJournal.validation form st).
  change (TradeJournal.targetPercent (TradeJournal.entryPrice form) (TradeJournal.target form)
          / TradeJournal.slPercent (TradeJournal.entryPrice form) (TradeJournal.stopLoss form))
    with (TradeJournal.riskReward form).
  destruct (truthy (TradeJournal.entryPrice form)) eqn:E1; cbn [negb orb]; [|auto].
  destruct (truthy (TradeJournal.stopLoss form)) eqn:E2; cbn [negb orb]; [|auto].
  destruct (truthy (TradeJournal.target form)) eqn:E3; cbn [negb orb]; [|auto].
  destruct (truthy (TradeJournal.quantity form)) eqn:E4; cbn [negb orb]; [|auto].
  destruct (ValidationResult.isValid (TradeJournal.validation form st)) eqn:Ev;
    cbn [negb]; [|auto].
  assert (Hlocked : PortfolioState.isTradingLocked (portfolio st) = false).
  { destruct (PortfolioState.isTradingLocked (portfolio st)) eqn:El; [|reflexivity].
    unfold TradeJournal.validation in Ev.
    rewrite (locked_not_valid _ _ _ _ El) in Ev. discriminate. }
  assert (Hrr : (TradeJournal.riskReward form <? 2) = false).
  { unfold TradeJournal.validation in Ev.
    rewrite validate_isValid in Ev.
    destruct (TradeJournal.riskReward form <? 2); [discriminate|reflexivity]. }
  split; [|intros; congruence].
  destruct (ValidationResult.warnings (TradeJournal.validation form st)) as [|w ws] eqn:Ew;
    cbn [List.length Nat.ltb Nat.leb andb].
  - right. repeat (split; [reflexivity|]). split; [now left|].
    eexists. cbn. repeat split. exact Hrr.
  - destruct proceed; cbn [negb]; [|auto].
    right. repeat (split; [reflexivity|]). split; [now right|].
    eexists. cbn. repeat split. exact Hrr.
Qed.

End TradeJournalFacts.

(** ** Closing a trade: every path *)

Module CloseTradePaths.
Import FloatFacts NumberFacts RiskEngine TradingContext CloseTradeFacts ValidatorRules.
Local Open Scope float_scope.

(** [closeTrade] on a trade that is found, path by path. *)
Lemma closeTrade_found rendered id exitPrice st t :
  find (has_id id) (trades st) = Some t ->
  closeTrade rendered id exitPrice st =
  let trades1 := map (close_one id exitPrice) (trades st) in
  let pnl := close_pnl exitPrice t in
  let portfolio1 :=
    updatePortfolio
      (PortfolioUpdates.mk None None None
         (Some (PortfolioState.currentEquity rendered + pnl)) None
         (Some (PortfolioState.dailyPnL rendered + pnl))
         (Some (PortfolioState.weeklyPnL rendered + pnl))
         (Some (PortfolioState.monthlyPnL rendered + pnl))
         None None None None)
      (portfolio st) in
  if truthy pnl then
    if pnl <? 0 then
      mkState
        (if Nat.leb 3 (S (SessionState.consecutiveLosses (session st)))
         then lockTrading "3 consecutive losses - mandatory cooldown" portfolio1
         else portfolio1)
        trades1 (riskLimits st)
        (set_consecutiveLosses (session st)
           (S (SessionState.consecutiveLosses (session st))))
    else mkState portfolio1 trades1 (riskLimits st) (set_consecutiveLosses (session st) 0)
  else mkState (portfolio st) trades1 (riskLimits st) (session st).
Proof.
  intros Hfind. cbv zeta.
  pose proof (find_some _ _ Hfind) as [_ Hid].
  destruct (close_one_matching id exitPrice t Hid) as (_ & _ & Hpnl).
  unfold closeTrade.
  change (fun t0 => String.eqb (Trade.id t0) id) with (has_id id).
  rewrite find_close_one, Hfind. cbn [option_map pnl_truthy]. rewrite Hpnl.
  destruct (truthy (close_pnl exitPrice t)); reflexivity.
Qed.

Lemma negative_is_truthy x : (x <? 0) = true -> truthy x = true.
Proof.
  intros H. unfold truthy.
  destruct (ltb_true_number _ _ H) as [Hn _]. unfold is_number in Hn. rewrite Hn.
  replace (x =? 0) with false by (symmetry; float_order). reflexivity.
Qed.

Lemma positive_is_truthy x : (0 <? x) = true -> truthy x = true /\ (x <? 0) = false.
Proof.
  intros H. unfold truthy.
  destruct (ltb_true_number _ _ H) as [_ Hn]. unfold is_number in Hn. rewrite Hn.
  replace (x =? 0) with false by (symmetry; float_order).
  split; [reflexivity|float_order].
Qed.

(** X6: closing a trade at a loss adds one to the consecutive-loss
    counter; below three the lock state stays as it was, and from three on
    trading is locked with the cooldown message, after which
    [validateTrade] rejects every trade. *)
Theorem close_at_a_loss rendered id exitPrice st t :
  find (has_id id) (trades st) = Some t ->
  (close_pnl exitPrice t <? 0) = true ->
  let st' := closeTrade rendered id exitPrice st in
  let losses := S (SessionState.consecutiveLosses (session st)) in
  SessionState.consecutiveLosses (session st') = losses /\
  ((losses < 3)%nat ->
     PortfolioState.isTradingLocked (portfolio st') =
       PortfolioState.isTradingLocked (portfolio st) /\
     PortfolioState.lockReason (portfolio st') = PortfolioState.lockReason (portfolio st)) /\
  ((3 <= losses)%nat ->
     PortfolioState.isTradingLocked (portfolio st') = true /\
     PortfolioState.lockReason (portfolio st') =
       Some "3 consecutive losses - mandatory cooldown"%string /\
     forall riskReward riskPercent,
       ValidationResult.isValid
         (validateTrade riskReward riskPercent (riskLimits st') (portfolio st')) = false).
Proof.
  intros Hfind Hneg. cbv zeta.
  rewrite (closeTrade_found _ _ _ _ _ Hfind). cbv zeta.
  rewrite (negative_is_truthy _ Hneg), Hneg.
  cbn [session portfolio riskLimits]. split; [reflexivity|]. split.
  - intros Hlt. apply Nat.leb_gt in Hlt. rewrite Hlt. split; reflexivity.
  - intros Hle. apply Nat.leb_le in Hle. rewrite Hle.
    split; [reflexivity|]. split; [reflexivity|].
    intros rr rp.
    apply locked_not_valid. reflexivity.
Qed.

(** A third loss in a row: a long trade entered at 100 is closed at 95. *)
Lemma close_at_a_loss_witness :
  let t :=
    Trade.mk "T1" "2024-01-02" "NIFTY" LONG 100 95 110 10 None None 2 OPEN None in
  let st :=
    mkState DEFAULT_PORTFOLIO [t] DEFAULT_RISK_LIMITS
      (SessionState.mk 0 true 3 None 2) in
  SessionState.consecutiveLosses (session (closeTrade DEFAULT_PORTFOLIO "T1" 95 st)) = 3%nat.
Proof.
  cbv zeta.
  match goal with
  | |- context [closeTrade ?r ?id ?x (mkState ?p [?t] ?l ?s)] =>
      exact (proj1 (close_at_a_loss r id x (mkState p [t] l s) t eq_refl eq_refl))
  end.
Defined.

(** X7: closing a trade at a profit resets the consecutive-loss counter
    to zero and neither locks nor unlocks trading. *)
Theorem close_at_a_profit rendered id exitPrice st t :
  find (has_id id) (trades st) = Some t ->
  (0 <? close_pnl exitPrice t) = true ->
  let st' := closeTrade rendered id exitPrice st in
  SessionState.consecutiveLosses (session st') = 0%nat /\
  PortfolioState.isTradingLocked (portfolio st') =
    PortfolioState.isTradingLocked (portfolio st) /\
  PortfolioState.lockReason (portfolio st') = PortfolioState.lockReason (portfolio st).
Proof.
  intros Hfind Hpos. cbv zeta.
  rewrite (closeTrade_found _ _ _ _ _ Hfind). cbv zeta.
  destruct (positive_is_truthy _ Hpos) as [-> ->].
  repeat split.
Qed.

(** A long trade entered at 100 is closed at 110 after two losses. *)
Lemma close_at_a_profit_witness :
  let t :=
    Trade.mk "T1" "2024-01-02" "NIFTY" LONG 100 95 110 10 None None 2 OPEN None in
  let st :=
    mkState DEFAULT_PORTFOLIO [t] DEFAULT_RISK_LIMITS
      (SessionState.mk 0 true 3 None 2) in
  SessionState.consecutiveLosses (session (closeTrade DEFAULT_PORTFOLIO "T1" 110 st)) = 0%nat.
Proof.
  cbv zeta.
  match goal with
  | |- context [closeTrade ?r ?id ?x (mkState ?p [?t] ?l ?s)] =>
      exact (proj1 (close_at_a_profit r id x (mkState p [t] l s) t eq_refl eq_refl))
  end.
Defined.

(** A trade with another id is not touched by the first updater. *)
Lemma close_one_other id exitPrice t : has_id id t = false -> close_one id exitPrice t = t.
Proof. unfold has_id, close_one. now intros ->. Qed.

Lemma find_close_one_other id id' exitPrice l t :
  id <> id' ->
  find (has_id id') l = Some t ->
  find (has_id id') (map (close_one id exitPrice) l) = Some t.
Proof.
  intros Hne. induction l as [|a l IH]; [discriminate|].
  cbn [map find]. unfold has_id at 1 3. rewrite close_one_id.
  destruct (String.eqb (Trade.id a) id') eqn:E.
  - intros [= <-]. f_equal. apply close_one_other. unfold has_id.
    apply String.eqb_eq in E. apply String.eqb_neq. congruence.
  - exact IH.
Qed.

(** X8: after a close with a non-zero pnl the daily, weekly and monthly
    pnl and the current equity are those of the portfolio the callback
    captured plus the pnl, whatever the state held; so of two trades
    closed through the same captured portfolio, the pnl of the first is
    missing from the accumulators after the second. *)
Theorem close_accumulates_on_captured_portfolio rendered id exitPrice st t :
  find (has_id id) (trades st) = Some t ->
  truthy (close_pnl exitPrice t) = true ->
  let pnl := close_pnl exitPrice t in
  let after := portfolio (closeTrade rendered id exitPrice st) in
  (PortfolioState.dailyPnL after = PortfolioState.dailyPnL rendered + pnl /\
   PortfolioState.weeklyPnL after = PortfolioState.weeklyPnL rendered + pnl /\
   PortfolioState.monthlyPnL after = PortfolioState.monthlyPnL rendered + pnl /\
   PortfolioState.currentEquity after = PortfolioState.currentEquity rendered + pnl) /\
  (forall id0 exitPrice0,
     id0 <> id ->
     let after2 :=
       portfolio (closeTrade rendered id exitPrice
                    (closeTrade rendered id0 exitPrice0 st)) in
     PortfolioState.dailyPnL after2 = PortfolioState.dailyPnL rendered + pnl /\
     PortfolioState.currentEquity after2 = PortfolioState.currentEquity rendered + pnl).
Proof.
  intros Hfind Htruthy. cbv zeta.
  assert (Hone : forall st0,
    find (has_id id) (trades st0) = Some t ->
    let after := portfolio (closeTrade rendered id exitPrice st0) in
    PortfolioState.dailyPnL after = PortfolioState.dailyPnL rendered + close_pnl exitPrice t /\
    PortfolioState.weeklyPnL after = PortfolioState.weeklyPnL rendered + close_pnl exitPrice t /\
    PortfolioState.monthlyPnL after = PortfolioState.monthlyPnL rendered + close_pnl exitPrice t /\
    PortfolioState.currentEquity after =
      PortfolioState.currentEquity rendered + close_pnl exitPrice t).
  { intros st0 H0. cbv zeta. rewrite (closeTrade_found _ _ _ _ _ H0). cbv zeta.
    rewrite Htruthy.
    destruct (close_pnl exitPrice t <? 0); [|repeat split].
    cbn [portfolio].
    destruct (Nat.leb 3 (S (SessionState.consecutiveLosses (session st0))));
      repeat split. }
  split; [apply Hone; assumption|].
  intros id0 exitPrice0 Hne.
  assert (H1 : find (has_id id) (trades (closeTrade rendered id0 exitPrice0 st)) = Some t).
  { replace (trades (closeTrade rendered id0 exitPrice0 st))
      with (map (close_one id0 exitPrice0) (trades st)).
    - now apply find_close_one_other.
    - unfold closeTrade. destruct (pnl_truthy _) as [p|]; [|reflexivity].
      destruct (p <? 0); reflexivity. }
  destruct (Hone _ H1) as (Hd & _ & _ & He). split; assumption.
Qed.

(** Two open trades; the second is closed at a profit of 200 after the
    first was closed at a profit of 100 from the same render. *)
Lemma close_accumulates_on_captured_portfolio_witness :
  let t1 :=
    Trade.mk "T1" "2024-01-02" "NIFTY" LONG 100 95 110 10 None None 2 OPEN None in
  let t2 :=
    Trade.mk "T2" "2024-01-02" "BANKNIFTY" LONG 200 190 220 10 None None 2 OPEN None in
  let st :=
    mkState DEFAULT_PORTFOLIO [t1; t2] DEFAULT_RISK_LIMITS
      (SessionState.mk 0 true 2 None 0) in
  PortfolioState.dailyPnL
    (portfolio (closeTrade DEFAULT_PORTFOLIO "T2" 220
                  (closeTrade DEFAULT_PORTFOLIO "T1" 110 st))) = 0 + 200.
Proof.
  cbv zeta.
  match goal with
  | |- context [closeTrade ?r ?id ?x (closeTrade ?r ?id0 ?x0 (mkState ?p [?a; ?b] ?l ?s))] =>
      refine (proj1 (proj2 (close_accumulates_on_captured_portfolio
                              r id x (mkState p [a; b] l s) b eq_refl eq_refl)
                       id0 x0 _))
  end.
  discriminate.
Defined.

(** Whatever the path, the trades are the first updater's. *)
Lemma closeTrade_trades rendered id exitPrice st :
  trades (closeTrade rendered id exitPrice st) = map (close_one id exitPrice) (trades st).
Proof.
  unfold closeTrade. destruct (pnl_truthy _) as [p|]; [|reflexivity].
  destruct (p <? 0); reflexivity.
Qed.

(** X9: closing with an id that no trade carries changes nothing at all. *)
Theorem close_unknown_id rendered id exitPrice st :
  find (has_id id) (trades st) = None ->
  closeTrade rendered id exitPrice st = st.
Proof.
  intros Hfind.
  assert (Hmap : map (close_one id exitPrice) (trades st) = trades st).
  { rewrite <- (map_id (trades st)) at 2. apply map_ext_in.
    intros a Ha. apply close_one_other. exact (find_none _ _ Hfind a Ha). }
  unfold closeTrade.
  change (fun t0 => String.eqb (Trade.id t0) id) with (has_id id).
  rewrite Hmap, Hfind. now destruct st.
Qed.

(** No trade is called T9 in a journal that holds T1 only. *)
Lemma close_unknown_id_witness :
  let t :=
    Trade.mk "T1" "2024-01-02" "NIFTY" LONG 100 95 110 10 None None 2 OPEN None in
  let st :=
    mkState DEFAULT_PORTFOLIO [t] DEFAULT_RISK_LIMITS
      (SessionState.mk 0 true 1 None 0) in
  closeTrade DEFAULT_PORTFOLIO "T9" 110 st = st.
Proof.
  cbv zeta. apply close_unknown_id. reflexivity.
Defined.

(** X10: [closeTrade] keeps the number of trades, their order and their
    ids; a trade with another id is left exactly as it was; and every
    trade with the given id ends CLOSED at the given exit price, also one
    that was closed or cancelled before. *)
Theorem close_keeps_the_journal rendered id exitPrice st :
  let after := trades (closeTrade rendered id exitPrice st) in
  List.length after = List.length (trades st) /\
  map Trade.id after = map Trade.id (trades st) /\
  (forall n t, nth_error (trades st) n = Some t ->
     has_id id t = false -> nth_error after n = Some t) /\
  (forall n t, nth_error (trades st) n = Some t ->
     has_id id t = true ->
     exists t', nth_error after n = Some t' /\
       Trade.status t' = CLOSED /\ Trade.exitPrice t' = Some exitPrice /\
       Trade.pnl t' = Some (close_pnl exitPrice t)).
Proof.
  cbv zeta. rewrite closeTrade_trades. repeat apply conj.
  - apply length_map.
  - rewrite map_map. apply map_ext. intros a. apply close_one_id.
  - intros n t Hn Hid. rewrite nth_error_map, Hn. cbn.
    now rewrite close_one_other.
  - intros n t Hn Hid. rewrite nth_error_map, Hn. cbn.
    eexists. split; [reflexivity|]. now apply close_one_matching.
Qed.







End CloseTradePaths.

(** ** Deleting a trade, locking and unlocking *)

Module JournalFacts.
Import RiskEngine TradingContext CloseTradeFacts ValidatorRules.
Local Open Scope float_scope.

(** X12: [deleteTrade] removes exactly the trades that carry the id: a
    trade is in the journal afterwards if and only if it was there before
    under another id; no trade is found under the id afterwards; the
    trades that stay keep their order; and an id that no trade carries
    leaves the state as it is. *)
Theorem delete_trade_removes_the_id id st :
  let st' := deleteTrade id st in
  (forall t, In t (trades st') <-> In t (trades st) /\ has_id id t = false) /\
  find (has_id id) (trades st') = None /\
  trades st' = filter (fun t => negb (has_id id t)) (trades st) /\
  portfolio st' = portfolio st /\ session st' = session st /\
  (find (has_id id) (trades st) = None -> st' = st).
Proof.
  cbv zeta. unfold deleteTrade. cbn [trades portfolio session].
  change (fun t => negb (String.eqb (Trade.id t) id)) with (fun t => negb (has_id id t)).
  repeat apply conj; try reflexivity.
  - intros t. rewrite filter_In, negb_true_iff. reflexivity.
  - destruct (find (has_id id) (filter _ (trades st))) as [t|] eqn:E; [|reflexivity].
    apply find_some in E. destruct E as [Hin Hid].
    apply filter_In in Hin. destruct Hin as [_ Hn]. rewrite Hid in Hn. discriminate.
  - intros Hnone.
    assert (Hf : filter (fun t => negb (has_id id t)) (trades st) = trades st).
    { apply forallb_filter_id. apply forallb_forall. intros a Ha.
      now rewrite (find_none _ _ Hnone a Ha). }
    rewrite Hf. now destruct st.
Qed.

(** X13: the lock button of the Risk Manager: on an unlocked portfolio it
    locks trading with the reason 'Manual lock', after which
    [validateTrade] rejects every trade; on a locked portfolio it unlocks,
    clears the reason and resets the consecutive-loss counter; pressing it
    twice on an unlocked portfolio that carries no reason gives the
    portfolio back; the trades and the risk limits are never touched. *)
Theorem lock_button st :
  let st' := RiskManager.toggleLock st in
  PortfolioState.isTradingLocked (portfolio st') =
    negb (PortfolioState.isTradingLocked (portfolio st)) /\
  trades st' = trades st /\ riskLimits st' = riskLimits st /\
  (PortfolioState.isTradingLocked (portfolio st) = false ->
     PortfolioState.lockReason (portfolio st') = Some "Manual lock"%string /\
     session st' = session st /\
     (forall riskReward riskPercent,
        ValidationResult.isValid
          (validateTrade riskReward riskPercent (riskLimits st') (portfolio st')) = false) /\
     (PortfolioState.lockReason (portfolio st) = None ->
        portfolio (RiskManager.toggleLock st') = portfolio st)) /\
  (PortfolioState.isTradingLocked (portfolio st) = true ->
     PortfolioState.lockReason (portfolio st') = None /\
     SessionState.consecutiveLosses (session st') = 0%nat).
Proof.
  cbv zeta.
  assert (Hst' :
    RiskManager.toggleLock st =
    if PortfolioState.isTradingLocked (portfolio st)
    then unlockTrading st else lockTradingState "Manual lock" st) by reflexivity.
  rewrite Hst'. clear Hst'.
  destruct (PortfolioState.isTradingLocked (portfolio st)) eqn:E.
  - split; [reflexivity|]. split; [reflexivity|]. split; [reflexivity|].
    split; [discriminate|]. intros _. split; reflexivity.
  - split; [reflexivity|]. split; [reflexivity|]. split; [reflexivity|].
    split; [|discriminate]. intros _.
    split; [reflexivity|]. split; [reflexivity|]. split.
    + intros rr rp.
      apply locked_not_valid. reflexivity.
    + intros Hr. destruct st as [p tr rl se]. destruct p.
      cbn in E, Hr. subst. reflexivity.
Qed.

End JournalFacts.

(** ** Drawdown at the peak, and the handlers that reset it *)

Module PeakFacts.
Import FloatFacts NumberFacts ZeroFacts RiskEngine TradingContext.
Local Open Scope float_scope.

(** At the peak there is no drawdown: for a finite equity [x],
    [calculateDrawdown x x] is [+0], through the guard when [x <= 0] and
    through the division otherwise. *)
Lemma calculateDrawdown_at_peak x : is_finite x = true -> calculateDrawdown x x = 0.
Proof.
  intros H. unfold calculateDrawdown.
  destruct (x <=? 0) eqn:E; [reflexivity|].
  rewrite (sub_diag x H). apply Prim2SF_inj. rewrite mul_spec, div_spec.
  rewrite FloatAxioms.leb_spec in E.
  destruct (finite_cases x H) as [[s Hs]|(s & m & e & Hs)]; rewrite Hs in *.
  - discriminate.
  - destruct s; [discriminate|reflexivity].
Qed.

Lemma ltb_irrefl x : (x <? x) = false.
Proof.
  destruct (is_nan x) eqn:E.
  - apply is_nan_iff in E. now rewrite FloatAxioms.ltb_spec, E.
  - assert (is_number x) by exact E. float_order.
Qed.

(** An update that leaves current equity and peak equal and finite. *)
Lemma update_at_peak updates prev :
  let merged := spread prev updates in
  PortfolioState.currentEquity merged = PortfolioState.peakEquity merged ->
  is_finite (PortfolioState.currentEquity merged) = true ->
  let next := updatePortfolio updates prev in
  PortfolioState.drawdown next = 0 /\
  PortfolioState.peakEquity next = PortfolioState.currentEquity merged /\
  PortfolioState.currentEquity next = PortfolioState.currentEquity merged /\
  PortfolioState.maxDrawdown next = Math_max (PortfolioState.maxDrawdown merged) 0.
Proof.
  cbv zeta. intros Heq Hfin. unfold updatePortfolio.
  cbn [PortfolioState.drawdown PortfolioState.peakEquity PortfolioState.currentEquity
       PortfolioState.maxDrawdown].
  rewrite <- Heq. unfold gt. rewrite ltb_irrefl.
  rewrite (calculateDrawdown_at_peak _ Hfin). repeat split.
Qed.

(** X14: when an update raises the peak to a new (finite) current
    equity, the next update that touches neither the current equity nor
    the peak stores a drawdown of exactly 0 against the raised peak. *)
Theorem drawdown_zero_after_new_peak updates next_updates prev :
  let merged := spread prev updates in
  gt (PortfolioState.currentEquity merged) (PortfolioState.peakEquity merged) = true ->
  is_finite (PortfolioState.currentEquity merged) = true ->
  PortfolioUpdates.currentEquity next_updates = None ->
  PortfolioUpdates.peakEquity next_updates = None ->
  let raised := updatePortfolio updates prev in
  let next := updatePortfolio next_updates raised in
  PortfolioState.peakEquity raised = PortfolioState.currentEquity raised /\
  PortfolioState.drawdown next = 0 /\
  PortfolioState.peakEquity next = PortfolioState.currentEquity next.
Proof.
  cbv zeta. intros Hgt Hfin Hc Hp.
  assert (Hraised :
    PortfolioState.peakEquity (updatePortfolio updates prev) =
    PortfolioState.currentEquity (updatePortfolio updates prev)).
  { unfold updatePortfolio.
    cbn [PortfolioState.peakEquity PortfolioState.currentEquity]. now rewrite Hgt. }
  assert (Hcur :
    PortfolioState.currentEquity (updatePortfolio updates prev) =
    PortfolioState.currentEquity (spread prev updates)) by reflexivity.
  split; [exact Hraised|].
  destruct (update_at_peak next_updates (updatePortfolio updates prev)) as (Hd & Hpk & Hce & _).
  - unfold spread. cbn [PortfolioState.currentEquity PortfolioState.peakEquity].
    rewrite Hc, Hp. cbn [or_else]. now rewrite Hraised.
  - unfold spread. cbn [PortfolioState.currentEquity]. rewrite Hc. cbn [or_else].
    now rewrite Hcur.
  - split; [exact Hd|]. now rewrite Hpk, Hce.
Qed.

(** The failing update of the default portfolio to an equity of 110000,
    followed by a reset of the daily pnl. *)
Lemma drawdown_zero_after_new_peak_witness :
  PortfolioState.drawdown
    (resetDailyPnL
       (updatePortfolio
          (PortfolioUpdates.mk None None None (Some 110000) None None None None
             None None None None)
          DEFAULT_PORTFOLIO)) = 0.
Proof.
  refine (proj1 (proj2 (drawdown_zero_after_new_peak
    (PortfolioUpdates.mk None None None (Some 110000) None None None None
       None None None None)
    (PortfolioUpdates.mk None None None None None (Some 0) None None None None
       None None)
    DEFAULT_PORTFOLIO eq_refl eq_refl eq_refl eq_refl))).
Defined.

(** X15: the drawdown reset of the settings screen, run on a portfolio
    whose current equity is finite and is the one the handler captured:
    the peak becomes the current equity, and the drawdown and the maximum
    drawdown are both exactly 0, whatever they were. *)
Theorem reset_drawdown rendered prev :
  PortfolioState.currentEquity rendered = PortfolioState.currentEquity prev ->
  is_finite (PortfolioState.currentEquity prev) = true ->
  let next := Settings.handleResetDrawdown rendered prev in
  PortfolioState.peakEquity next = PortfolioState.currentEquity prev /\
  PortfolioState.currentEquity next = PortfolioState.currentEquity prev /\
  PortfolioState.drawdown next = 0 /\
  PortfolioState.maxDrawdown next = 0.
Proof.
  cbv zeta. intros Heq Hfin. unfold Settings.handleResetDrawdown.
  match goal with
  | |- context [updatePortfolio ?u prev] =>
      destruct (update_at_peak u prev) as (Hd & Hpk & Hce & Hm)
  end.
  - unfold spread. cbn. now rewrite Heq.
  - exact Hfin.
  - rewrite Hd, Hpk, Hce, Hm. repeat split.
Qed.

(** A portfolio 20 per cent under its peak. *)
Lemma reset_drawdown_witness :
  let p := PortfolioState.mk 100000 1 100000 80000 100000 0 0 0 20 20 false None in
  PortfolioState.maxDrawdown (Settings.handleResetDrawdown p p) = 0.
Proof.
  cbv zeta.
  match goal with
  | |- context [Settings.handleResetDrawdown ?p ?p] =>
      exact (proj2 (proj2 (proj2 (reset_drawdown p p eq_refl eq_refl))))
  end.
Defined.

(** X16: the capital form: a new capital that is NaN, zero or negative
    changes nothing; a finite positive one becomes capital, current equity
    and peak at once, with a drawdown of exactly 0 and an effective
    capital of the new capital times the leverage, while the pnl
    accumulators and the lock are kept. *)
Theorem capital_update newCapital prev :
  let next := CapitalLeverage.handleCapitalUpdate newCapital prev in
  (is_nan newCapital = true \/ gt newCapital 0 = false -> next = prev) /\
  (gt newCapital 0 = true -> is_finite newCapital = true ->
     PortfolioState.capital next = newCapital /\
     PortfolioState.currentEquity next = newCapital /\
     PortfolioState.peakEquity next = newCapital /\
     PortfolioState.drawdown next = 0 /\
     PortfolioState.effectiveCapital next = newCapital * PortfolioState.leverage prev /\
     PortfolioState.dailyPnL next = PortfolioState.dailyPnL prev /\
     PortfolioState.weeklyPnL next = PortfolioState.weeklyPnL prev /\
     PortfolioState.monthlyPnL next = PortfolioState.monthlyPnL prev /\
     PortfolioState.isTradingLocked next = PortfolioState.isTradingLocked prev).
Proof.
  cbv zeta. unfold CapitalLeverage.handleCapitalUpdate. split.
  - intros [H|H]; rewrite H; [reflexivity|now rewrite andb_false_r].
  - intros Hgt Hfin. rewrite Hgt.
    assert (Hn : is_nan newCapital = false).
    { unfold is_finite in Hfin. rewrite negb_true_iff, orb_false_iff in Hfin. tauto. }
    rewrite Hn. cbn [negb andb].
    match goal with
    | |- context [updatePortfolio ?u prev] =>
        destruct (update_at_peak u prev eq_refl Hfin) as (Hd & Hpk & Hce & _)
    end.
    rewrite Hd, Hpk, Hce. repeat split.
Qed.

(** A capital of 250000 on the default portfolio. *)
Lemma capital_update_witness :
  PortfolioState.drawdown (CapitalLeverage.handleCapitalUpdate 250000 DEFAULT_PORTFOLIO) = 0.
Proof.
  exact (proj1 (proj2 (proj2 (proj2
    (proj2 (capital_update 250000 DEFAULT_PORTFOLIO) eq_refl eq_refl))))).
Defined.

(** X17: the custom leverage form stores a leverage only when it is
    above 0 and at most 100 (NaN is refused); otherwise the portfolio is
    returned as it is.  A stored leverage is followed by the effective
    capital, capital times leverage, and a leverage the form accepts
    gives the portfolio that the preset button of that leverage gives. *)
Theorem custom_leverage leverage prev :
  let next := CapitalLeverage.handleCustomLeverage leverage prev in
  (next = prev \/
   ((0 <? leverage) = true /\ (leverage <=? 100) = true /\
    PortfolioState.leverage next = leverage /\
    PortfolioState.effectiveCapital next = PortfolioState.capital prev * leverage /\
    PortfolioState.capital next = PortfolioState.capital prev)) /\
  ((0 <? leverage) = true -> (leverage <=? 100) = true ->
   next = CapitalLeverage.handleLeverageChange leverage prev /\
   PortfolioState.leverage next = leverage).
Proof.
  cbv zeta.
  unfold CapitalLeverage.handleCustomLeverage, CapitalLeverage.handleLeverageChange, gt.
  destruct (is_nan leverage) eqn:En.
  - split; [now left|]. intros H. destruct (ltb_true_number _ _ H) as [_ Hn].
    unfold is_number in Hn. congruence.
  - cbn [negb andb]. destruct (0 <? leverage); cbn [andb].
    + destruct (leverage <=? 100).
      * split; [right; repeat split|split; reflexivity].
      * split; [now left|discriminate].
    + split; [now left|discriminate].
Qed.

End PeakFacts.

(** ** The performance analyzer: counts, streak maxima, Kelly *)

Module MetricsFacts.
Import FloatFacts NumberFacts RiskEngine TradingContext StreakFacts.
Local Open Scope float_scope.

Lemma filter_idem {A} (f : A -> bool) l : filter f (filter f l) = filter f l.
Proof.
  induction l as [|a l IH]; [reflexivity|].
  cbn [filter]. destruct (f a) eqn:E; [|exact IH].
  cbn [filter]. now rewrite E, IH.
Qed.

(** X18: the analyzer reads the closed trades only: the metrics of a
    journal are the metrics of its closed trades, so that adding a trade
    that is not closed -- as [addTrade] does with an OPEN trade -- or
    deleting one leaves every metric as it was. *)
Theorem metrics_read_closed_trades_only trades :
  calculatePerformanceMetrics trades =
    calculatePerformanceMetrics (filter is_closed trades) /\
  (forall newId trade st,
     TradingContext.trades st = trades -> Trade.status trade = OPEN ->
     calculatePerformanceMetrics (TradingContext.trades (addTrade newId trade st)) =
     calculatePerformanceMetrics trades) /\
  (forall id st,
     TradingContext.trades st = trades ->
     (forall t, In t trades -> has_id id t = true -> is_closed t = false) ->
     calculatePerformanceMetrics (TradingContext.trades (deleteTrade id st)) =
     calculatePerformanceMetrics trades).
Proof.
  assert (Hfilter : forall l l',
    filter is_closed l = filter is_closed l' ->
    calculatePerformanceMetrics l = calculatePerformanceMetrics l').
  { intros l l' H. unfold calculatePerformanceMetrics. now rewrite H. }
  repeat apply conj.
  - apply Hfilter. now rewrite filter_idem.
  - intros newId trade st <- Hopen. apply Hfilter.
    unfold addTrade. cbn [TradingContext.trades].
    rewrite filter_app. cbn [filter]. unfold is_closed at 2. cbn [Trade.status].
    rewrite Hopen. now rewrite app_nil_r.
  - intros id st <- Hall. apply Hfilter.
    unfold deleteTrade. cbn [TradingContext.trades].
    change (fun t => negb (String.eqb (Trade.id t) id)) with (fun t => negb (has_id id t)).
    induction (TradingContext.trades st) as [|a l IH]; [reflexivity|].
    cbn [filter]. destruct (has_id id a) eqn:E; cbn [negb filter].
    + rewrite (Hall a (or_introl eq_refl) E).
      apply IH. intros t Ht. apply Hall. now right.
    + destruct (is_closed a); [f_equal|];
        apply IH; intros t Ht; apply Hall; now right.
Qed.

Lemma filter_three {A} (f g : A -> bool) l :
  (forall a, f a = true -> g a = false) ->
  (List.length (filter f l) + List.length (filter g l)
   + List.length (filter (fun a => negb (f a) && negb (g a)) l) = List.length l)%nat.
Proof.
  intros Hfg. induction l as [|a l IH]; [reflexivity|].
  cbn [filter]. destruct (f a) eqn:Ef.
  - rewrite (Hfg a Ef). cbn [negb andb List.length]. lia.
  - destruct (g a); cbn [negb andb List.length]; lia.
Qed.

(** X19: every closed trade is a winner (pnl above 0), a loser (pnl below
    0) or neither (a pnl of zero, or NaN), and never two of these: the
    total is the winners plus the losers plus the flat trades, so the
    winners and the losers together never exceed the total, which never
    exceeds the size of the journal. *)
Theorem metrics_counts trades :
  let m := calculatePerformanceMetrics trades in
  let closed := filter is_closed trades in
  let flat t := negb (gt (pnl_or_0 t) 0) && negb (pnl_or_0 t <? 0) in
  PerformanceMetrics.totalTrades m = List.length closed /\
  PerformanceMetrics.winningTrades m =
    List.length (filter (fun t => gt (pnl_or_0 t) 0) closed) /\
  PerformanceMetrics.losingTrades m =
    List.length (filter (fun t => pnl_or_0 t <? 0) closed) /\
  (PerformanceMetrics.winningTrades m + PerformanceMetrics.losingTrades m
   + List.length (filter flat closed) = PerformanceMetrics.totalTrades m)%nat /\
  (PerformanceMetrics.winningTrades m + PerformanceMetrics.losingTrades m
   <= PerformanceMetrics.totalTrades m)%nat /\
  (PerformanceMetrics.totalTrades m <= List.length trades)%nat.
Proof.
  cbv zeta.
  assert (H3 := filter_three (fun t => gt (pnl_or_0 t) 0) (fun t => pnl_or_0 t <? 0)
                  (filter is_closed trades)
                  (fun a H => ltb_asym _ _ H)).
  pose proof (filter_length_le is_closed trades) as Hle.
  unfold calculatePerformanceMetrics.
  destruct (filter is_closed trades) as [|c cs] eqn:E.
  - cbn. repeat split; lia.
  - rewrite <- E in *. 
    replace (Nat.eqb (List.length (filter is_closed trades)) 0) with false
      by (rewrite E; reflexivity).
    cbn [PerformanceMetrics.totalTrades PerformanceMetrics.winningTrades
         PerformanceMetrics.losingTrades].
    repeat split; lia.
Qed.

(** The loop keeps the maxima: with the running counter not above the
    maximum, the maximum after the loop is the largest of the maximum
    before, the run that continues the running counter, and the longest
    run inside the list. *)
Lemma leading_le_longest {A} (p : A -> bool) l : (leading_run p l <= longest_run p l)%nat.
Proof. destruct l; [cbn; lia|cbn [longest_run]; lia]. Qed.

Lemma streak_loop_max l :
  forall s,
    (currentWinStreak s <= maxWinStreak s)%nat ->
    (currentLossStreak s <= maxLossStreak s)%nat ->
    let s' := fold_left streak_step l s in
    maxWinStreak s' =
      Nat.max (maxWinStreak s)
        (Nat.max (currentWinStreak s + leading_run win_step l) (longest_run win_step l)) /\
    maxLossStreak s' =
      Nat.max (maxLossStreak s)
        (Nat.max (currentLossStreak s + leading_run loss_step l) (longest_run loss_step l)).
Proof.
  induction l as [|x l IH]; intros s Hw Hl; cbv zeta.
  - cbn. split; lia.
  - cbn [fold_left].
    pose proof (leading_le_longest win_step l) as Lw.
    pose proof (leading_le_longest loss_step l) as Ll.
    cbn [leading_run longest_run].
    unfold loss_step at 1 3. unfold streak_step at 2 4.
    change (gt (pnl_or_0 x) 0) with (win_step x).
    destruct (win_step x) eqn:E; cbn [negb].
    + destruct (IH (mkStreaks (Nat.max (maxWinStreak s) (S (currentWinStreak s)))
                      (maxLossStreak s) (S (currentWinStreak s)) 0)) as [-> ->];
        cbn [currentWinStreak maxWinStreak currentLossStreak maxLossStreak];
        try (split; lia); lia.
    + destruct (IH (mkStreaks (maxWinStreak s)
                      (Nat.max (maxLossStreak s) (S (currentLossStreak s)))
                      0 (S (currentLossStreak s)))) as [-> ->];
        cbn [currentWinStreak maxWinStreak currentLossStreak maxLossStreak];
        try (split; lia); lia.
Qed.

Lemma longest_run_le_length {A} (p : A -> bool) l : (longest_run p l <= List.length l)%nat.
Proof.
  assert (Hlead : forall l', (leading_run p l' <= List.length l')%nat).
  { induction l' as [|a l' IH]; cbn; [lia|]. destruct (p a); lia. }
  induction l as [|a l IH]; [cbn; lia|].
  cbn [longest_run List.length]. specialize (Hlead (a :: l)). cbn [List.length] in Hlead. lia.
Qed.

Lemma longest_run_app_r {A} (p : A -> bool) l l' :
  (longest_run p l' <= longest_run p (l ++ l'))%nat.
Proof.
  induction l as [|a l IH]; [cbn; lia|].
  cbn [app longest_run]. lia.
Qed.

Lemma leading_run_all {A} (p : A -> bool) seg b :
  forallb p seg = true -> (List.length seg <= leading_run p (seg ++ b))%nat.
Proof.
  induction seg as [|x seg IH]; cbn; [lia|].
  destruct (p x); [|discriminate]. intros H. specialize (IH H). lia.
Qed.

(** Every run inside a list is at most the longest run ... *)
Lemma segment_le_longest {A} (p : A -> bool) a seg b :
  forallb p seg = true -> (List.length seg <= longest_run p (a ++ seg ++ b))%nat.
Proof.
  intros H. pose proof (longest_run_app_r p a (seg ++ b)).
  pose proof (leading_le_longest p (seg ++ b)).
  pose proof (leading_run_all p seg b H). lia.
Qed.

Lemma leading_prefix {A} (p : A -> bool) l :
  exists seg b, l = seg ++ b /\ forallb p seg = true /\ List.length seg = leading_run p l.
Proof.
  induction l as [|x l (seg & b & Hl & Hall & Hlen)].
  - exists [], []. repeat split.
  - cbn [leading_run]. destruct (p x) eqn:E.
    + exists (x :: seg), b. cbn. rewrite E, Hall, Hlen, <- Hl. repeat split.
    + exists [], (x :: l). repeat split.
Qed.

(** ... and the longest run is the length of one of them. *)
Lemma longest_attained {A} (p : A -> bool) l :
  exists a seg b,
    l = a ++ seg ++ b /\ forallb p seg = true /\ List.length seg = longest_run p l.
Proof.
  induction l as [|x l (a & seg & b & Hl & Hall & Hlen)].
  - exists [], [], []. repeat split.
  - cbn [longest_run].
    destruct (Nat.max_spec (leading_run p (x :: l)) (longest_run p l)) as [[_ ->]|[_ ->]].
    + exists (x :: a), seg, b. cbn. rewrite <- Hl. repeat split; assumption.
    + destruct (leading_prefix p (x :: l)) as (seg' & b' & Hl' & Hall' & Hlen').
      exists [], seg', b'. repeat split; assumption.
Qed.

Lemma trailing_segment {A} (p : A -> bool) l :
  exists a seg, l = a ++ seg /\ forallb p seg = true /\ List.length seg = trailing_run p l.
Proof.
  induction l as [|x l (a & seg & Hl & Hall & Hlen)] using rev_ind.
  - exists [], []. repeat split.
  - rewrite trailing_run_snoc. destruct (p x) eqn:E.
    + exists a, (seg ++ [x]). rewrite Hl at 1. rewrite <- app_assoc.
      split; [reflexivity|]. rewrite forallb_app, Hall. cbn. rewrite E.
      split; [reflexivity|]. rewrite length_app. cbn. lia.
    + exists (l ++ [x]), []. rewrite app_nil_r. repeat split.
Qed.

Lemma trailing_le_longest {A} (p : A -> bool) l : (trailing_run p l <= longest_run p l)%nat.
Proof.
  destruct (trailing_segment p l) as (a & seg & Hl & Hall & <-).
  replace (longest_run p l) with (longest_run p (a ++ seg ++ []))
    by (now rewrite app_nil_r, <- Hl).
  now apply segment_le_longest.
Qed.

(** X20: the streak maxima are the lengths of the longest run of wins
    (pnl above 0) and of the longest run of loss steps (any other pnl)
    among the closed trades, in journal order: no run of consecutive wins
    is longer than [maxWinStreak] and one run has exactly that length, and
    so for the loss steps; the current streak never exceeds the maximum of
    its kind, and no maximum exceeds the number of closed trades. *)
Theorem streak_maxima trades :
  let m := calculatePerformanceMetrics trades in
  let closed := filter is_closed trades in
  let is_max (p : Trade.t -> bool) (n : nat) :=
    (forall a seg b, closed = a ++ seg ++ b -> forallb p seg = true ->
       (List.length seg <= n)%nat) /\
    (exists a seg b, closed = a ++ seg ++ b /\ forallb p seg = true /\
       List.length seg = n) in
  is_max win_step (PerformanceMetrics.maxWinStreak m) /\
  is_max loss_step (PerformanceMetrics.maxLossStreak m) /\
  (PerformanceMetrics.streakType m = WIN ->
     (PerformanceMetrics.currentStreak m <= PerformanceMetrics.maxWinStreak m)%nat) /\
  (PerformanceMetrics.streakType m = LOSS ->
     (PerformanceMetrics.currentStreak m <= PerformanceMetrics.maxLossStreak m)%nat) /\
  (PerformanceMetrics.maxWinStreak m <= PerformanceMetrics.totalTrades m)%nat /\
  (PerformanceMetrics.maxLossStreak m <= PerformanceMetrics.totalTrades m)%nat.
Proof.
  cbv zeta.
  assert (Hmax :
    PerformanceMetrics.maxWinStreak (calculatePerformanceMetrics trades) =
      longest_run win_step (filter is_closed trades) /\
    PerformanceMetrics.maxLossStreak (calculatePerformanceMetrics trades) =
      longest_run loss_step (filter is_closed trades) /\
    PerformanceMetrics.totalTrades (calculatePerformanceMetrics trades) =
      List.length (filter is_closed trades)).
  { destruct (streak_loop_max (filter is_closed trades) (mkStreaks 0 0 0 0)) as [Hw Hl];
      cbn [currentWinStreak maxWinStreak currentLossStreak maxLossStreak]; try lia.
    cbn [currentWinStreak maxWinStreak currentLossStreak maxLossStreak Nat.add] in Hw, Hl.
    pose proof (leading_le_longest win_step (filter is_closed trades)) as Lw.
    pose proof (leading_le_longest loss_step (filter is_closed trades)) as Ll.
    unfold calculatePerformanceMetrics.
    destruct (Nat.eqb (List.length (filter is_closed trades)) 0) eqn:E.
    - apply Nat.eqb_eq in E. apply length_zero_iff_nil in E. rewrite E.
      repeat split.
    - cbn [PerformanceMetrics.maxWinStreak PerformanceMetrics.maxLossStreak
           PerformanceMetrics.totalTrades].
      rewrite Hw, Hl. repeat split; lia. }
  destruct Hmax as (Hw & Hl & Ht).
  assert (Hcur :
    (PerformanceMetrics.streakType (calculatePerformanceMetrics trades) = WIN ->
     PerformanceMetrics.currentStreak (calculatePerformanceMetrics trades) =
       trailing_run win_step (filter is_closed trades)) /\
    (PerformanceMetrics.streakType (calculatePerformanceMetrics trades) = LOSS ->
     PerformanceMetrics.currentStreak (calculatePerformanceMetrics trades) =
       trailing_run loss_step (filter is_closed trades))).
  { destruct (streak_loop_current (filter is_closed trades)) as [Cw Cl].
    cbv zeta in Cw, Cl. unfold calculatePerformanceMetrics.
    destruct (Nat.eqb (List.length (filter is_closed trades)) 0).
    - split; discriminate.
    - cbn [PerformanceMetrics.currentStreak PerformanceMetrics.streakType].
      rewrite Cw, Cl. split; intros ->; reflexivity. }
  destruct Hcur as [Hcw Hcl].
  rewrite Hw, Hl, Ht.
  pose proof (longest_run_le_length win_step (filter is_closed trades)) as Bw.
  pose proof (longest_run_le_length loss_step (filter is_closed trades)) as Bl.
  pose proof (trailing_le_longest win_step (filter is_closed trades)) as Tw.
  pose proof (trailing_le_longest loss_step (filter is_closed trades)) as Tl.
  repeat apply conj; try assumption.
  - intros a seg b -> Hall. now apply segment_le_longest.
  - apply longest_attained.
  - intros a seg b -> Hall. now apply segment_le_longest.
  - apply longest_attained.
  - intros H. rewrite (Hcw H). exact Tw.
  - intros H. rewrite (Hcl H). exact Tl.
Qed.

(** X21: when no closed trade has a pnl below 0 -- no closed trade at
    all, for one -- there are no losing trades, the average loss is 0, the
    profit factor is +Infinity or 0, and the Kelly percentage the Kelly
    screen computes from these metrics is 0. *)
Theorem no_losers_no_kelly trades :
  (forall t, In t trades -> is_closed t = true -> (pnl_or_0 t <? 0) = false) ->
  let m := calculatePerformanceMetrics trades in
  PerformanceMetrics.losingTrades m = 0%nat /\
  PerformanceMetrics.avgLoss m = 0 /\
  (PerformanceMetrics.profitFactor m = infinity \/ PerformanceMetrics.profitFactor m = 0) /\
  KellyCriterion.kellyPercent m = 0.
Proof.
  intros Hno. cbv zeta.
  assert (Hnil : filter (fun t => pnl_or_0 t <? 0) (filter is_closed trades) = []).
  { induction trades as [|a l IH]; [reflexivity|].
    cbn [filter]. destruct (is_closed a) eqn:Ea.
    - cbn [filter]. rewrite (Hno a (or_introl eq_refl) Ea).
      apply IH. intros t Ht. apply Hno. now right.
    - apply IH. intros t Ht. apply Hno. now right. }
  unfold KellyCriterion.kellyPercent, calculatePerformanceMetrics.
  destruct (Nat.eqb (List.length (filter is_closed trades)) 0).
  - cbn. repeat split. now right.
  - rewrite Hnil.
    cbn [PerformanceMetrics.losingTrades PerformanceMetrics.avgLoss
         PerformanceMetrics.profitFactor PerformanceMetrics.winRate
         PerformanceMetrics.avgWin List.length Nat.ltb Nat.leb sum_pnl fold_left].
    change (gt (Math_abs 0) 0) with false. cbn iota.
    repeat apply conj; try reflexivity.
    destruct (gt _ 0); [now left|now right].
Qed.

(** Two winners and an open trade. *)
Lemma no_losers_no_kelly_witness :
  let w1 :=
    Trade.mk "T1" "2024-01-02" "NIFTY" LONG 100 95 110 10 (Some 110) (Some 100) 2
      CLOSED None in
  let w2 :=
    Trade.mk "T2" "2024-01-03" "NIFTY" LONG 100 95 110 10 (Some 105) (Some 50) 2
      CLOSED None in
  let o :=
    Trade.mk "T3" "2024-01-04" "NIFTY" LONG 100 95 110 10 None None 2 OPEN None in
  KellyCriterion.kellyPercent (calculatePerformanceMetrics [w1; o; w2]) = 0.
Proof.
  cbv zeta.
  match goal with
  | |- context [calculatePerformanceMetrics ?l] =>
      refine (proj2 (proj2 (proj2 (no_losers_no_kelly l _))))
  end.
  intros t [<-|[<-|[<-|[]]]]; intros; reflexivity.
Defined.

End MetricsFacts.

(** ** Compounding at a zero rate, margins, drawdown levels, resets *)

Module EdgeFacts.
Import FloatFacts NumberFacts ZeroFacts RiskEngine TradingContext CompoundingFacts
       ValidatorRules.
Local Open Scope float_scope.

(** One month at a rate of 0: a profit that is a zero, and a capital and
    a cumulative profit that do not move. *)
Lemma zero_rate_month capital :
  is_finite capital = true ->
  let profit := capital * (0 / 100) in
  (profit =? 0) = true /\ capital + profit = capital /\ 0 + profit = 0.
Proof.
  intros H. cbv zeta. change (0 / 100) with 0.
  assert (Hp : Prim2SF (capital * 0) = SF64mul (Prim2SF capital) (S754_zero false))
    by apply mul_spec.
  repeat split.
  - rewrite FloatAxioms.eqb_spec, Hp.
    destruct (finite_cases capital H) as [[s ->]|(s & m & e & ->)]; reflexivity.
  - apply Prim2SF_inj. rewrite add_spec, Hp.
    destruct (finite_cases capital H) as [[s ->]|(s & m & e & ->)];
      [now destruct s|reflexivity].
  - apply Prim2SF_inj. rewrite add_spec, Hp.
    destruct (finite_cases capital H) as [[s ->]|(s & m & e & ->)];
      now destruct s.
Qed.

(** X22: at a monthly return of 0 the projection of a finite starting
    capital is flat: every month shows the starting capital, a profit
    that is a zero and a cumulative profit of 0. *)
Theorem compounding_at_zero_rate startCapital months :
  is_finite startCapital = true ->
  Forall (fun p =>
            CompoundingProjection.capital p = startCapital /\
            (CompoundingProjection.profit p =? 0) = true /\
            CompoundingProjection.cumulativeProfit p = 0)
         (calculateCompounding startCapital 0 months).
Proof.
  intros H. unfold calculateCompounding. generalize 1%nat.
  induction months as [|k IH]; intros month; [constructor|].
  rewrite compounding_loop_step. cbv zeta.
  destruct (zero_rate_month startCapital H) as (Hp & Hc & Hcum). cbv zeta in Hp, Hc, Hcum.
  rewrite Hc, Hcum. constructor; [|apply IH].
  cbn. repeat split. exact Hp.
Qed.

(** A capital of 100000 over two years. *)
Lemma compounding_at_zero_rate_witness :
  Forall (fun p =>
            CompoundingProjection.capital p = 100000 /\
            (CompoundingProjection.profit p =? 0) = true /\
            CompoundingProjection.cumulativeProfit p = 0)
         (calculateCompounding 100000 0 24).
Proof.
  apply (compounding_at_zero_rate 100000 24). reflexivity.
Defined.

(** X24: the drawdown screen names the level of the portfolio's drawdown
    with the boundaries the drawdown policy uses for the adjusted risk it
    shows beside it: Safe goes with the full risk per trade, Caution with
    three quarters, Warning with half, Critical with a quarter and STOP
    with a risk of 0.  A drawdown that is NaN shows STOP with a risk of
    0, and a negative drawdown shows Safe with the full base risk. *)
Theorem drawdown_level_matches_policy riskLimits portfolio :
  let baseRisk := RiskLimits.riskPerTrade riskLimits in
  let dd := PortfolioState.drawdown portfolio in
  let lvl := DrawdownControl.level (DrawdownControl.getDrawdownLevel dd) in
  let r := DrawdownControl.adjustedRisk riskLimits portfolio in
  ((lvl = "Safe"%string /\ r = baseRisk) \/
   (lvl = "Caution"%string /\ r = baseRisk * 0.75) \/
   (lvl = "Warning"%string /\ r = baseRisk * 0.5) \/
   (lvl = "Critical"%string /\ r = baseRisk * 0.25) \/
   (lvl = "STOP"%string /\ r = 0)) /\
  (is_nan dd = true -> lvl = "STOP"%string /\ r = 0) /\
  ((dd <? 0) = true -> lvl = "Safe"%string /\ r = baseRisk).
Proof.
  cbv zeta.
  unfold DrawdownControl.adjustedRisk, DrawdownControl.getDrawdownLevel,
    getAdjustedRiskForDrawdown.
  generalize (RiskLimits.riskPerTrade riskLimits) (PortfolioState.drawdown portfolio).
  intros baseRisk dd. repeat apply conj.
  - destruct (dd <? 5); [now left|].
    destruct (dd <? 10); [right; now left|].
    destruct (dd <? 15); [right; right; now left|].
    destruct (dd <? 20); [right; right; right; now left|].
    right; right; right; now right.
  - intros Hn. apply is_nan_iff in Hn.
    rewrite !FloatAxioms.ltb_spec, Hn. split; reflexivity.
  - intros Hneg.
    replace (dd <? 5) with true by (symmetry; float_order). split; reflexivity.
Qed.

Lemma no_breach_at_zero capital limit : loss_limit_breached 0 capital limit = false.
Proof. reflexivity. Qed.

(** X25: after the daily pnl reset no daily-loss error can be raised,
    whatever the limits and the trade, while the weekly and the monthly
    loss limits are judged on the same figures as before and the lock is
    kept; likewise for the weekly and the monthly reset of the settings
    screen. *)
Theorem pnl_resets_clear_their_limit prev riskReward riskPercent limits :
  let errors p := ValidationResult.errors (validateTrade riskReward riskPercent limits p) in
  let daily := resetDailyPnL prev in
  let weekly := Settings.handleResetWeeklyPnL prev in
  let monthly := Settings.handleResetMonthlyPnL prev in
  (forall x, ~ In (DailyLossLimitBreached x) (errors daily)) /\
  (forall x, ~ In (WeeklyLossLimitBreached x) (errors weekly)) /\
  (forall x, ~ In (MonthlyLossLimitBreached x) (errors monthly)) /\
  (PortfolioState.weeklyPnL daily = PortfolioState.weeklyPnL prev /\
   PortfolioState.monthlyPnL daily = PortfolioState.monthlyPnL prev /\
   PortfolioState.capital daily = PortfolioState.capital prev /\
   PortfolioState.isTradingLocked daily = PortfolioState.isTradingLocked prev) /\
  (PortfolioState.dailyPnL weekly = PortfolioState.dailyPnL prev /\
   PortfolioState.monthlyPnL weekly = PortfolioState.monthlyPnL prev /\
   PortfolioState.isTradingLocked weekly = PortfolioState.isTradingLocked prev) /\
  (PortfolioState.dailyPnL monthly = PortfolioState.dailyPnL prev /\
   PortfolioState.weeklyPnL monthly = PortfolioState.weeklyPnL prev /\
   PortfolioState.isTradingLocked monthly = PortfolioState.isTradingLocked prev).
Proof.
  cbv zeta.
  repeat apply conj; try reflexivity.
  - intros x. rewrite validate_errors. unfold blocking_errors.
    change (PortfolioState.dailyPnL (resetDailyPnL prev)) with 0.
    rewrite no_breach_at_zero, !in_app_iff.
    repeat match goal with |- context [if ?c then _ else _] => destruct c end;
      cbn; intuition discriminate.
  - intros x. rewrite validate_errors. unfold blocking_errors.
    change (PortfolioState.weeklyPnL (Settings.handleResetWeeklyPnL prev)) with 0.
    rewrite no_breach_at_zero, !in_app_iff.
    repeat match goal with |- context [if ?c then _ else _] => destruct c end;
      cbn; intuition discriminate.
  - intros x. rewrite validate_errors. unfold blocking_errors.
    change (PortfolioState.monthlyPnL (Settings.handleResetMonthlyPnL prev)) with 0.
    rewrite no_breach_at_zero, !in_app_iff.
    repeat match goal with |- context [if ?c then _ else _] => destruct c end;
      cbn; intuition discriminate.
Qed.

End EdgeFacts.

(** ** The sign of a drawdown *)

Module SignFacts.
Import FloatFacts NumberFacts RoundingFacts ZeroFacts RiskEngine TradingContext.
Local Open Scope float_scope.

(** [digits2_pos] is the binary size of the standard library. *)
Lemma digits2_pos_size m : digits2_pos m = Pos.size m.
Proof. induction m; cbn; congruence. Qed.

Lemma iter_xO_double (m d : positive) : (Z.pos m~0 <= Z.pos (Pos.iter xO m d))%Z.
Proof.
  induction d using Pos.peano_ind.
  - cbn. lia.
  - rewrite Pos.iter_succ. lia.
Qed.

(** A canonical mantissa has at most 53 bits, and exactly 53 above the
    least exponent. *)
Lemma canonical_bits m e :
  canonical_mantissa prec emax m e = true ->
  (Z.pos (Pos.size m) <= 53 /\ -1074 <= e /\
   (-1074 < e -> Z.pos (Pos.size m) = 53))%Z.
Proof.
  unfold canonical_mantissa, fexp, SpecFloat.emin, prec, emax.
  rewrite digits2_pos_size. intros H. apply Z.eqb_eq in H. lia.
Qed.

Lemma size_53_lower m : Z.pos (Pos.size m) = 53%Z -> (2 ^ 52 <= Z.pos m)%Z.
Proof.
  intros H. pose proof (Pos.size_le m) as Hle.
  assert (Hs : Pos.size m = 53%positive) by lia. rewrite Hs in Hle.
  assert (G : (Z.pos (2 ^ 53) <= Z.pos m~0)%Z) by exact Hle.
  change (Z.pos (2 ^ 53)) with (2 ^ 53)%Z in G. lia.
Qed.

Lemma size_53_upper m : (Z.pos (Pos.size m) <= 53)%Z -> (Z.pos m < 2 ^ 53)%Z.
Proof.
  intros H. pose proof (Pos.size_gt m) as Hgt.
  assert (G : (Z.pos m < Z.pos (2 ^ Pos.size m))%Z) by exact Hgt.
  rewrite Pos2Z.inj_pow in G.
  assert ((2 ^ Z.pos (Pos.size m) <= 2 ^ 53)%Z)
    by (apply Z.pow_le_mono_r; lia).
  lia.
Qed.

(** Aligned to the smaller exponent, the mantissa of the canonical
    number with the larger exponent is the larger one. *)
Lemma align_larger_exponent m1 e1 m2 e2 :
  canonical_mantissa prec emax m1 e1 = true ->
  canonical_mantissa prec emax m2 e2 = true ->
  (e2 < e1)%Z ->
  (Z.pos (fst (shl_align m2 e2 (Z.min e1 e2))) <
   Z.pos (fst (shl_align m1 e1 (Z.min e1 e2))))%Z.
Proof.
  intros H1 H2 Hlt.
  destruct (canonical_bits _ _ H1) as (_ & _ & Hfull).
  destruct (canonical_bits _ _ H2) as (Hsz & Hmin & _).
  pose proof (size_53_lower m1 (Hfull ltac:(lia))) as Hlo.
  pose proof (size_53_upper m2 Hsz) as Hhi.
  replace (Z.min e1 e2) with e2 by lia.
  unfold shl_align. rewrite Z.sub_diag.
  destruct (e2 - e1)%Z as [|d|d] eqn:Ed; try lia.
  cbn [fst]. pose proof (iter_xO_double m1 d). lia.
Qed.

Lemma align_same_exponent m e : fst (shl_align m e (Z.min e e)) = m.
Proof. unfold shl_align. rewrite Z.min_id, Z.sub_diag. reflexivity. Qed.

(** Rounding a mantissa that is not negative with a clear sign bit gives
    a value that is not below 0 (and not NaN). *)
Lemma binary_round_aux_nonneg mx ex lx :
  (0 <= mx)%Z ->
  SFleb (S754_zero false) (binary_round_aux prec emax false mx ex lx) = true.
Proof.
  intros H. unfold binary_round_aux.
  pose proof (shr_fexp_nonneg mx ex lx H) as H1.
  destruct (shr_fexp prec emax mx ex lx) as [mrs' e']. cbn [fst] in H1.
  pose proof (shr_fexp_nonneg _ e' loc_Exact
                (round_nearest_even_nonneg _ (loc_of_shr_record mrs') H1)) as H2.
  destruct (shr_fexp prec emax _ e' loc_Exact) as [mrs'' e'']. cbn [fst] in H2.
  destruct (shr_m mrs''); [reflexivity| |lia].
  now destruct (Z.leb e'' (emax - prec)).
Qed.

Lemma binary_round_nonneg m e :
  SFleb (S754_zero false) (binary_round prec emax false m e) = true.
Proof.
  unfold binary_round.
  destruct (shl_align m e _) as [mz ez]. apply binary_round_aux_nonneg. lia.
Qed.

Lemma binary_normalize_nonneg m e :
  (0 <= m)%Z ->
  SFleb (S754_zero false) (binary_normalize prec emax m e false) = true.
Proof.
  intros H. destruct m; [reflexivity|apply binary_round_nonneg|lia].
Qed.

(** The difference of two finite numbers in order is not below 0. *)
Lemma SFsub_nonneg sx mx ex sy my ey :
  canonical_mantissa prec emax mx ex = true ->
  canonical_mantissa prec emax my ey = true ->
  SFleb (S754_finite sy my ey) (S754_finite sx mx ex) = true ->
  SFleb (S754_zero false)
        (SFsub prec emax (S754_finite sx mx ex) (S754_finite sy my ey)) = true.
Proof.
  intros Hx Hy Hle. cbn [SFsub]. cbv zeta. apply binary_normalize_nonneg.
  unfold SFleb, SFcompare in Hle.
  destruct sy, sx; cbn [cond_Zopp]; try discriminate; try lia.
  - (* both negative: the magnitude of y is the larger *)
    destruct (Z.compare_spec ey ex) as [E|E|E]; try discriminate.
    + subst ey. rewrite !align_same_exponent.
      destruct (Pos.compare_cont Eq my mx) eqn:C; try discriminate.
      * apply Pos.compare_eq in C. subst. lia.
      * change (Pos.compare_cont Eq my mx) with (Pos.compare my mx) in C.
        apply Pos.compare_gt_iff in C. lia.
    + pose proof (align_larger_exponent my ey mx ex Hy Hx E) as G.
      rewrite Z.min_comm in G. lia.
  - (* both positive: the magnitude of x is the larger *)
    destruct (Z.compare_spec ey ex) as [E|E|E]; try discriminate.
    + subst ey. rewrite !align_same_exponent.
      destruct (Pos.compare_cont Eq my mx) eqn:C; try discriminate.
      * apply Pos.compare_eq in C. subst. lia.
      * change (Pos.compare_cont Eq my mx) with (Pos.compare my mx) in C.
        assert (G : (my < mx)%positive) by exact C. lia.
    + pose proof (align_larger_exponent mx ex my ey Hx Hy E) as G. lia.
Qed.

Lemma canonical_of_float x s m e :
  Prim2SF x = S754_finite s m e -> canonical_mantissa prec emax m e = true.
Proof.
  intros H. pose proof (Prim2SF_valid x) as V. rewrite H in V.
  unfold valid_binary, bounded in V. now apply andb_true_iff in V.
Qed.

(** [x - y] is not below 0 (and not NaN) when [y <= x] and [x] is finite. *)
Lemma sub_nonneg x y :
  is_finite x = true -> (y <=? x) = true -> (0 <=? x - y) = true.
Proof.
  intros Hf Hle. rewrite FloatAxioms.leb_spec in *. rewrite sub_spec.
  change (Prim2SF 0) with (S754_zero false).
  destruct (finite_cases x Hf) as [[sx Hx]|(sx & mx & ex & Hx)];
    rewrite Hx in *;
    destruct (Prim2SF y) as [sy|sy| |sy my ey] eqn:Hy; try discriminate.
  all: try (destruct sx, sy; try discriminate; reflexivity).
  apply SFsub_nonneg; [eapply canonical_of_float; eassumption ..|exact Hle].
Qed.

(** A value that is not below 0, divided by a positive finite one. *)
Lemma div_nonneg x y :
  (0 <=? x) = true -> is_finite y = true -> (0 <? y) = true -> (0 <=? x / y) = true.
Proof.
  intros Hx Hf Hy. rewrite FloatAxioms.leb_spec in *. rewrite FloatAxioms.ltb_spec in Hy.
  rewrite div_spec. change (Prim2SF 0) with (S754_zero false) in *.
  destruct (finite_cases y Hf) as [[sy Ey]|(sy & my & ey & Ey)]; rewrite Ey in *;
    [discriminate|].
  destruct sy; [discriminate|].
  destruct (Prim2SF x) as [sx|sx| |sx mx ex]; try discriminate.
  - reflexivity.
  - now destruct sx.
  - destruct sx; [discriminate|]. cbn [SF64div SFdiv xorb].
    unfold SF64div, SFdiv. cbn [xorb].
    destruct (SFdiv_core_binary prec emax (Z.pos mx) ex (Z.pos my) ey)
      as [[mz ez] lz] eqn:Ec.
    apply binary_round_aux_nonneg.
    unfold SFdiv_core_binary in Ec. cbv zeta in Ec.
    match type of Ec with
    | (let '(q, r) := Z.div_eucl ?a ?b in _) = _ =>
        pose proof (Z.div_pos a b) as Hq; unfold Z.div in Hq;
        assert (Ha : (0 <= a)%Z);
        [|destruct (Z.div_eucl a b) as [q r]; inversion Ec; subst; apply Hq; lia]
    end.
    destruct (ex - ey - _)%Z; try lia. apply Z.shiftl_nonneg. lia.
Qed.

(** A value that is not below 0, times 100. *)
Lemma percent_nonneg x : (0 <=? x) = true -> (0 <=? x * 100) = true.
Proof.
  intros Hx. rewrite FloatAxioms.leb_spec in *. rewrite mul_spec.
  change (Prim2SF 0) with (S754_zero false) in *.
  destruct (Prim2SF x) as [sx|sx| |sx mx ex]; try discriminate.
  - reflexivity.
  - now destruct sx.
  - destruct sx; [discriminate|].
    change (Prim2SF 100) with (S754_finite false 7036874417766400 (-46)).
    unfold SF64mul, SFmul. cbn [xorb]. apply binary_round_aux_nonneg. lia.
Qed.

(** A value that is not below 0, times a positive finite one. *)
Lemma mul_nonneg_pos x y :
  (0 <=? x) = true -> is_finite y = true -> (0 <? y) = true -> (0 <=? x * y) = true.
Proof.
  intros Hx Hf Hy. rewrite FloatAxioms.leb_spec in *. rewrite FloatAxioms.ltb_spec in Hy.
  rewrite mul_spec. change (Prim2SF 0) with (S754_zero false) in *.
  destruct (finite_cases y Hf) as [[sy Ey]|(sy & my & ey & Ey)]; rewrite Ey in *;
    [discriminate|].
  destruct sy; [discriminate|].
  destruct (Prim2SF x) as [sx|sx| |sx mx ex]; try discriminate.
  - reflexivity.
  - now destruct sx.
  - destruct sx; [discriminate|].
    unfold SF64mul, SFmul. cbn [xorb]. apply binary_round_aux_nonneg. lia.
Qed.

(** The sum of two values that are not below 0. *)
Lemma add_nonneg x y :
  (0 <=? x) = true -> (0 <=? y) = true -> (0 <=? x + y) = true.
Proof.
  intros Hx Hy. rewrite FloatAxioms.leb_spec in *. rewrite add_spec.
  change (Prim2SF 0) with (S754_zero false) in *.
  destruct (Prim2SF x) as [sx|sx| |sx mx ex]; try discriminate;
    destruct (Prim2SF y) as [sy|sy| |sy my ey]; try discriminate;
    try (destruct sx; try discriminate); try (destruct sy; try discriminate);
    try reflexivity.
  unfold SF64add, SFadd. cbv zeta. apply binary_normalize_nonneg.
  cbn [cond_Zopp]. lia.
Qed.

Lemma calculateDrawdown_nonneg currentEquity peakEquity :
  is_finite peakEquity = true ->
  (currentEquity <=? peakEquity) = true ->
  (0 <=? calculateDrawdown currentEquity peakEquity) = true.
Proof.
  intros Hf Hle. unfold calculateDrawdown.
  destruct (peakEquity <=? 0) eqn:E; [reflexivity|].
  apply percent_nonneg, div_nonneg; [now apply sub_nonneg|exact Hf|].
  assert (Hp : is_number peakEquity).
  { unfold is_number. unfold is_finite in Hf. now destruct (is_nan peakEquity). }
  assert (H0 : is_number 0) by reflexivity.
  clear - E Hp H0. float_order.
Qed.

(** X26: a drawdown is never negative (and never NaN) as long as the
    current equity is at or below a finite peak, whatever the sign of
    either figure; an [updatePortfolio] that ends on such a pair stores a
    drawdown that is not negative and leaves the peak where it is. *)
Theorem drawdown_not_negative_below_peak currentEquity peakEquity :
  is_finite peakEquity = true ->
  (currentEquity <=? peakEquity) = true ->
  (0 <=? calculateDrawdown currentEquity peakEquity) = true /\
  forall updates prev,
    PortfolioState.currentEquity (spread prev updates) = currentEquity ->
    PortfolioState.peakEquity (spread prev updates) = peakEquity ->
    let next := updatePortfolio updates prev in
    (0 <=? PortfolioState.drawdown next) = true /\
    PortfolioState.peakEquity next = peakEquity.
Proof.
  intros Hf Hle. split; [now apply calculateDrawdown_nonneg|].
  intros updates prev Hc Hp. cbv zeta. unfold updatePortfolio.
  cbn [PortfolioState.drawdown PortfolioState.peakEquity].
  rewrite Hc, Hp. split; [now apply calculateDrawdown_nonneg|].
  unfold gt. now rewrite (leb_ltb_false _ _ Hle).
Qed.

(** An equity of 95000 under a peak of 100000. *)
Lemma drawdown_not_negative_below_peak_witness :
  (0 <=? calculateDrawdown 95000 100000) = true.
Proof.
  exact (proj1 (drawdown_not_negative_below_peak 95000 100000 eq_refl eq_refl)).
Defined.

End SignFacts.

(** ** The margin calculator *)

Module MarginFacts.
Import FloatFacts NumberFacts ZeroFacts SignFacts RiskEngine.
Local Open Scope float_scope.

Lemma truthy_number x : truthy x = true -> is_number x /\ (x =? 0) = false.
Proof.
  unfold truthy, is_number. rewrite negb_true_iff, orb_false_iff. tauto.
Qed.

Lemma not_infinite_finite x : is_number x -> is_infinity x = false -> is_finite x = true.
Proof. unfold is_number, is_finite. intros -> ->. reflexivity. Qed.

(** A field with its default: positive as soon as it is above its zero
    default, and never negative when the field is not. *)
Lemma field_or_0_positive x :
  ((if truthy x then x else 0) <=? 0) = false ->
  (if truthy x then x else 0) = x /\ (0 <? x) = true.
Proof.
  destruct (truthy x) eqn:T; [|discriminate].
  destruct (truthy_number _ T) as [Hn _]. intros H. split; [reflexivity|].
  assert (H0 : is_number 0) by reflexivity. float_order.
Qed.

Lemma field_or_0_not_positive x :
  ((if truthy x then x else 0) <=? 0) = true -> gt x 0 = false.
Proof.
  unfold gt. destruct (truthy x) eqn:T.
  - apply leb_ltb_false.
  - intros _. unfold truthy in T. rewrite negb_false_iff, orb_true_iff in T.
    destruct T as [T|T].
    + apply is_nan_iff in T. rewrite FloatAxioms.ltb_spec, T. reflexivity.
    + now destruct (eqb_ltb_false _ _ T).
Qed.

Lemma field_or_0_nonneg x :
  (x <? 0) = false -> (0 <=? (if truthy x then x else 0)) = true.
Proof.
  intros H. destruct (truthy x) eqn:T; [|reflexivity].
  destruct (truthy_number _ T) as [Hn _].
  assert (H0 : is_number 0) by reflexivity. float_order.
Qed.

Lemma field_or_1_positive x :
  (x <? 0) = false -> is_infinity x = false ->
  is_finite (if truthy x then x else 1) = true /\
  (0 <? (if truthy x then x else 1)) = true.
Proof.
  intros H Hi. destruct (truthy x) eqn:T; [|split; reflexivity].
  destruct (truthy_number _ T) as [Hn Hz].
  split; [now apply not_infinite_finite|].
  assert (H0 : is_number 0) by reflexivity. float_order.
Qed.

(** X23: the margin calculator shows no result unless the spot price and
    the quantity are above 0; when it shows one -- for a quantity and a
    lot size that are not infinite, a lot size and a premium that are not
    negative, fields left empty or unparsable included -- none of the
    four figures is negative or NaN, and of the futures margin, the
    options premium and the options selling margin the two that do not
    belong to the instrument type are exactly 0. *)
Theorem margin_result spotPrice quantity lotSize optionPremium instrumentType :
  is_infinity quantity = false -> is_infinity lotSize = false ->
  (lotSize <? 0) = false -> (optionPremium <? 0) = false ->
  match
    MarginCalculator.result spotPrice quantity lotSize optionPremium instrumentType
  with
  | None => gt spotPrice 0 = false \/ gt quantity 0 = false
  | Some r =>
      gt spotPrice 0 = true /\ gt quantity 0 = true /\
      (0 <=? MarginResult.futuresMargin r) = true /\
      (0 <=? MarginResult.optionsPremium r) = true /\
      (0 <=? MarginResult.optionsSellingMargin r) = true /\
      (0 <=? MarginResult.totalExposure r) = true /\
      match instrumentType with
      | FUTURES =>
          MarginResult.optionsPremium r = 0 /\ MarginResult.optionsSellingMargin r = 0
      | OPTIONS_BUY =>
          MarginResult.futuresMargin r = 0 /\ MarginResult.optionsSellingMargin r = 0
      | OPTIONS_SELL =>
          MarginResult.futuresMargin r = 0 /\ MarginResult.optionsPremium r = 0
      end
  end.
Proof.
  intros Hq Hl Hlot Hprem. unfold MarginCalculator.result. cbv zeta.
  match goal with
  | |- context [if (?a <=? 0) || (?b <=? 0) then _ else _] =>
      destruct (a <=? 0) eqn:Ep; cbn [orb];
        [left; now apply field_or_0_not_positive|];
      destruct (b <=? 0) eqn:Eq;
        [right; now apply field_or_0_not_positive|]
  end.
  destruct (field_or_0_positive _ Ep) as [-> Hp].
  destruct (field_or_0_positive _ Eq) as [-> Hqty].
  destruct (field_or_1_positive _ Hlot Hl) as [Hlf Hlp].
  pose proof (field_or_0_nonneg _ Hprem) as Hpr.
  destruct (ltb_true_number _ _ Hqty) as [_ Hnq].
  pose proof (not_infinite_finite _ Hnq Hq) as Hqf.
  set (lot := if truthy lotSize then lotSize else 1) in *.
  set (premium := if truthy optionPremium then optionPremium else 0) in *.
  assert (Hcv : (0 <=? spotPrice * quantity * lot) = true).
  { apply mul_nonneg_pos; [|assumption..].
    apply mul_nonneg_pos; [|assumption..]. now apply ltb_leb. }
  assert (Hpv : (0 <=? premium * quantity * lot) = true).
  { apply mul_nonneg_pos; [|assumption..]. now apply mul_nonneg_pos. }
  unfold gt. split; [exact Hp|]. split; [exact Hqty|].
  unfold calculateMarginRequirements. cbv zeta.
  destruct instrumentType;
    cbn [MarginResult.futuresMargin MarginResult.optionsPremium
         MarginResult.optionsSellingMargin MarginResult.totalExposure premium_or_0];
    repeat apply conj; try reflexivity; try assumption.
  - now apply mul_nonneg_pos.
  - apply add_nonneg; [now apply mul_nonneg_pos|assumption].
Qed.

(** Two lots of 50 sold at a spot price of 22000, the premium field left
    empty. *)
Lemma margin_result_witness :
  match MarginCalculator.result 22000 2 50 nan OPTIONS_SELL with
  | None => gt 22000 0 = false \/ gt 2 0 = false
  | Some r =>
      gt 22000 0 = true /\ gt 2 0 = true /\
      (0 <=? MarginResult.futuresMargin r) = true /\
      (0 <=? MarginResult.optionsPremium r) = true /\
      (0 <=? MarginResult.optionsSellingMargin r) = true /\
      (0 <=? MarginResult.totalExposure r) = true /\
      (MarginResult.futuresMargin r = 0 /\ MarginResult.optionsPremium r = 0)
  end.
Proof.
  exact (margin_result 22000 2 50 nan OPTIONS_SELL eq_refl eq_refl eq_refl eq_refl).
Defined.

End MarginFacts.

(** ** The drawdown charts *)

Module ChartFacts.
Import FloatFacts NumberFacts ZeroFacts SignFacts RiskEngine.
Local Open Scope float_scope.

Lemma finite_is_number x : is_finite x = true -> is_number x.
Proof. unfold is_finite, is_number. now destruct (is_nan x). Qed.

(** The loop keeps the peak finite, positive and at or above the equity,
    as long as the equities it meets are finite. *)
Lemma history_loop_nonneg l :
  forall i peak equity,
    is_finite peak = true -> (0 <? peak) = true ->
    Forall (fun p => is_finite (DrawdownControl.equity p) = true)
           (DrawdownControl.history_loop l i peak equity) ->
    Forall (fun p => (0 <=? DrawdownControl.drawdown p) = true)
           (DrawdownControl.history_loop l i peak equity).
Proof.
  induction l as [|t l IH]; intros i peak equity Hf Hpos Hall; [constructor|].
  cbn [DrawdownControl.history_loop] in *. cbv zeta in *.
  inversion Hall as [|pt rest Hhead Hrest]; subst. cbn [DrawdownControl.equity] in Hhead.
  remember (equity + pnl_or_0 t) as e' eqn:Ee.
  pose proof (finite_is_number _ Hhead) as Hne.
  pose proof (finite_is_number _ Hf) as Hnp.
  unfold gt in *.
  destruct (peak <? e') eqn:Egt.
  - constructor.
    + cbn [DrawdownControl.drawdown].
      apply percent_nonneg, div_nonneg;
        [apply sub_nonneg; [exact Hhead|now apply leb_refl]|exact Hhead|].
      clear - Hpos Egt. float_order.
    + apply IH; [exact Hhead| |exact Hrest]. clear - Hpos Egt. float_order.
  - constructor.
    + cbn [DrawdownControl.drawdown].
      apply percent_nonneg, div_nonneg;
        [apply sub_nonneg; [exact Hf|now apply ltb_false_leb]|exact Hf|exact Hpos].
    + apply IH; [exact Hf|exact Hpos|exact Hrest].
Qed.

Lemma history_loop_numbering l :
  forall i peak equity,
    map DrawdownControl.trade (DrawdownControl.history_loop l i peak equity) =
    seq (i + 1) (List.length l).
Proof.
  induction l as [|t l IH]; intros i peak equity; [reflexivity|].
  cbn [DrawdownControl.history_loop map List.length seq DrawdownControl.trade].
  cbv zeta. rewrite IH. f_equal. f_equal. lia.
Qed.

Lemma history_loop_length l i peak equity :
  List.length (DrawdownControl.history_loop l i peak equity) = List.length l.
Proof.
  rewrite <- (length_map DrawdownControl.trade), history_loop_numbering.
  apply length_seq.
Qed.

Lemma drawdown_loop_history_loop l :
  forall i peak equity,
    Analytics.drawdown_loop l i peak equity =
    map (fun p => Analytics.mkDatum (DrawdownControl.trade p) (DrawdownControl.drawdown p))
        (DrawdownControl.history_loop l i peak equity).
Proof.
  induction l as [|t l IH]; intros i peak equity; [reflexivity|].
  cbn [DrawdownControl.history_loop Analytics.drawdown_loop map
       DrawdownControl.trade DrawdownControl.drawdown].
  cbv zeta. now rewrite IH.
Qed.

Lemma closed_with_pnl_is_closed t :
  DrawdownControl.closed_with_pnl t = true -> is_closed t = true.
Proof.
  unfold DrawdownControl.closed_with_pnl, is_closed.
  destruct (Trade.status t), (Trade.pnl t); congruence.
Qed.

Lemma filter_length_le {A} (p q : A -> bool) l :
  (forall x, p x = true -> q x = true) ->
  (List.length (filter p l) <= List.length (filter q l))%nat.
Proof.
  intros H. induction l as [|a l IH]; [cbn; lia|].
  cbn [filter]. destruct (p a) eqn:E.
  - rewrite (H _ E). cbn. lia.
  - destruct (q a); cbn; lia.
Qed.

(** X27: on the drawdown chart of the drawdown screen no drawdown is
    negative or NaN, as long as the starting capital is finite and
    positive and every equity on the chart is finite: the loop raises the
    peak before it computes the drawdown.  The points are numbered 0, 1,
    2, ... and there is one per closed trade with a pnl other than 0 and
    NaN, after the starting point. *)
Theorem drawdown_history_not_negative trades portfolio :
  let history := DrawdownControl.drawdownHistory trades portfolio in
  (is_finite (PortfolioState.capital portfolio) = true ->
   (0 <? PortfolioState.capital portfolio) = true ->
   Forall (fun p => is_finite (DrawdownControl.equity p) = true) history ->
   Forall (fun p => (0 <=? DrawdownControl.drawdown p) = true) history) /\
  map DrawdownControl.trade history = seq 0 (List.length history) /\
  List.length history =
    S (List.length (filter DrawdownControl.closed_with_pnl trades)).
Proof.
  cbv zeta. unfold DrawdownControl.drawdownHistory.
  repeat apply conj.
  - intros Hf Hpos Hall. inversion Hall as [|pt rest _ Hrest]; subst.
    constructor; [reflexivity|]. now apply history_loop_nonneg.
  - cbn [map List.length seq DrawdownControl.trade].
    now rewrite history_loop_numbering, history_loop_length.
  - cbn [List.length]. now rewrite history_loop_length.
Qed.

(** Two losses and a gain on the default portfolio. *)
Lemma drawdown_history_not_negative_witness :
  let t pnl :=
    Trade.mk "T" "2024-01-02" "NIFTY" LONG 100 95 110 10 (Some 100) (Some pnl) 2
      CLOSED None in
  Forall (fun p => (0 <=? DrawdownControl.drawdown p) = true)
    (DrawdownControl.drawdownHistory [t (-500); t 2000; t (-300)]
       TradingContext.DEFAULT_PORTFOLIO).
Proof.
  cbv zeta.
  match goal with
  | |- Forall _ (DrawdownControl.drawdownHistory ?l ?p) =>
      apply (proj1 (drawdown_history_not_negative l p)); [reflexivity|reflexivity|]
  end.
  repeat constructor.
Defined.

(** X28: the drawdown chart of the analytics screen shows the same
    numbering and the same drawdowns as the chart of the drawdown
    screen; and both leave out the closed trades with a pnl of 0 that the
    performance metrics count, so they have at most one point more than
    the metrics have trades. *)
Theorem drawdown_charts_agree trades portfolio :
  Analytics.drawdownData trades portfolio =
    map (fun p => Analytics.mkDatum (DrawdownControl.trade p) (DrawdownControl.drawdown p))
        (DrawdownControl.drawdownHistory trades portfolio) /\
  (List.length (DrawdownControl.drawdownHistory trades portfolio) <=
   S (PerformanceMetrics.totalTrades (calculatePerformanceMetrics trades)))%nat.
Proof.
  split.
  - unfold Analytics.drawdownData, DrawdownControl.drawdownHistory.
    cbn [map DrawdownControl.trade DrawdownControl.drawdown].
    now rewrite drawdown_loop_history_loop.
  - unfold DrawdownControl.drawdownHistory. cbn [List.length].
    rewrite history_loop_length. apply le_n_S.
    pose proof (filter_length_le DrawdownControl.closed_with_pnl is_closed trades
                  closed_with_pnl_is_closed) as Hle.
    unfold calculatePerformanceMetrics.
    destruct (Nat.eqb (List.length (filter is_closed trades)) 0) eqn:E.
    + apply Nat.eqb_eq in E. cbn [PerformanceMetrics.totalTrades]. lia.
    + cbv zeta. cbn [PerformanceMetrics.totalTrades]. exact Hle.
Qed.

End ChartFacts.
